(** * TechScanIQ continuous monitoring pipeline: a shallow embedding

    The development follows the Python sources under
    [techscaniq-v2/backend]:

    - [detection/change_detector.py]    (modules [ChangeDetector],
                                         [DetectorFacts])
    - [streaming/kafka_client.py]       (modules [Kafka], [KafkaFacts])
    - [pipeline/monitoring_pipeline.py] (modules [RateLimiter], [Pipeline],
                                         [PipelineFacts], [Scheduling])
    - [alerting/alert_engine.py]        (modules [AlertEngine], [AlertRules],
                                         [SMSChannel])

    with the primitives of Python ([Py]), of the cache ([Redis]) and of the
    URL parser ([Urllib]) they rely on.

    Conventions of the embedding.
    - Python [dict]s used as maps are [gmap]s, Python [set]s are [gset]s;
      iterating one of them is [map_to_list] / [elements]: one traversal
      order, fixed once and for all, as in one run of the interpreter.
      Python leaves the order unspecified; what is stated about the members
      of a list of changes does not depend on it.
    - JSON numbers (Python [int]/[float]) are rationals [Q].
    - Wall-clock instants are integers (seconds); every function that reads
      the clock in the source takes the reading as an argument, one reading
      for the reads of a step that takes no time to speak of, and one per
      read where the time between them counts ([detect_changes],
      [_trigger_scan]).
    - A [try: ... except Exception:] block is an [option] computation
      wrapped by the handler's fallback value.
    - Strings are byte strings; case conversion and white space are ASCII.
    - A table is the list or the map of its rows; a column of type [uuid]
      holds the 128-bit integer, a JSON column the value stored; the
      columns of [monitoring_alerts] that the [INSERT] of an alert does not
      name hold the defaults of the table's declaration, which are
      parameters ([AlertEngine.ColumnDefaults]).  The database and the cache answer every request, the cluster accepts or
      refuses each publish: the other exceptions modelled are those the
      code raises by itself, on an id that is not the text of a UUID, on a
      URL the parser refuses, on a duration the cache refuses, on a channel
      whose handler cannot be built. *)

From Stdlib Require Import ZArith QArith Qabs Lqa Lia Bool Ascii String.
From stdpp Require Import gmap strings list fin_maps sorting.

Open Scope string_scope.
Open Scope list_scope.

(** ** Python primitives used by the sources *)

Module Py.

(** [str.lower()] on ASCII. *)
Definition lower_ascii (c : ascii) : ascii :=
  let n := nat_of_ascii c in
  if ((65 <=? n) && (n <=? 90))%nat then ascii_of_nat (n + 32) else c.

Fixpoint lower (s : string) : string :=
  match s with
  | EmptyString => EmptyString
  | String c r => String (lower_ascii c) (lower r)
  end.

(** [prefix in s] at position 0. *)
Fixpoint startswith (p s : string) : bool :=
  match p, s with
  | EmptyString, _ => true
  | String a p', String b s' => if Ascii.eqb a b then startswith p' s' else false
  | String _ _, EmptyString => false
  end.

(** [sub in s] for strings. *)
Fixpoint contains (sub s : string) : bool :=
  startswith sub s ||
  match s with
  | EmptyString => false
  | String _ s' => contains sub s'
  end.

(** [s.split(sep)] for a one-character separator. *)
Fixpoint split (sep : ascii) (s : string) : list string :=
  match s with
  | EmptyString => [EmptyString]
  | String c r =>
      if Ascii.eqb c sep then EmptyString :: split sep r
      else match split sep r with
           | [] => [String c EmptyString]
           | w :: ws => String c w :: ws
           end
  end.

(** White space as [str.strip()] sees it (ASCII part). *)
Definition is_space (c : ascii) : bool :=
  let n := nat_of_ascii c in
  (((9 <=? n) && (n <=? 13)) || ((28 <=? n) && (n <=? 32)))%nat.

(** [s.lstrip(...)] and [s.rstrip(...)], for the characters [p] holds of. *)
Fixpoint lstrip_by (p : ascii → bool) (s : string) : string :=
  match s with
  | EmptyString => EmptyString
  | String c r => if p c then lstrip_by p r else s
  end.

Fixpoint rstrip_by (p : ascii → bool) (s : string) : string :=
  match s with
  | EmptyString => EmptyString
  | String c r =>
      match rstrip_by p r with
      | EmptyString => if p c then EmptyString else String c EmptyString
      | r' => String c r'
      end
  end.

Definition strip_by (p : ascii → bool) (s : string) : string :=
  rstrip_by p (lstrip_by p s).

(** [s.strip()] *)
Definition strip (s : string) : string := strip_by is_space s.

(** [c in chars] for a character. *)
Fixpoint among (chars : string) (c : ascii) : bool :=
  match chars with
  | EmptyString => false
  | String a r => Ascii.eqb a c || among r c
  end.

(** [s.strip(chars)] *)
Definition strip_chars (chars s : string) : string := strip_by (among chars) s.

(** [s.replace(sub, '')] for a non-empty [sub]: the occurrences are found
    from the left and do not overlap; [skip] counts the characters of the
    occurrence being dropped. *)
Fixpoint remove_from (sub : string) (skip : nat) (s : string) : string :=
  match s with
  | EmptyString => EmptyString
  | String c r =>
      match skip with
      | S k => remove_from sub k r
      | O =>
          if startswith sub s then remove_from sub (String.length sub - 1) r
          else String c (remove_from sub 0 r)
      end
  end.

Definition remove (sub s : string) : string := remove_from sub 0 s.

(** Truthiness of a string and of an optional string ([None] and [''] are
    falsy). *)
Definition truthy (s : string) : bool :=
  match s with EmptyString => false | _ => true end.

Definition truthy_opt (o : option string) : bool :=
  match o with Some s => truthy s | None => false end.

(** White space as [int()] skips it around a literal. *)
Definition is_int_space (c : ascii) : bool :=
  let n := nat_of_ascii c in
  (((9 <=? n) && (n <=? 13)) || (n =? 32))%nat.

Definition digit_val (c : ascii) : option Z :=
  let n := nat_of_ascii c in
  if ((48 <=? n) && (n <=? 57))%nat then Some (Z.of_nat (n - 48)) else None.

(** The digit part of an [int()] literal in base 10: digits, with single
    underscores allowed between two digits. *)
Fixpoint int_digits (s : string) (acc : Z) (after_digit : bool) : option Z :=
  match s with
  | EmptyString => if after_digit then Some acc else None
  | String c r =>
      match digit_val c with
      | Some d => int_digits r (10 * acc + d)%Z true
      | None =>
          if Ascii.eqb c "_" && after_digit then int_digits r acc false
          else None
      end
  end.

(** [int(s)] for a string; [None] stands for [ValueError]. *)
Definition int (s : string) : option Z :=
  match strip_by is_int_space s with
  | String "-" r => Z.opp <$> int_digits r 0%Z false
  | String "+" r => int_digits r 0%Z false
  | t => int_digits t 0%Z false
  end.

Definition hex_val (c : ascii) : option Z :=
  let n := nat_of_ascii c in
  if ((48 <=? n) && (n <=? 57))%nat then Some (Z.of_nat (n - 48))
  else if ((97 <=? n) && (n <=? 102))%nat then Some (Z.of_nat (n - 87))
  else if ((65 <=? n) && (n <=? 70))%nat then Some (Z.of_nat (n - 55))
  else None.

(** The digit part of a literal in base 16. *)
Fixpoint hex_digits (s : string) (acc : Z) (after_digit : bool) : option Z :=
  match s with
  | EmptyString => if after_digit then Some acc else None
  | String c r =>
      match hex_val c with
      | Some d => hex_digits r (16 * acc + d)%Z true
      | None =>
          if Ascii.eqb c "_" && after_digit then hex_digits r acc false
          else None
      end
  end.

(** The literal after its sign: an optional [0x] or [0X], which one
    underscore may follow, then the digits. *)
Definition hex_literal (s : string) : option Z :=
  match s with
  | String "0" (String x r) =>
      if Ascii.eqb x "x" || Ascii.eqb x "X" then
        match r with
        | String "_" r' => hex_digits r' 0%Z false
        | _ => hex_digits r 0%Z false
        end
      else hex_digits s 0%Z false
  | _ => hex_digits s 0%Z false
  end.

(** [int(s, 16)] *)
Definition int16 (s : string) : option Z :=
  match strip_by is_int_space s with
  | String "-" r => Z.opp <$> hex_literal r
  | String "+" r => hex_literal r
  | t => hex_literal t
  end.

End Py.

Example py_split_version : Py.split "." "3.6.1" = ["3"; "6"; "1"].
Proof. reflexivity. Qed.

Example py_split_empty : Py.split "." "" = [""].
Proof. reflexivity. Qed.

Example py_int_examples :
  Py.int "17" = Some 17%Z /\ Py.int " 1_0 " = Some 10%Z /\
  Py.int "" = None /\ Py.int "0-beta" = None /\ Py.int "-3" = Some (-3)%Z.
Proof. repeat split; reflexivity. Qed.

Example py_contains_example :
  Py.contains "gtag" "my-gtag-loader" = true /\ Py.contains "gtag" "react" = false.
Proof. split; reflexivity. Qed.

Example py_int16_examples :
  Py.int16 "ff" = Some 255%Z /\ Py.int16 " 0x_1F " = Some 31%Z /\
  Py.int16 "0x" = None /\ Py.int16 "1__0" = None /\ Py.int16 "-0Xa" = Some (-10)%Z.
Proof. repeat split; reflexivity. Qed.

Example py_remove_examples :
  Py.remove "urn:" "urn:uuid:ab" = "uuid:ab" /\ Py.remove "-" "a-b--c" = "abc" /\
  Py.remove "aa" "aaa" = "a" /\ Py.strip_chars "{}" "{{a}b}" = "a}b".
Proof. repeat split; reflexivity. Qed.

(** ** Identifiers ([uuid])

    The ids of configs, scans and alerts travel as strings in the events
    and are columns of type [uuid] in the tables: every query converts with
    [uuid.UUID(...)], which raises [ValueError] on a string that is not the
    text of a UUID.  A UUID is its 128-bit integer. *)

Module Uuid.

(** [uuid.UUID(hex)]; [None] stands for [ValueError]. *)
Definition UUID (hex : string) : option Z :=
  let hex := Py.remove "uuid:" (Py.remove "urn:" hex) in
  let hex := Py.remove "-" (Py.strip_chars "{}" hex) in
  if (String.length hex =? 32)%nat then
    Py.int16 hex ≫= λ i, if ((0 <=? i) && (i <? 2 ^ 128))%Z then Some i else None
  else None.

(** [uuid.UUID(x)] where [x] may be [None] ([TypeError]). *)
Definition UUID_opt (hex : option string) : option Z := hex ≫= UUID.

Definition hex_char (d : Z) : ascii :=
  match d with
  | 0 => "0" | 1 => "1" | 2 => "2" | 3 => "3" | 4 => "4" | 5 => "5" | 6 => "6"
  | 7 => "7" | 8 => "8" | 9 => "9" | 10 => "a" | 11 => "b" | 12 => "c"
  | 13 => "d" | 14 => "e" | _ => "f"
  end%Z%char.

(** The last [digits] hexadecimal digits of [i], in lower case, before
    [acc]. *)
Fixpoint hex_of (digits : nat) (i : Z) (acc : string) : string :=
  match digits with
  | O => acc
  | S k => hex_of k (i / 16) (String (hex_char (i mod 16)) acc)
  end.

(** [str(u)] for a UUID: the 32 digits of ['%032x' % u.int], in groups of
    8, 4, 4, 4 and 12. *)
Definition str (u : Z) : string :=
  hex_of 8 (u / 16 ^ 24)
    (String "-" (hex_of 4 (u / 16 ^ 20)
       (String "-" (hex_of 4 (u / 16 ^ 16)
          (String "-" (hex_of 4 (u / 16 ^ 12) (String "-" (hex_of 12 u "")))))))).

Fixpoint all_chars (p : ascii → bool) (s : string) : bool :=
  match s with
  | EmptyString => true
  | String c r => p c && all_chars p r
  end.

Definition is_lower_hex (c : ascii) : bool := Py.among "0123456789abcdef" c.

Lemma hex_char_lower d : is_lower_hex (hex_char d) = true.
Proof.
  unfold hex_char. destruct d as [|p|p]; try reflexivity.
  do 4 (destruct p as [p|p|]; try reflexivity).
Qed.

Lemma all_chars_impl (p q : ascii → bool) s :
  (∀ c, p c = true → q c = true) → all_chars p s = true → all_chars q s = true.
Proof.
  intros Hpq. induction s as [|c r IH]; [done|]. cbn.
  intros [? ?]%andb_true_iff. apply andb_true_iff. auto.
Qed.

Lemma all_chars_hex_of p n i acc :
  (∀ d, p (hex_char d) = true) → all_chars p acc = true →
  all_chars p (hex_of n i acc) = true.
Proof.
  intros Hp. revert i acc. induction n as [|n IH]; intros i acc Hacc; [done|].
  cbn [hex_of]. apply IH. cbn. by rewrite Hp, Hacc.
Qed.

Ltac by_cases_of_char c :=
  destruct c as [[] [] [] [] [] [] [] []]; first [discriminate | reflexivity].

Lemma lower_hex_no_space c : is_lower_hex c = true → negb (Py.is_int_space c) = true.
Proof. by_cases_of_char c. Qed.

Lemma lower_hex_no_brace c : is_lower_hex c = true → negb (Py.among "{}" c) = true.
Proof. by_cases_of_char c. Qed.

Lemma lower_hex_no_u c : is_lower_hex c = true → negb (Ascii.eqb "u" c) = true.
Proof. by_cases_of_char c. Qed.

Lemma lower_hex_no_hyphen c : is_lower_hex c = true → Ascii.eqb "-" c = false.
Proof. by_cases_of_char c. Qed.

Lemma lower_hex_no_x c :
  is_lower_hex c = true → Ascii.eqb c "x" || Ascii.eqb c "X" = false.
Proof. by_cases_of_char c. Qed.

Lemma hex_val_hex_char d : (0 ≤ d < 16)%Z → Py.hex_val (hex_char d) = Some d.
Proof.
  intros Hd. destruct d as [|p|p]; [done| |lia].
  do 4 (destruct p as [p|p|]; try reflexivity); lia.
Qed.

(** A string [strip] finds nothing to take from. *)
Lemma strip_by_none p s : all_chars (λ c, negb (p c)) s = true → Py.strip_by p s = s.
Proof.
  unfold Py.strip_by. intros H.
  assert (Py.lstrip_by p s = s) as ->.
  { destruct s as [|c r]; [done|]. cbn in *. by destruct (p c). }
  induction s as [|c r IH]; [done|]. cbn in *.
  apply andb_true_iff in H as [Hc Hr]. rewrite (IH Hr).
  destruct r; [|done]. by destruct (p c).
Qed.

(** A string in which [sub] cannot start. *)
Lemma remove_none c0 sub s :
  all_chars (λ c, negb (Ascii.eqb c0 c)) s = true → Py.remove (String c0 sub) s = s.
Proof.
  unfold Py.remove. induction s as [|c r IH]; [done|]. cbn.
  intros [Hc Hr]%andb_true_iff. apply negb_true_iff in Hc. rewrite Hc.
  by rewrite (IH Hr).
Qed.

Lemma remove_char_here c s :
  Py.remove (String c "") (String c s) = Py.remove (String c "") s.
Proof. unfold Py.remove. cbn. by rewrite Ascii.eqb_refl. Qed.

Lemma remove_char_hex_of c n i acc :
  (∀ d, Ascii.eqb c (hex_char d) = false) →
  Py.remove (String c "") (hex_of n i acc) = hex_of n i (Py.remove (String c "") acc).
Proof.
  intros Hc. revert i acc. induction n as [|n IH]; intros i acc; [done|].
  cbn [hex_of]. rewrite IH. f_equal. unfold Py.remove. cbn. by rewrite Hc.
Qed.

Lemma length_hex_of n i acc : String.length (hex_of n i acc) = n + String.length acc.
Proof.
  revert i acc. induction n as [|n IH]; intros i acc; [done|].
  cbn [hex_of]. rewrite IH. cbn. lia.
Qed.

Lemma hex_digits_hex_of n i acc a b :
  Py.hex_digits (hex_of n i acc) a b
  = Py.hex_digits acc (a * 16 ^ Z.of_nat n + i mod 16 ^ Z.of_nat n) (b || (0 <? n)%nat).
Proof.
  revert i acc a b. induction n as [|n IH]; intros i acc a b.
  { cbn [hex_of]. rewrite orb_false_r. f_equal. rewrite Z.mod_1_r. cbn. lia. }
  cbn [hex_of]. rewrite IH. cbn [Py.hex_digits].
  rewrite hex_val_hex_char by (apply Z.mod_pos_bound; lia).
  rewrite orb_true_r. f_equal.
  rewrite Nat2Z.inj_succ, Z.pow_succ_r by lia.
  rewrite (Z.rem_mul_r i 16 (16 ^ Z.of_nat n)) by lia. lia.
Qed.

Lemma int16_lower_hex s :
  all_chars is_lower_hex s = true → Py.int16 s = Py.hex_digits s 0 false.
Proof.
  intros H. unfold Py.int16.
  rewrite strip_by_none
    by (revert H; apply all_chars_impl; apply lower_hex_no_space).
  destruct s as [|c [|x r]]; [done| |]; cbn in H.
  - apply andb_true_iff in H as [Hc _]. by_cases_of_char c.
  - apply andb_true_iff in H as [Hc [Hx%lower_hex_no_x _]%andb_true_iff].
    destruct c as [[] [] [] [] [] [] [] []];
      first [discriminate Hc | cbn; rewrite ?Hx; reflexivity].
Qed.

Lemma str_lower_hex_or_hyphen p u :
  (∀ d, p (hex_char d) = true) → p "-"%char = true → all_chars p (str u) = true.
Proof.
  intros Hp Hh. unfold str.
  repeat first [ apply all_chars_hex_of; [done|]
               | progress (cbn [all_chars]; rewrite ?Hh; cbn [andb]) ].
  done.
Qed.

(** [uuid.UUID(str(u))] is [u]. *)
Lemma UUID_str u : (0 ≤ u < 2 ^ 128)%Z → Uuid.UUID (str u) = Some u.
Proof.
  intros Hu. unfold Uuid.UUID.
  rewrite (remove_none "u" "rn:")
    by (apply str_lower_hex_or_hyphen; [intros d; apply lower_hex_no_u, hex_char_lower|done]).
  rewrite (remove_none "u" "uid:")
    by (apply str_lower_hex_or_hyphen; [intros d; apply lower_hex_no_u, hex_char_lower|done]).
  unfold Py.strip_chars.
  rewrite strip_by_none
    by (apply str_lower_hex_or_hyphen; [intros d; apply lower_hex_no_brace, hex_char_lower|done]).
  assert (∀ d, Ascii.eqb "-" (hex_char d) = false) as Hhyphen
    by (intros d; apply lower_hex_no_hyphen, hex_char_lower).
  unfold str.
  repeat first [ rewrite remove_char_hex_of by done | rewrite remove_char_here ].
  change (Py.remove "-" "") with "".
  rewrite !length_hex_of. cbn [String.length Nat.add Nat.eqb].
  rewrite int16_lower_hex
    by (repeat (apply all_chars_hex_of; [apply hex_char_lower|]); done).
  rewrite !hex_digits_hex_of. cbn [Py.hex_digits orb Nat.ltb Nat.leb mbind option_bind].
  match goal with |- (if ?c then _ else _) = _ => assert (c = true) as -> end.
  2:{ f_equal. change (Z.of_nat 8) with 8%Z. change (Z.of_nat 4) with 4%Z.
      change (Z.of_nat 12) with 12%Z. Z.to_euclidean_division_equations. lia. }
  apply andb_true_iff. rewrite Z.leb_le, Z.ltb_lt.
  change (Z.of_nat 8) with 8%Z. change (Z.of_nat 4) with 4%Z.
  change (Z.of_nat 12) with 12%Z. Z.to_euclidean_division_equations. lia.
Qed.

(** The integer of a UUID is a 128-bit one. *)
Lemma UUID_range hex u : Uuid.UUID hex = Some u → (0 ≤ u < 2 ^ 128)%Z.
Proof.
  unfold Uuid.UUID. destruct (_ =? _)%nat; [|done].
  intros (i & _ & Hi)%bind_Some.
  destruct (_ && _) eqn:Hrange; [|done]. injection Hi as <-.
  apply andb_true_iff in Hrange. rewrite Z.leb_le, Z.ltb_lt in Hrange. done.
Qed.

End Uuid.

Example uuid_examples :
  Uuid.UUID "6f1c2a9e-5b3d-4c7a-9e21-0a4b8c6d2e10"
  = Some 0x6f1c2a9e5b3d4c7a9e210a4b8c6d2e10%Z /\
  Uuid.UUID "{urn:uuid:6F1C2A9E-5B3D-4C7A-9E21-0A4B8C6D2E10}"
  = Some 0x6f1c2a9e5b3d4c7a9e210a4b8c6d2e10%Z /\
  Uuid.UUID "0x111111111111111111111111111111"
  = Some 0x00111111111111111111111111111111%Z /\
  Uuid.UUID "cfg-1" = None /\ Uuid.UUID "" = None /\
  Uuid.UUID "6f1c2a9e-5b3d-4c7a-9e21-0a4b8c6d2e1g" = None /\
  Uuid.str 0x6f1c2a9e5b3d4c7a9e210a4b8c6d2e10 = "6f1c2a9e-5b3d-4c7a-9e21-0a4b8c6d2e10" /\
  Uuid.str 255 = "00000000-0000-0000-0000-0000000000ff".
Proof. repeat split; vm_compute; reflexivity. Qed.

(** Comparisons of JSON numbers. *)
Definition Qltb (x y : Q) : bool := negb (Qle_bool y x).
Definition Qgtb (x y : Q) : bool := Qltb y x.

Lemma Qltb_lt x y : Qltb x y = true <-> (x < y)%Q.
Proof.
  unfold Qltb. rewrite negb_true_iff, <- not_true_iff_false, Qle_bool_iff.
  split; [apply Qnot_le_lt | apply Qlt_not_le].
Qed.

(** ** The expiring key-value cache (Redis)

    Every component keeps its short-lived marks in one: a key set at
    instant [now] for [seconds] is visible strictly before [now + seconds].
    [setex] refuses a non-positive duration: the server answers with an
    error, [None] here, which the callers catch or let escape as the source
    does. *)

Module Redis.

Definition get {V} (now : Z) (key : string) (db : gmap string (V * Z)) : option V :=
  match db !! key with
  | Some (v, expires_at) => if (now <? expires_at)%Z then Some v else None
  | None => None
  end.

Definition exists_ {V} (now : Z) (key : string) (db : gmap string (V * Z)) : bool :=
  match get now key db with Some _ => true | None => false end.

Definition setex {V} (now : Z) (key : string) (seconds : Z) (v : V)
    (db : gmap string (V * Z)) : option (gmap string (V * Z)) :=
  if (0 <? seconds)%Z then Some (<[key := (v, (now + seconds)%Z)]> db) else None.

End Redis.

(** ** The change detector ([detection/change_detector.py]) *)

Module ChangeDetector.

(** *** Scan snapshots: the [result_summary] of a [scan.completed] event.
    A field of type [option] is a key that may be absent from the dict. *)

Record Technology := {
  name : string;
  version : option string;
  category : option string;
  confidence : option Q;
  detection_method : option string;
  indicators : option (list string) }.

Record Technologies := {
  detected : option (list Technology);
  tech_scan_timestamp : option string }.

Record Performance := {
  metrics_of : gmap string Q;
  issues : option (list string);
  perf_scan_timestamp : option string }.

Record Vulnerability := {
  vuln_id : option string;
  vuln_type : option string;
  vuln_severity : option string;
  vuln_description : option string;
  vuln_cve_ids : option (list string);
  vuln_remediation : option string }.

Record SslInfo := { fingerprint : option string }.

Record Security := {
  vulnerabilities : option (list Vulnerability);
  security_headers : option (gmap string string);
  ssl_info : option SslInfo }.

Record Content := {
  title : option string;
  meta_description : option string;
  content_hash : option string }.

Record Infrastructure := {
  server_software : option string;
  ip_address : option string;
  cdn_providers : option (list string) }.

Record Scan := {
  technologies : option Technologies;
  performance : option Performance;
  security : option Security;
  content : option Content;
  infrastructure : option Infrastructure;
  scan_timestamp : option string;
  scan_id : option string }.

(** [d.get(key, {})] for the five sections of a snapshot. *)
Definition no_technologies : Technologies :=
  {| detected := None; tech_scan_timestamp := None |}.
Definition no_performance : Performance :=
  {| metrics_of := ∅; issues := None; perf_scan_timestamp := None |}.
Definition no_ssl_info : SslInfo := {| fingerprint := None |}.
Definition no_security : Security :=
  {| vulnerabilities := None; security_headers := None; ssl_info := None |}.
Definition no_content : Content :=
  {| title := None; meta_description := None; content_hash := None |}.
Definition no_infrastructure : Infrastructure :=
  {| server_software := None; ip_address := None; cdn_providers := None |}.

(** *** Changes: the dicts appended to the change list, by shape. *)

Inductive TechEvidence :=
| EvDetected (ev_detection_method : option string) (ev_indicators : list string)
| EvLastSeen (ev_last_seen ev_detection_method : option string)
| EvVersionComparison (ev_old ev_new : string) (ev_is_upgrade : bool).

Record TechnologyChange := {
  tc_change_type : string;
  tc_technology_name : string;
  tc_technology_category : string;
  tc_old_version : option string;
  tc_new_version : option string;
  tc_confidence : Q;
  tc_impact_assessment : string;
  tc_evidence : TechEvidence }.

Record PerformanceChange := {
  pc_metric_name : string;
  pc_metric_display_name : string;
  pc_unit : string;
  pc_old_value : Q;
  pc_new_value : Q;
  pc_change_percent : Q;
  pc_threshold_exceeded : bool;
  pc_severity : string;
  pc_is_degradation : bool;
  pc_threshold_used : Q;
  pc_old_scan_time : option string;
  pc_new_scan_time : option string }.

Record PerformanceIssue := {
  pi_change_type : string;
  pi_issue : string;
  pi_severity : string }.

Inductive SecEvidence :=
| EvVulnerability (ev_details : Vulnerability) (ev_cve_ids : list string)
| EvFixed (ev_fixed : Vulnerability)
| EvHeader (ev_header : string) (ev_old_value : string) (ev_new_value : option string)
| EvCertificate (ev_old_certificate ev_new_certificate : SslInfo).

Record SecurityChange := {
  sc_change_type : string;
  sc_vulnerability_type : option string;
  sc_severity : string;
  sc_description : string;
  sc_evidence : SecEvidence;
  sc_remediation_advice : option string }.

Inductive ContentEvidence :=
| EvText (ev_old_text ev_new_text : string) (ev_similarity_score : Q)
| EvHash (ev_old_hash ev_new_hash : string).

Record ContentChange := {
  cc_change_type : string;
  cc_description : string;
  cc_severity : string;
  cc_evidence : ContentEvidence }.

Inductive InfraEvidence :=
| EvServer (ev_old_server ev_new_server : string)
| EvIp (ev_old_ip ev_new_ip : string)
| EvCdn (ev_old_cdn ev_new_cdn ev_added_cdns ev_removed_cdns : list string).

Record InfrastructureChange := {
  ic_change_type : string;
  ic_description : string;
  ic_severity : string;
  ic_evidence : InfraEvidence }.

Inductive Change :=
| Technology_change (c : TechnologyChange)
| Performance_change (c : PerformanceChange)
| Performance_issue (c : PerformanceIssue)
| Security_change (c : SecurityChange)
| Content_change (c : ContentChange)
| Infrastructure_change (c : InfrastructureChange).

(** [change.get('type')] *)
Definition get_type (c : Change) : string :=
  match c with
  | Technology_change _ => "technology_change"
  | Performance_change _ | Performance_issue _ => "performance_change"
  | Security_change _ => "security_change"
  | Content_change _ => "content_change"
  | Infrastructure_change _ => "infrastructure_change"
  end.

(** [change.get('change_type')] *)
Definition get_change_type (c : Change) : option string :=
  match c with
  | Technology_change t => Some (tc_change_type t)
  | Performance_change _ => None
  | Performance_issue i => Some (pi_change_type i)
  | Security_change s => Some (sc_change_type s)
  | Content_change k => Some (cc_change_type k)
  | Infrastructure_change i => Some (ic_change_type i)
  end.

(** [change.get('change_percent')]: only a metric change carries the key. *)
Definition get_change_percent (c : Change) : option Q :=
  match c with
  | Performance_change p => Some (pc_change_percent p)
  | _ => None
  end.

(** [change.get('confidence')]: only a technology change carries the key. *)
Definition get_confidence (c : Change) : option Q :=
  match c with
  | Technology_change t => Some (tc_confidence t)
  | _ => None
  end.

(** [change.get('severity')] *)
Definition get_severity (c : Change) : option string :=
  match c with
  | Technology_change _ => None
  | Performance_change p => Some (pc_severity p)
  | Performance_issue i => Some (pi_severity i)
  | Security_change s => Some (sc_severity s)
  | Content_change k => Some (cc_severity k)
  | Infrastructure_change i => Some (ic_severity i)
  end.

(** The counters of [self.metrics] the detector updates ([last_error], the
    text of the last exception a handler logged, is left out). *)
Record Metrics := {
  changes_detected : nat;
  technology_changes : nat;
  performance_changes : nat;
  security_changes : nat;
  false_positives_filtered : nat;
  processing_time_total_ms : Z }.

(** *** Configuration tables *)

(** [_load_noise_filters] *)
Definition ignore_minor_updates : list string :=
  ["google-analytics"; "gtag"; "facebook-pixel"; "jquery"; "bootstrap"; "font-awesome"].

Definition noisy_technologies : list string :=
  ["google-analytics"; "gtag"; "googletagmanager"; "facebook-pixel"; "hotjar"; "mixpanel"].

(** [_load_technology_importance] *)
Definition technology_importance : gmap string string :=
  list_to_map
    [ ("apache", "critical"); ("nginx", "critical"); ("mysql", "critical");
      ("postgresql", "critical"); ("redis", "critical"); ("mongodb", "critical");
      ("react", "high"); ("vue", "high"); ("angular", "high"); ("node.js", "high");
      ("express", "high"); ("django", "high"); ("flask", "high"); ("rails", "high");
      ("jquery", "medium"); ("bootstrap", "medium"); ("webpack", "medium");
      ("google-analytics", "low"); ("gtag", "low"); ("facebook-pixel", "low") ].

(** *** Version helpers *)

(** [[int(x) for x in v.split('.')]]; [None] is the [ValueError]. *)
Definition version_parts (v : string) : option (list Z) :=
  mapM Py.int (Py.split "." v).

(** [_is_significant_version_change].  The second test of the source is
    kept although the first one always returns. *)
Definition _is_significant_version_change (old_version new_version : string) : bool :=
  match version_parts old_version with
  | None => true
  | Some old_parts =>
      match version_parts new_version with
      | None => true
      | Some new_parts =>
          if (0 <? length old_parts)%nat && (0 <? length new_parts)%nat then
            match old_parts !! 0%nat, new_parts !! 0%nat with
            | Some a, Some b => negb (a =? b)%Z
            | _, _ => true
            end
          else if (1 <? length old_parts)%nat && (1 <? length new_parts)%nat then
            match old_parts !! 1%nat, new_parts !! 1%nat with
            | Some a, Some b => negb (a =? b)%Z
            | _, _ => true
            end
          else true
      end
  end.

(** [_is_minor_version_change]: only the patch component differs. *)
Definition _is_minor_version_change (old_version new_version : string) : bool :=
  match version_parts old_version with
  | None => false
  | Some old_parts =>
      match version_parts new_version with
      | None => false
      | Some new_parts =>
          if (3 <=? length old_parts)%nat && (3 <=? length new_parts)%nat then
            match old_parts, new_parts with
            | o0 :: o1 :: o2 :: _, n0 :: n1 :: n2 :: _ =>
                (o0 =? n0)%Z && (o1 =? n1)%Z && negb (o2 =? n2)%Z
            | _, _ => false
            end
          else false
      end
  end.

(** [_is_major_version_change]: only the first component is parsed. *)
Definition _is_major_version_change (old_version new_version : string) : bool :=
  match Py.split "." old_version !! 0%nat ≫= Py.int with
  | None => false
  | Some old_major =>
      match Py.split "." new_version !! 0%nat ≫= Py.int with
      | None => false
      | Some new_major => negb (old_major =? new_major)%Z
      end
  end.

(** The loop of [_is_version_upgrade] over the common prefix. *)
Fixpoint upgrade_scan (old_parts new_parts : list Z) : bool :=
  match old_parts, new_parts with
  | o :: os, n :: ns =>
      if (o <? n)%Z then true
      else if (n <? o)%Z then false
      else upgrade_scan os ns
  | _, _ => (length old_parts <? length new_parts)%nat
  end.

(** [_is_version_upgrade] *)
Definition _is_version_upgrade (old_version new_version : string) : bool :=
  match version_parts old_version, version_parts new_version with
  | Some old_parts, Some new_parts => upgrade_scan old_parts new_parts
  | _, _ => true
  end.

(** [_assess_tech_impact] *)
Definition _assess_tech_impact (tech_name : string) : string :=
  default "medium" (technology_importance !! Py.lower tech_name).

Definition impact_levels : list string := ["low"; "medium"; "high"; "critical"].

(** [impact_levels.index(x) if x in impact_levels else 1] *)
Definition impact_index (x : string) : nat :=
  match list_find (λ l, l = x) impact_levels with
  | Some (i, _) => i
  | None => 1
  end.

(** [_assess_version_impact] *)
Definition _assess_version_impact (tech_name old_version new_version : string) : string :=
  let base_impact := _assess_tech_impact tech_name in
  if _is_major_version_change old_version new_version then
    let current_idx := impact_index base_impact in
    default base_impact
      (impact_levels !! Nat.min (current_idx + 1) (length impact_levels - 1))
  else base_impact.

(** The row of [monitoring_configs] the detector reads.  [scan_config] is
    [None] when the column is NULL or an empty object (falsy). *)
Record ScanConfig := { performance_thresholds : option (gmap string Q) }.
Record ConfigRow := { scan_config : option ScanConfig }.

(** A row of [scan_results]; [id] and [config_id] are columns of type
    [uuid]. *)
Record ScanRow := {
  row_id : Z;
  row_config_id : Z;
  row_status : string;
  row_scan_timestamp : Z;
  row_result_summary : Scan }.

(** A row of [technology_changes], [performance_changes] or
    [security_changes]: the table is the one of the change's type.  The
    [id] column, a fresh [uuid4], is left out. *)
Record StoredChange := {
  stored_config_id : Z;
  stored_scan_id : Z;
  stored_change : Change }.

(** The detector: counters, the threshold cache, the tables it reads, the
    rows it has inserted and the [change.detected] messages it has handed
    to the producer, each with its key.  The cache holds decoded threshold
    maps ([json.dumps] followed by [json.loads] is the identity on them). *)
Record Detector := {
  metrics : Metrics;
  redis : gmap string (gmap string Q * Z);
  monitoring_configs : gmap Z ConfigRow;
  scan_results : list ScanRow;
  change_log : list StoredChange;
  change_detected : list (string * Change) }.

Definition with_metrics (m : Metrics) (d : Detector) : Detector :=
  {| metrics := m; redis := redis d; monitoring_configs := monitoring_configs d;
     scan_results := scan_results d; change_log := change_log d;
     change_detected := change_detected d |}.

Definition with_redis (r : gmap string (gmap string Q * Z)) (d : Detector) : Detector :=
  {| metrics := metrics d; redis := r; monitoring_configs := monitoring_configs d;
     scan_results := scan_results d; change_log := change_log d;
     change_detected := change_detected d |}.

Definition with_change_log (l : list StoredChange) (d : Detector) : Detector :=
  {| metrics := metrics d; redis := redis d; monitoring_configs := monitoring_configs d;
     scan_results := scan_results d; change_log := l;
     change_detected := change_detected d |}.

Definition with_change_detected (l : list (string * Change)) (d : Detector) : Detector :=
  {| metrics := metrics d; redis := redis d; monitoring_configs := monitoring_configs d;
     scan_results := scan_results d; change_log := change_log d;
     change_detected := l |}.

Definition add_technology_changes (n : nat) (m : Metrics) : Metrics :=
  {| changes_detected := changes_detected m;
     technology_changes := technology_changes m + n;
     performance_changes := performance_changes m;
     security_changes := security_changes m;
     false_positives_filtered := false_positives_filtered m;
     processing_time_total_ms := processing_time_total_ms m |}.

Definition add_performance_changes (n : nat) (m : Metrics) : Metrics :=
  {| changes_detected := changes_detected m;
     technology_changes := technology_changes m;
     performance_changes := performance_changes m + n;
     security_changes := security_changes m;
     false_positives_filtered := false_positives_filtered m;
     processing_time_total_ms := processing_time_total_ms m |}.

Definition add_security_changes (n : nat) (m : Metrics) : Metrics :=
  {| changes_detected := changes_detected m;
     technology_changes := technology_changes m;
     performance_changes := performance_changes m;
     security_changes := security_changes m + n;
     false_positives_filtered := false_positives_filtered m;
     processing_time_total_ms := processing_time_total_ms m |}.

Definition add_false_positive (m : Metrics) : Metrics :=
  {| changes_detected := changes_detected m;
     technology_changes := technology_changes m;
     performance_changes := performance_changes m;
     security_changes := security_changes m;
     false_positives_filtered := false_positives_filtered m + 1;
     processing_time_total_ms := processing_time_total_ms m |}.

Definition add_changes_detected (n : nat) (m : Metrics) : Metrics :=
  {| changes_detected := changes_detected m + n;
     technology_changes := technology_changes m;
     performance_changes := performance_changes m;
     security_changes := security_changes m;
     false_positives_filtered := false_positives_filtered m;
     processing_time_total_ms := processing_time_total_ms m |}.

Definition add_processing_time (ms : Z) (m : Metrics) : Metrics :=
  {| changes_detected := changes_detected m;
     technology_changes := technology_changes m;
     performance_changes := performance_changes m;
     security_changes := security_changes m;
     false_positives_filtered := false_positives_filtered m;
     processing_time_total_ms := (processing_time_total_ms m + ms)%Z |}.

(** *** Technology changes *)

(** [next(t for t in tech['detected'] if t['name'] == name)]; [None] when
    the key or the entry is missing (the exception path). *)
Definition first_named (tech : Technologies) (n : string) : option Technology :=
  detected tech ≫= List.find (λ t, String.eqb (name t) n).

(** [{name for name, version in detected.keys()}] *)
Definition names_of (tech : Technologies) : gset string :=
  list_to_set (name <$> default [] (detected tech)).

(** Python's [min(a, b)]: the first of the smallest. *)
Definition py_min (a b : Q) : Q := if Qltb b a then b else a.

Definition added_change (new_tech : Technologies) (n : string) : option Change :=
  tech_data ← first_named new_tech n;
  Some (Technology_change
    {| tc_change_type := "added";
       tc_technology_name := n;
       tc_technology_category := default "unknown" (category tech_data);
       tc_old_version := None;
       tc_new_version := version tech_data;
       tc_confidence := default 1%Q (confidence tech_data);
       tc_impact_assessment := _assess_tech_impact n;
       tc_evidence := EvDetected (detection_method tech_data)
                                 (default [] (indicators tech_data)) |}).

Definition removed_change (old_tech : Technologies) (n : string) : option Change :=
  tech_data ← first_named old_tech n;
  Some (Technology_change
    {| tc_change_type := "removed";
       tc_technology_name := n;
       tc_technology_category := default "unknown" (category tech_data);
       tc_old_version := version tech_data;
       tc_new_version := None;
       tc_confidence := 1%Q;
       tc_impact_assessment := _assess_tech_impact n;
       tc_evidence := EvLastSeen (tech_scan_timestamp old_tech)
                                 (detection_method tech_data) |}).

(** The body of the third loop: zero or one [version_changed] change. *)
Definition version_change (old_tech new_tech : Technologies) (n : string)
    : option (list Change) :=
  old_tech_data ← first_named old_tech n;
  new_tech_data ← first_named new_tech n;
  let old_version := default "" (version old_tech_data) in
  let new_version := default "" (version new_tech_data) in
  if Py.truthy old_version && Py.truthy new_version
     && negb (String.eqb old_version new_version) then
    if _is_significant_version_change old_version new_version then
      Some [Technology_change
        {| tc_change_type := "version_changed";
           tc_technology_name := n;
           tc_technology_category := default "unknown" (category new_tech_data);
           tc_old_version := Some old_version;
           tc_new_version := Some new_version;
           tc_confidence := py_min (default 1%Q (confidence old_tech_data))
                                   (default 1%Q (confidence new_tech_data));
           tc_impact_assessment := _assess_version_impact n old_version new_version;
           tc_evidence := EvVersionComparison old_version new_version
                            (_is_version_upgrade old_version new_version) |}]
    else Some []
  else Some [].

(** The [try] block of [_detect_technology_changes]. *)
Definition technology_changes_of (old_tech new_tech : Technologies)
    : option (list Change) :=
  let old_names := names_of old_tech in
  let new_names := names_of new_tech in
  added ← mapM (added_change new_tech) (elements (new_names ∖ old_names));
  removed ← mapM (removed_change old_tech) (elements (old_names ∖ new_names));
  versioned ← mapM (version_change old_tech new_tech) (elements (old_names ∩ new_names));
  Some (added ++ removed ++ mjoin versioned).

(** [_detect_technology_changes] *)
Definition _detect_technology_changes (old_tech new_tech : Technologies)
    (m : Metrics) : list Change * Metrics :=
  match technology_changes_of old_tech new_tech with
  | Some changes => (changes, add_technology_changes (length changes) m)
  | None => ([], m)
  end.

(** *** Performance changes *)

(** [_get_performance_thresholds]: the cache first, then the table, whose
    answer is cached for an hour.  A missing row, or an id that is not a
    UUID (the exception path), gives the empty map. *)
Definition _get_performance_thresholds (now : Z) (config_id : string) (d : Detector)
    : gmap string Q * Detector :=
  let cache_key := "perf_thresholds:" +:+ config_id in
  match Redis.get now cache_key (redis d) with
  | Some cached => (cached, d)
  | None =>
      match Uuid.UUID config_id ≫= λ id, monitoring_configs d !! id with
      | Some {| scan_config := Some sc |} =>
          let thresholds := default ∅ (performance_thresholds sc) in
          match Redis.setex now cache_key 3600 thresholds (redis d) with
          | Some r => (thresholds, with_redis r d)
          | None => (∅, d)
          end
      | _ => (∅, d)
      end
  end.

(** (key, display name, unit, default threshold in percent) *)
Definition metrics_to_check : list (string * string * string * Q) :=
  [ ("load_time", "Page Load Time", "ms", 15%Q);
    ("ttfb", "Time to First Byte", "ms", 20%Q);
    ("fcp", "First Contentful Paint", "ms", 20%Q);
    ("lcp", "Largest Contentful Paint", "ms", 20%Q);
    ("cls", "Cumulative Layout Shift", "score", 25%Q);
    ("fid", "First Input Delay", "ms", 30%Q);
    ("lighthouse_score", "Lighthouse Performance Score", "score", 10%Q) ].

(** The body of the loop over [metrics_to_check]. *)
Definition metric_change (old_perf new_perf : Performance) (thresholds : gmap string Q)
    (entry : string * string * string * Q) : list Change :=
  let '(metric_key, metric_name, unit, default_threshold) := entry in
  match metrics_of old_perf !! metric_key, metrics_of new_perf !! metric_key with
  | Some old_value, Some new_value =>
      if Qgtb old_value 0 then
        let change_percent := ((new_value - old_value) / old_value * 100)%Q in
        let threshold := default default_threshold (thresholds !! metric_key) in
        if Qgtb (Qabs change_percent) threshold then
          let severity :=
            if Qgtb (Qabs change_percent) (threshold * 2) then "critical"
            else if Qgtb (Qabs change_percent) (threshold * (3 # 2)) then "warning"
            else "info" in
          let is_degradation :=
            if negb (String.eqb metric_key "lighthouse_score")
            then Qgtb change_percent 0 else Qltb change_percent 0 in
          [Performance_change
            {| pc_metric_name := metric_key;
               pc_metric_display_name := metric_name;
               pc_unit := unit;
               pc_old_value := old_value;
               pc_new_value := new_value;
               pc_change_percent := change_percent;
               pc_threshold_exceeded := true;
               pc_severity := severity;
               pc_is_degradation := is_degradation;
               pc_threshold_used := threshold;
               pc_old_scan_time := perf_scan_timestamp old_perf;
               pc_new_scan_time := perf_scan_timestamp new_perf |}]
        else []
      else []
  | _, _ => []
  end.

Definition issue_change (kind severity issue : string) : Change :=
  Performance_issue
    {| pi_change_type := kind; pi_issue := issue; pi_severity := severity |}.

(** [_detect_performance_changes] *)
Definition _detect_performance_changes (now : Z) (old_perf new_perf : Performance)
    (config_id : string) (d : Detector) : list Change * Detector :=
  let '(thresholds, d1) := _get_performance_thresholds now config_id d in
  let metric_changes := metrics_to_check ≫= metric_change old_perf new_perf thresholds in
  let old_issues : gset string := list_to_set (default [] (issues old_perf)) in
  let new_issues : gset string := list_to_set (default [] (issues new_perf)) in
  let added_issues := new_issues ∖ old_issues in
  let resolved_issues := old_issues ∖ new_issues in
  let changes :=
    metric_changes
    ++ (issue_change "issue_added" "warning" <$> elements added_issues)
    ++ (issue_change "issue_resolved" "info" <$> elements resolved_issues) in
  (changes, with_metrics (add_performance_changes (length changes) (metrics d1)) d1).

(** *** Security changes *)

(** [v.get('id', v.get('type', ''))] *)
Definition vuln_key (v : Vulnerability) : string :=
  match vuln_id v with
  | Some i => i
  | None => default "" (vuln_type v)
  end.

(** The dict comprehension over the vulnerability list: a later entry
    replaces an earlier one with the same key. *)
Definition vulns_by_key (l : list Vulnerability) : gmap string Vulnerability :=
  foldl (λ m v, <[vuln_key v := v]> m) ∅ l.

Definition vulnerability_added (vuln : Vulnerability) : Change :=
  Security_change
    {| sc_change_type := "vulnerability_added";
       sc_vulnerability_type := vuln_type vuln;
       sc_severity := default "medium" (vuln_severity vuln);
       sc_description := default "" (vuln_description vuln);
       sc_evidence := EvVulnerability vuln (default [] (vuln_cve_ids vuln));
       sc_remediation_advice := Some (default "" (vuln_remediation vuln)) |}.

Definition vulnerability_fixed (key : string) (vuln : Vulnerability) : Change :=
  Security_change
    {| sc_change_type := "vulnerability_fixed";
       sc_vulnerability_type := vuln_type vuln;
       sc_severity := "info";
       sc_description := "Vulnerability fixed: " +:+ default key (vuln_description vuln);
       sc_evidence := EvFixed vuln;
       sc_remediation_advice := None |}.

Definition critical_headers : list string :=
  ["strict-transport-security"; "content-security-policy"; "x-frame-options"].

(** [_assess_header_change_severity] *)
Definition _assess_header_change_severity (header old_value : string)
    (new_value : option string) : string :=
  if bool_decide (Py.lower header ∈ critical_headers) then
    if Py.truthy old_value && negb (Py.truthy_opt new_value) then "critical"
    else "medium"
  else "low".

(** The body of the loop over [old_headers.items()]. *)
Definition header_change (new_headers : gmap string string)
    (item : string * string) : list Change :=
  let '(header, old_value) := item in
  let new_value := new_headers !! header in
  if bool_decide (new_value ≠ Some old_value) then
    [Security_change
      {| sc_change_type := "security_header_changed";
         sc_vulnerability_type := None;
         sc_severity := _assess_header_change_severity header old_value new_value;
         sc_description := "Security header '" +:+ header +:+ "' changed";
         sc_evidence := EvHeader header old_value new_value;
         sc_remediation_advice := None |}]
  else [].

Definition certificate_change (old_ssl new_ssl : SslInfo) : list Change :=
  if bool_decide (fingerprint old_ssl ≠ fingerprint new_ssl) then
    [Security_change
      {| sc_change_type := "ssl_certificate_changed";
         sc_vulnerability_type := None;
         sc_severity := "medium";
         sc_description := "SSL certificate changed";
         sc_evidence := EvCertificate old_ssl new_ssl;
         sc_remediation_advice := None |}]
  else [].

(** The [try] block of [_detect_security_changes]; [new_vulns[vuln_id]] is
    a partial lookup. *)
Definition security_changes_of (old_security new_security : Security)
    : option (list Change) :=
  let old_vulns := vulns_by_key (default [] (vulnerabilities old_security)) in
  let new_vulns := vulns_by_key (default [] (vulnerabilities new_security)) in
  added ← mapM (λ k, vulnerability_added <$> new_vulns !! k)
               (elements (dom new_vulns ∖ dom old_vulns));
  fixed ← mapM (λ k, vulnerability_fixed k <$> old_vulns !! k)
               (elements (dom old_vulns ∖ dom new_vulns));
  let old_headers := default ∅ (security_headers old_security) in
  let new_headers := default ∅ (security_headers new_security) in
  let headers := map_to_list old_headers ≫= header_change new_headers in
  let old_ssl := default no_ssl_info (ssl_info old_security) in
  let new_ssl := default no_ssl_info (ssl_info new_security) in
  Some (added ++ fixed ++ headers ++ certificate_change old_ssl new_ssl).

(** [_detect_security_changes] *)
Definition _detect_security_changes (old_security new_security : Security)
    (m : Metrics) : list Change * Metrics :=
  match security_changes_of old_security new_security with
  | Some changes => (changes, add_security_changes (length changes) m)
  | None => ([], m)
  end.

(** *** Content and infrastructure changes *)

Section Detection.

(** [SequenceMatcher(None, a, b).ratio()] of Python's [difflib]. *)
Variable similarity : string → string → Q.

Definition text_change (kind description : string) (limit : Q)
    (old_field new_field : option string) : list Change :=
  let old_text := Py.strip (default "" old_field) in
  let new_text := Py.strip (default "" new_field) in
  if Py.truthy old_text && Py.truthy new_text && negb (String.eqb old_text new_text) then
    let score := similarity old_text new_text in
    if Qltb score limit then
      [Content_change
        {| cc_change_type := kind;
           cc_description := description;
           cc_severity := "info";
           cc_evidence := EvText old_text new_text score |}]
    else []
  else [].

Definition hash_change (old_field new_field : option string) : list Change :=
  let old_hash := default "" old_field in
  let new_hash := default "" new_field in
  if Py.truthy old_hash && Py.truthy new_hash && negb (String.eqb old_hash new_hash) then
    [Content_change
      {| cc_change_type := "content_hash_changed";
         cc_description := "Page content changed";
         cc_severity := "info";
         cc_evidence := EvHash old_hash new_hash |}]
  else [].

(** [_detect_content_changes] *)
Definition _detect_content_changes (old_content new_content : Content) : list Change :=
  text_change "title_changed" "Page title changed significantly" (4 # 5)
              (title old_content) (title new_content)
  ++ text_change "meta_description_changed" "Meta description changed significantly"
                 (7 # 10) (meta_description old_content) (meta_description new_content)
  ++ hash_change (content_hash old_content) (content_hash new_content).

Definition field_change (kind description : string)
    (evidence : string → string → InfraEvidence)
    (old_field new_field : option string) : list Change :=
  let old_value := default "" old_field in
  let new_value := default "" new_field in
  if Py.truthy old_value && Py.truthy new_value && negb (String.eqb old_value new_value) then
    [Infrastructure_change
      {| ic_change_type := kind;
         ic_description := description;
         ic_severity := "medium";
         ic_evidence := evidence old_value new_value |}]
  else [].

Definition cdn_change (old_field new_field : option (list string)) : list Change :=
  let old_cdn : gset string := list_to_set (default [] old_field) in
  let new_cdn : gset string := list_to_set (default [] new_field) in
  if bool_decide (old_cdn ≠ new_cdn) then
    [Infrastructure_change
      {| ic_change_type := "cdn_changed";
         ic_description := "CDN configuration changed";
         ic_severity := "info";
         ic_evidence := EvCdn (elements old_cdn) (elements new_cdn)
                              (elements (new_cdn ∖ old_cdn))
                              (elements (old_cdn ∖ new_cdn)) |}]
  else [].

(** [_detect_infrastructure_changes] *)
Definition _detect_infrastructure_changes (old_infra new_infra : Infrastructure)
    : list Change :=
  field_change "server_software_changed" "Server software changed" EvServer
               (server_software old_infra) (server_software new_infra)
  ++ field_change "ip_address_changed" "IP address changed" EvIp
                  (ip_address old_infra) (ip_address new_infra)
  ++ cdn_change (cdn_providers old_infra) (cdn_providers new_infra).

(** *** Noise filter and confidence *)

(** [change.get('technology_name', '')] and the two version keys *)
Definition get_technology_name (c : Change) : string :=
  match c with Technology_change t => tc_technology_name t | _ => "" end.

Definition get_old_version (c : Change) : string :=
  match c with Technology_change t => default "" (tc_old_version t) | _ => "" end.

Definition get_new_version (c : Change) : string :=
  match c with Technology_change t => default "" (tc_new_version t) | _ => "" end.

(** [_is_noise] *)
Definition _is_noise (change : Change) : bool :=
  let change_type := get_type change in
  if String.eqb change_type "technology_change" then
    let tech_name := Py.lower (get_technology_name change) in
    existsb (λ noisy, Py.contains noisy tech_name) noisy_technologies
  else if String.eqb change_type "performance_change" then
    Qltb (Qabs (default 0%Q (get_change_percent change))) 2
  else false.

(** The second test of the loop of [_filter_noise]. *)
Definition minor_update_of_ignored (change : Change) : bool :=
  String.eqb (get_type change) "technology_change"
  && bool_decide (get_change_type change = Some "version_changed")
  && bool_decide (get_technology_name change ∈ ignore_minor_updates)
  && _is_minor_version_change (get_old_version change) (get_new_version change).

(** The third test of the loop of [_filter_noise]. *)
Definition small_performance_change (change : Change) : bool :=
  String.eqb (get_type change) "performance_change"
  && Qltb (Qabs (default 0%Q (get_change_percent change))) 5.

(** [_filter_noise] *)
Fixpoint _filter_noise (changes : list Change) (m : Metrics) : list Change * Metrics :=
  match changes with
  | [] => ([], m)
  | change :: rest =>
      if _is_noise change then _filter_noise rest (add_false_positive m)
      else if minor_update_of_ignored change then _filter_noise rest (add_false_positive m)
      else if small_performance_change change then _filter_noise rest (add_false_positive m)
      else let '(meaningful, m') := _filter_noise rest m in (change :: meaningful, m')
  end.

(** The summand of [_calculate_confidence] for one change. *)
Definition adjusted_confidence (change : Change) : Q :=
  let confidence := default 1%Q (get_confidence change) in
  let change_type := get_type change in
  if String.eqb change_type "technology_change" then (confidence * (9 # 10))%Q
  else if String.eqb change_type "performance_change" then (confidence * (7 # 10))%Q
  else if String.eqb change_type "security_change" then (confidence * (8 # 10))%Q
  else confidence.

(** [_calculate_confidence] *)
Definition _calculate_confidence (changes : list Change) : Q :=
  match changes with
  | [] => 1%Q
  | _ =>
      let total_confidence :=
        foldl (λ total change, (total + adjusted_confidence change)%Q) 0%Q changes in
      (total_confidence / inject_Z (Z.of_nat (length changes)))%Q
  end.

(** The dict built by [_gather_evidence]. *)
Record Evidence := {
  old_scan_timestamp : option string;
  new_scan_timestamp : option string;
  old_scan_id : option string;
  new_scan_id : option string;
  total_changes : nat;
  change_types : list string;
  severities : list string;
  detector_version : string;
  detection_time : Z }.

(** [_gather_evidence] *)
Definition _gather_evidence (now : Z) (old_scan new_scan : Scan) (changes : list Change)
    : Evidence :=
  {| old_scan_timestamp := scan_timestamp old_scan;
     new_scan_timestamp := scan_timestamp new_scan;
     old_scan_id := scan_id old_scan;
     new_scan_id := scan_id new_scan;
     total_changes := length changes;
     change_types := elements (list_to_set (get_type <$> changes) : gset string);
     severities :=
       elements (list_to_set (filter (λ s, Py.truthy s = true) (omap get_severity changes))
                 : gset string);
     detector_version := "1.0.0";
     detection_time := now |}.

(** *** [detect_changes] *)

Record ChangeDetection := {
  has_changes : bool;
  changes : list Change;
  detection_confidence : Q;
  evidence : Evidence;
  processing_time_ms : Z }.

(** The clock readings of one run of [detect_changes]: at its start, when
    the threshold cache is consulted, when the evidence is gathered and at
    its end. *)
Record Readings := {
  started_at : Z;
  cache_now : Z;
  evidence_at : Z;
  finished_at : Z }.

(** [detect_changes] *)
Definition detect_changes (clock : Readings) (old_scan new_scan : Scan)
    (config_id : string) (d : Detector) : ChangeDetection * Detector :=
  let '(tech_changes, m1) :=
    _detect_technology_changes (default no_technologies (technologies old_scan))
                               (default no_technologies (technologies new_scan))
                               (metrics d) in
  let '(perf_changes, d2) :=
    _detect_performance_changes (cache_now clock)
                                (default no_performance (performance old_scan))
                                (default no_performance (performance new_scan))
                                config_id (with_metrics m1 d) in
  let '(security_changes, m3) :=
    _detect_security_changes (default no_security (security old_scan))
                             (default no_security (security new_scan))
                             (metrics d2) in
  let content_changes :=
    _detect_content_changes (default no_content (content old_scan))
                            (default no_content (content new_scan)) in
  let infra_changes :=
    _detect_infrastructure_changes (default no_infrastructure (infrastructure old_scan))
                                   (default no_infrastructure (infrastructure new_scan)) in
  let all_changes :=
    tech_changes ++ perf_changes ++ security_changes ++ content_changes ++ infra_changes in
  let '(meaningful_changes, m4) := _filter_noise all_changes m3 in
  let confidence := _calculate_confidence meaningful_changes in
  let evidence := _gather_evidence (evidence_at clock) old_scan new_scan meaningful_changes in
  ({| has_changes := (0 <? length meaningful_changes)%nat;
      changes := meaningful_changes;
      detection_confidence := confidence;
      evidence := evidence;
      processing_time_ms := ((finished_at clock - started_at clock) * 1000)%Z |},
   with_metrics m4 d2).

(** *** The [scan.completed] handler *)

(** The query of [_get_previous_scan]:
    [WHERE config_id = $1 AND status = 'completed'
     ORDER BY scan_timestamp DESC LIMIT 2]. *)
Definition newer_first (a b : ScanRow) : Prop :=
  (row_scan_timestamp b ≤ row_scan_timestamp a)%Z.

#[global] Instance newer_first_dec : RelDecision newer_first :=
  λ a b, decide (row_scan_timestamp b ≤ row_scan_timestamp a)%Z.

Definition completed_scans_query (config_id : Z) (table : list ScanRow)
    : list ScanRow :=
  take 2 (merge_sort newer_first
            (filter (λ r, row_config_id r = config_id ∧ row_status r = "completed") table)).

(** [_get_previous_scan]: [fetchrow] hands back the first row of the
    result; an id that is not a UUID raises before the query, and the
    function returns [None]. *)
Definition _get_previous_scan (config_id : string) (d : Detector) : option ScanRow :=
  Uuid.UUID config_id ≫= λ id, head (completed_scans_query id (scan_results d)).

(** The types of change that have a table; a content or an infrastructure
    change is published only. *)
Definition has_table (change : Change) : bool :=
  bool_decide (get_type change
               ∈ ["technology_change"; "performance_change"; "security_change"]).

(** The row inserted for one change, if any; [None] stands for the error
    [uuid.UUID] raises on [config_id] or [scan_id]. *)
Definition change_row (config_id : string) (scan_id : option string) (change : Change)
    : option (list StoredChange) :=
  if has_table change then
    cfg ← Uuid.UUID config_id;
    scan ← Uuid.UUID_opt scan_id;
    Some [{| stored_config_id := cfg; stored_scan_id := scan; stored_change := change |}]
  else Some [].

(** The loop of [_process_detected_changes], inside its transaction: the
    rows inserted so far ([None] once an insertion has raised) and the
    messages handed to the producer. *)
Fixpoint store_and_publish (config_id : string) (scan_id : option string)
    (changes : list Change) (rows : list StoredChange) (sent : list (string * Change))
    : option (list StoredChange) * list (string * Change) :=
  match changes with
  | [] => (Some rows, sent)
  | change :: rest =>
      match change_row config_id scan_id change with
      | Some row =>
          store_and_publish config_id scan_id rest (rows ++ row)
                            (sent ++ [(config_id, change)])
      | None => (None, sent)
      end
  end.

(** [_process_detected_changes]: when an insertion raises, the transaction
    is rolled back and the changes are not counted; what was published
    stays published.  (The error is raised again, and logged by the
    handler.) *)
Definition _process_detected_changes (config_id : string) (scan_id : option string)
    (detection_result : ChangeDetection) (d : Detector) : Detector :=
  match store_and_publish config_id scan_id (changes detection_result) [] [] with
  | (Some rows, sent) =>
      with_metrics
        (add_changes_detected (length (changes detection_result)) (metrics d))
        (with_change_detected (change_detected d ++ sent)
           (with_change_log (change_log d ++ rows) d))
  | (None, sent) => with_change_detected (change_detected d ++ sent) d
  end.

(** The payload of a [scan.completed] event.  An absent [config_id] is the
    empty string; an absent or empty [result_summary] is [None]. *)
Record ScanCompleted := {
  msg_config_id : string;
  msg_scan_id : option string;
  msg_result_summary : option Scan }.

(** What one run of the handler did. *)
Inductive Handled :=
| Invalid_message
| Baseline_only
| Compared (previous : ScanRow) (result : ChangeDetection).

(** [_handle_scan_completed]; [elapsed_ms] is the time the handler measures
    around its call of [detect_changes]. *)
Definition _handle_scan_completed (clock : Readings) (elapsed_ms : Z)
    (message : ScanCompleted) (d : Detector) : Handled * Detector :=
  match msg_result_summary message with
  | None => (Invalid_message, d)
  | Some result_summary =>
      if negb (Py.truthy (msg_config_id message)) then (Invalid_message, d)
      else
        let config_id := msg_config_id message in
        match _get_previous_scan config_id d with
        | Some previous_scan =>
            let '(detection_result, d1) :=
              detect_changes clock (row_result_summary previous_scan) result_summary
                             config_id d in
            let d2 := with_metrics (add_processing_time elapsed_ms (metrics d1)) d1 in
            if has_changes detection_result then
              (Compared previous_scan detection_result,
               _process_detected_changes config_id (msg_scan_id message) detection_result d2)
            else (Compared previous_scan detection_result, d2)
        | None => (Baseline_only, d)
        end
  end.

(** *** What [detect_changes] returns *)

(** The three tests of the loop of [_filter_noise], together. *)
Definition kept (c : Change) : bool :=
  negb (_is_noise c) && negb (minor_update_of_ignored c)
  && negb (small_performance_change c).

Lemma filter_noise_kept l m :
  (_filter_noise l m).1 = filter (λ c, kept c = true) l.
Proof.
  revert m. induction l as [|c l IH]; intros m; [done|].
  cbn [_filter_noise]. rewrite filter_cons.
  destruct (_is_noise c) eqn:E1.
  { rewrite decide_False; [apply IH|]. unfold kept. by rewrite E1. }
  destruct (minor_update_of_ignored c) eqn:E2.
  { rewrite decide_False; [apply IH|]. unfold kept. by rewrite E1, E2. }
  destruct (small_performance_change c) eqn:E3.
  { rewrite decide_False; [apply IH|]. unfold kept. by rewrite E1, E2, E3. }
  rewrite decide_True by (unfold kept; by rewrite E1, E2, E3).
  specialize (IH m). destruct (_filter_noise l m) as [kept_rest m']. cbn in *.
  by rewrite IH.
Qed.

(** The thresholds one run sees. *)
Definition thresholds_seen (now : Z) (config_id : string) (d : Detector) : gmap string Q :=
  (_get_performance_thresholds now config_id d).1.

(** The change list of each category, before the noise filter. *)
Definition technology_part (old_scan new_scan : Scan) : list Change :=
  default [] (technology_changes_of (default no_technologies (technologies old_scan))
                                    (default no_technologies (technologies new_scan))).

Definition performance_part (thresholds : gmap string Q) (old_scan new_scan : Scan)
    : list Change :=
  let old_perf := default no_performance (performance old_scan) in
  let new_perf := default no_performance (performance new_scan) in
  (metrics_to_check ≫= metric_change old_perf new_perf thresholds)
  ++ (issue_change "issue_added" "warning"
        <$> elements ((list_to_set (default [] (issues new_perf)) : gset string)
                      ∖ list_to_set (default [] (issues old_perf))))
  ++ (issue_change "issue_resolved" "info"
        <$> elements ((list_to_set (default [] (issues old_perf)) : gset string)
                      ∖ list_to_set (default [] (issues new_perf)))).

Definition security_part (old_scan new_scan : Scan) : list Change :=
  default [] (security_changes_of (default no_security (security old_scan))
                                  (default no_security (security new_scan))).

Definition unfiltered (thresholds : gmap string Q) (old_scan new_scan : Scan)
    : list Change :=
  technology_part old_scan new_scan
  ++ performance_part thresholds old_scan new_scan
  ++ security_part old_scan new_scan
  ++ _detect_content_changes (default no_content (content old_scan))
                             (default no_content (content new_scan))
  ++ _detect_infrastructure_changes (default no_infrastructure (infrastructure old_scan))
                                    (default no_infrastructure (infrastructure new_scan)).

Lemma detect_technology_changes_fst old_tech new_tech m :
  (_detect_technology_changes old_tech new_tech m).1
  = default [] (technology_changes_of old_tech new_tech).
Proof.
  unfold _detect_technology_changes.
  by destruct (technology_changes_of old_tech new_tech).
Qed.

Lemma detect_security_changes_fst old_security new_security m :
  (_detect_security_changes old_security new_security m).1
  = default [] (security_changes_of old_security new_security).
Proof.
  unfold _detect_security_changes.
  by destruct (security_changes_of old_security new_security).
Qed.

Lemma detect_changes_changes clock old_scan new_scan config_id d :
  changes (detect_changes clock old_scan new_scan config_id d).1
  = filter (λ c, kept c = true)
           (unfiltered (thresholds_seen (cache_now clock) config_id d) old_scan new_scan).
Proof.
  unfold detect_changes, unfiltered, technology_part, security_part, performance_part,
    thresholds_seen.
  rewrite <- (detect_technology_changes_fst _ _ (metrics d)).
  destruct (_detect_technology_changes _ _ (metrics d)) as [tech_changes m1].
  unfold _detect_performance_changes.
  replace (_get_performance_thresholds (cache_now clock) config_id d).1
    with (_get_performance_thresholds (cache_now clock) config_id (with_metrics m1 d)).1.
  2:{ unfold _get_performance_thresholds. cbn [redis with_metrics monitoring_configs].
      repeat case_match; done. }
  destruct (_get_performance_thresholds (cache_now clock) config_id (with_metrics m1 d))
    as [thresholds d1] eqn:Hth.
  cbn [fst snd].
  match goal with
  | |- context [_detect_security_changes ?a ?b ?m] =>
      rewrite <- (detect_security_changes_fst a b m);
      destruct (_detect_security_changes a b m) as [security_changes m3]
  end.
  cbn [fst snd].
  match goal with
  | |- context [_filter_noise ?l ?m] =>
      rewrite <- (filter_noise_kept l m); destruct (_filter_noise l m) as [meaningful m4]
  end.
  done.
Qed.

(** *** The members of each category's list *)

Lemma mapM_elem {A B} (f : A → option B) l k y :
  mapM f l = Some k → y ∈ k ↔ ∃ x, x ∈ l ∧ f x = Some y.
Proof.
  intros H%mapM_Some_1. induction H as [|x z l k Hxz _ IH].
  - split; [by intros ?%elem_of_nil | by intros (? & ?%elem_of_nil & _)].
  - rewrite elem_of_cons, IH. split.
    + intros [->|(x' & ? & ?)]; [exists x | exists x']; rewrite elem_of_cons; auto.
    + intros (x' & [->|?]%elem_of_cons & Hy); [left; congruence | right; eauto].
Qed.

Lemma first_named_Some tech n t :
  first_named tech n = Some t → name t = n ∧ n ∈ names_of tech.
Proof.
  unfold first_named, names_of. destruct (detected tech) as [l|]; [|done]. cbn.
  intros [Hin Heq]%find_some. apply String.eqb_eq in Heq. split; [done|].
  apply elem_of_list_to_set, list_elem_of_fmap. exists t. split; [done|].
  by apply list_elem_of_In.
Qed.

Lemma first_named_is_Some tech n :
  n ∈ names_of tech → is_Some (first_named tech n).
Proof.
  unfold first_named, names_of. destruct (detected tech) as [l|]; cbn.
  - intros (t & -> & Hin%list_elem_of_In)%elem_of_list_to_set%list_elem_of_fmap.
    destruct (List.find _ l) as [t'|] eqn:Hfind; [by eexists|].
    eapply find_none in Hfind; [|done]. cbn in Hfind.
    by rewrite String.eqb_refl in Hfind.
  - by intros ?%elem_of_empty.
Qed.

Lemma version_change_is_Some old_tech new_tech n :
  n ∈ names_of old_tech → n ∈ names_of new_tech →
  is_Some (version_change old_tech new_tech n).
Proof.
  intros [od Hod]%first_named_is_Some [nd Hnd]%first_named_is_Some.
  unfold version_change. rewrite Hod, Hnd. cbn.
  repeat case_match; by eexists.
Qed.

Lemma technology_changes_of_unfold old_tech new_tech :
  ∃ added removed versioned,
    mapM (added_change new_tech) (elements (names_of new_tech ∖ names_of old_tech))
      = Some added ∧
    mapM (removed_change old_tech) (elements (names_of old_tech ∖ names_of new_tech))
      = Some removed ∧
    mapM (version_change old_tech new_tech)
         (elements (names_of old_tech ∩ names_of new_tech)) = Some versioned ∧
    technology_changes_of old_tech new_tech = Some (added ++ removed ++ mjoin versioned).
Proof.
  unfold technology_changes_of.
  destruct (mapM (added_change new_tech) _) as [added|] eqn:Ha; last first.
  { apply mapM_None_1, Exists_exists in Ha as (n & Hn & Hnone).
    apply elem_of_elements, elem_of_difference in Hn as [[t Ht]%first_named_is_Some _].
    unfold added_change in Hnone. by rewrite Ht in Hnone. }
  destruct (mapM (removed_change old_tech) _) as [removed|] eqn:Hr; last first.
  { apply mapM_None_1, Exists_exists in Hr as (n & Hn & Hnone).
    apply elem_of_elements, elem_of_difference in Hn as [[t Ht]%first_named_is_Some _].
    unfold removed_change in Hnone. by rewrite Ht in Hnone. }
  destruct (mapM (version_change old_tech new_tech) _) as [versioned|] eqn:Hv; last first.
  { apply mapM_None_1, Exists_exists in Hv as (n & Hn & Hnone).
    apply elem_of_elements, elem_of_intersection in Hn as [Ho Hn].
    destruct (version_change_is_Some old_tech new_tech n Ho Hn) as [? ?]. congruence. }
  by exists added, removed, versioned.
Qed.

(** A change of the technology list comes from exactly one of the three
    loops. *)
Lemma technology_changes_elem old_tech new_tech c :
  c ∈ default [] (technology_changes_of old_tech new_tech) ↔
    (∃ n, n ∈ names_of new_tech ∧ (n ∉ names_of old_tech)
          ∧ added_change new_tech n = Some c)
    ∨ (∃ n, n ∈ names_of old_tech ∧ (n ∉ names_of new_tech)
            ∧ removed_change old_tech n = Some c)
    ∨ (∃ n l, n ∈ names_of old_tech ∧ n ∈ names_of new_tech
              ∧ version_change old_tech new_tech n = Some l ∧ c ∈ l).
Proof.
  destruct (technology_changes_of_unfold old_tech new_tech)
    as (added & removed & versioned & Ha & Hr & Hv & ->).
  cbn. rewrite !elem_of_app, (mapM_elem _ _ _ _ Ha), (mapM_elem _ _ _ _ Hr).
  setoid_rewrite elem_of_elements. setoid_rewrite elem_of_difference.
  rewrite list_elem_of_join.
  split.
  - intros [(n & [? ?] & ?)|[(n & [? ?] & ?)|(l & Hc & Hl)]]; eauto 10.
    apply (mapM_elem _ _ _ _ Hv) in Hl as (n & [? ?]%elem_of_elements%elem_of_intersection & ?).
    right; right. eauto 10.
  - intros [(n & ? & ? & ?)|[(n & ? & ? & ?)|(n & l & ? & ? & ? & ?)]]; eauto 10.
    right; right. exists l. split; [done|].
    apply (mapM_elem _ _ _ _ Hv). exists n. split; [|done].
    by apply elem_of_elements, elem_of_intersection.
Qed.

Lemma vulnerability_lookups_total (vulns others : gmap string Vulnerability)
    (f : string → Vulnerability → Change) :
  is_Some (mapM (λ k, f k <$> vulns !! k) (elements (dom vulns ∖ dom others))).
Proof.
  apply mapM_is_Some_2, Forall_forall. intros k Hk.
  apply elem_of_elements, elem_of_difference in Hk as [[v Hv]%elem_of_dom _].
  cbn. rewrite Hv. by eexists.
Qed.

(** A change of the security list is a vulnerability that appeared, one
    that went away, the change of a header of the old snapshot, or the
    certificate change. *)
Lemma security_changes_elem old_security new_security c :
  c ∈ default [] (security_changes_of old_security new_security) ↔
    (∃ k v, vulns_by_key (default [] (vulnerabilities new_security)) !! k = Some v
            ∧ vulns_by_key (default [] (vulnerabilities old_security)) !! k = None
            ∧ c = vulnerability_added v)
    ∨ (∃ k v, vulns_by_key (default [] (vulnerabilities old_security)) !! k = Some v
              ∧ vulns_by_key (default [] (vulnerabilities new_security)) !! k = None
              ∧ c = vulnerability_fixed k v)
    ∨ (∃ header old_value,
         default ∅ (security_headers old_security) !! header = Some old_value
         ∧ c ∈ header_change (default ∅ (security_headers new_security))
                             (header, old_value))
    ∨ c ∈ certificate_change (default no_ssl_info (ssl_info old_security))
                             (default no_ssl_info (ssl_info new_security)).
Proof.
  unfold security_changes_of.
  set (old_vulns := vulns_by_key (default [] (vulnerabilities old_security))).
  set (new_vulns := vulns_by_key (default [] (vulnerabilities new_security))).
  destruct (vulnerability_lookups_total new_vulns old_vulns (λ _, vulnerability_added))
    as [added Ha].
  destruct (vulnerability_lookups_total old_vulns new_vulns vulnerability_fixed)
    as [fixed Hf].
  rewrite Ha, Hf. cbn [mbind option_bind default from_option]. unfold id.
  rewrite !elem_of_app, (mapM_elem _ _ _ _ Ha), (mapM_elem _ _ _ _ Hf), list_elem_of_bind.
  setoid_rewrite elem_of_elements. setoid_rewrite elem_of_difference.
  setoid_rewrite elem_of_dom. setoid_rewrite <- eq_None_not_Some.
  setoid_rewrite fmap_Some.
  split.
  - intros [(k & [_ ?] & v & ? & ->)|[(k & [_ ?] & v & ? & ->)|[([h ov] & ? & ?%elem_of_map_to_list)|?]]];
      eauto 10.
  - intros [(k & v & ? & ? & ->)|[(k & v & ? & ? & ->)|[(h & ov & ? & ?)|?]]]; eauto 10.
    right; right; left. exists (h, ov). by rewrite elem_of_map_to_list.
Qed.

(** [change['evidence'].get('header')] *)
Definition reported_header (c : Change) : option string :=
  match c with
  | Security_change s =>
      match sc_evidence s with
      | EvHeader header _ _ => Some header
      | _ => None
      end
  | _ => None
  end.

(** A change that is not about a header: it carries no header and its
    [change_type] is another one. *)
Definition not_about_header (c : Change) : Prop :=
  reported_header c = None ∧ get_change_type c ≠ Some "security_header_changed".

Lemma header_change_elem new_headers header old_value c :
  c ∈ header_change new_headers (header, old_value) →
  reported_header c = Some header
  ∧ get_change_type c = Some "security_header_changed"
  ∧ new_headers !! header ≠ Some old_value.
Proof.
  unfold header_change. case_bool_decide; [|by intros ?%elem_of_nil].
  by intros ->%list_elem_of_singleton.
Qed.

Lemma technology_part_not_about_header old_scan new_scan c :
  c ∈ technology_part old_scan new_scan → not_about_header c.
Proof.
  unfold technology_part. rewrite technology_changes_elem.
  unfold added_change, removed_change, version_change.
  intros [(n & _ & _ & H)|[(n & _ & _ & H)|(n & l & _ & _ & H & Hc)]].
  - apply bind_Some in H as (t & _ & H). by simplify_eq.
  - apply bind_Some in H as (t & _ & H). by simplify_eq.
  - apply bind_Some in H as (od & _ & H). apply bind_Some in H as (nd & _ & H).
    repeat case_match; simplify_eq;
      [apply list_elem_of_singleton in Hc as -> | apply elem_of_nil in Hc..]; done.
Qed.

Lemma performance_part_not_about_header thresholds old_scan new_scan c :
  c ∈ performance_part thresholds old_scan new_scan → not_about_header c.
Proof.
  unfold performance_part. rewrite !elem_of_app, list_elem_of_bind, !list_elem_of_fmap.
  intros [([[[key display] unit] limit] & Hc & _)|[(i & -> & _)|(i & -> & _)]]; [|done..].
  unfold metric_change in Hc.
  repeat case_match; try (by apply elem_of_nil in Hc);
    by apply list_elem_of_singleton in Hc as ->.
Qed.

Lemma content_changes_not_about_header old_content new_content c :
  c ∈ _detect_content_changes old_content new_content → not_about_header c.
Proof.
  unfold _detect_content_changes, text_change, hash_change. rewrite !elem_of_app.
  intros [Hc|[Hc|Hc]]; repeat case_match; try (by apply elem_of_nil in Hc);
    by apply list_elem_of_singleton in Hc as ->.
Qed.

Lemma infrastructure_changes_not_about_header old_infra new_infra c :
  c ∈ _detect_infrastructure_changes old_infra new_infra → not_about_header c.
Proof.
  unfold _detect_infrastructure_changes, field_change, cdn_change. rewrite !elem_of_app.
  intros [Hc|[Hc|Hc]]; repeat case_match; try (by apply elem_of_nil in Hc);
    by apply list_elem_of_singleton in Hc as ->.
Qed.

(** Every change handed to the noise filter either is the change of a
    header of the old snapshot, or is not about a header at all. *)
Lemma unfiltered_header_or_not thresholds old_scan new_scan c :
  c ∈ unfiltered thresholds old_scan new_scan →
  (∃ header old_value,
     default ∅ (security_headers (default no_security (security old_scan))) !! header
       = Some old_value
     ∧ reported_header c = Some header
     ∧ get_change_type c = Some "security_header_changed"
     ∧ default ∅ (security_headers (default no_security (security new_scan))) !! header
       ≠ Some old_value)
  ∨ not_about_header c.
Proof.
  unfold unfiltered. rewrite !elem_of_app.
  intros [H|[H|[H|[H|H]]]].
  - right. by eapply technology_part_not_about_header.
  - right. by eapply performance_part_not_about_header.
  - unfold security_part in H. apply security_changes_elem in H
      as [(k & v & _ & _ & ->)|[(k & v & _ & _ & ->)|[(h & ov & Hold & Hc)|Hc]]].
    + by right.
    + by right.
    + left. exists h, ov. apply header_change_elem in Hc as (? & ? & ?). done.
    + right. unfold certificate_change in Hc.
      case_bool_decide; [|by apply elem_of_nil in Hc].
      by apply list_elem_of_singleton in Hc as ->.
  - right. by eapply content_changes_not_about_header.
  - right. by eapply infrastructure_changes_not_about_header.
Qed.

(** *** Security headers *)

(** C10.  Every change in the list returned by [detect_changes] whose
    [change_type] is [security_header_changed] names, in its evidence, a
    header that is a key of the old snapshot's [security_headers] map, and
    no returned change names a header that the old snapshot does not have:
    a header present only in the new snapshot is never reported. *)
Theorem header_change_refers_to_old_header
    clock old_scan new_scan config_id d c :
  c ∈ changes (detect_changes clock old_scan new_scan config_id d).1 →
  let old_headers :=
    default ∅ (security_headers (default no_security (security old_scan))) in
  (get_change_type c = Some "security_header_changed" →
   ∃ header, reported_header c = Some header ∧ is_Some (old_headers !! header))
  ∧ (∀ header, old_headers !! header = None → reported_header c ≠ Some header).
Proof.
  rewrite detect_changes_changes. intros [_ Hc]%list_elem_of_filter old_headers.
  apply unfiltered_header_or_not in Hc
    as [(h & ov & Hold & Hrep & _ & _)|[Hrep Hty]].
  - split.
    + intros _. exists h. split; [done|]. by exists ov.
    + intros h' Hnone. rewrite Hrep. intros [= <-]. subst old_headers. congruence.
  - split; [done|]. intros h' _. by rewrite Hrep.
Qed.

(** Each category's list only holds changes of its own type. *)
Lemma technology_part_type old_scan new_scan c :
  c ∈ technology_part old_scan new_scan → get_type c = "technology_change".
Proof.
  unfold technology_part. rewrite technology_changes_elem.
  unfold added_change, removed_change, version_change.
  intros [(n & _ & _ & H)|[(n & _ & _ & H)|(n & l & _ & _ & H & Hc)]].
  - apply bind_Some in H as (t & _ & H). by simplify_eq.
  - apply bind_Some in H as (t & _ & H). by simplify_eq.
  - apply bind_Some in H as (od & _ & H). apply bind_Some in H as (nd & _ & H).
    repeat case_match; simplify_eq;
      [apply list_elem_of_singleton in Hc as -> | apply elem_of_nil in Hc..]; done.
Qed.

Lemma performance_part_type thresholds old_scan new_scan c :
  c ∈ performance_part thresholds old_scan new_scan → get_type c = "performance_change".
Proof.
  unfold performance_part. rewrite !elem_of_app, list_elem_of_bind, !list_elem_of_fmap.
  intros [([[[key display] unit] limit] & Hc & _)|[(i & -> & _)|(i & -> & _)]]; [|done..].
  unfold metric_change in Hc.
  repeat case_match; try (by apply elem_of_nil in Hc);
    by apply list_elem_of_singleton in Hc as ->.
Qed.

Lemma security_part_type old_scan new_scan c :
  c ∈ security_part old_scan new_scan → get_type c = "security_change".
Proof.
  unfold security_part. rewrite security_changes_elem.
  intros [(k & v & _ & _ & ->)|[(k & v & _ & _ & ->)|[(h & ov & _ & Hc)|Hc]]]; [done..| |].
  - unfold header_change in Hc. case_bool_decide; [|by apply elem_of_nil in Hc].
    by apply list_elem_of_singleton in Hc as ->.
  - unfold certificate_change in Hc. case_bool_decide; [|by apply elem_of_nil in Hc].
    by apply list_elem_of_singleton in Hc as ->.
Qed.

Lemma content_changes_type old_content new_content c :
  c ∈ _detect_content_changes old_content new_content → get_type c = "content_change".
Proof.
  unfold _detect_content_changes, text_change, hash_change. rewrite !elem_of_app.
  intros [Hc|[Hc|Hc]]; repeat case_match; try (by apply elem_of_nil in Hc);
    by apply list_elem_of_singleton in Hc as ->.
Qed.

Lemma infrastructure_changes_type old_infra new_infra c :
  c ∈ _detect_infrastructure_changes old_infra new_infra →
  get_type c = "infrastructure_change".
Proof.
  unfold _detect_infrastructure_changes, field_change, cdn_change. rewrite !elem_of_app.
  intros [Hc|[Hc|Hc]]; repeat case_match; try (by apply elem_of_nil in Hc);
    by apply list_elem_of_singleton in Hc as ->.
Qed.

(** A technology change handed to the filter comes from the technology
    list. *)
Lemma unfiltered_technology thresholds old_scan new_scan t :
  Technology_change t ∈ unfiltered thresholds old_scan new_scan ↔
  Technology_change t ∈ technology_part old_scan new_scan.
Proof.
  unfold unfiltered. rewrite !elem_of_app. split; [|by left].
  intros [H|[H|[H|[H|H]]]]; [done|..].
  - by apply performance_part_type in H.
  - by apply security_part_type in H.
  - by apply content_changes_type in H.
  - by apply infrastructure_changes_type in H.
Qed.

(** *** Version strings *)

Lemma split_nonempty sep s : Py.split sep s ≠ [].
Proof.
  destruct s as [|c r]; cbn; [done|].
  destruct (Ascii.eqb c sep); [done|]. by destruct (Py.split sep r).
Qed.

Lemma version_parts_nonempty v parts : version_parts v = Some parts → parts ≠ [].
Proof.
  unfold version_parts. intros H%length_mapM ->.
  by apply (split_nonempty "." v), nil_length_inv.
Qed.

(** The first component decides: the code never reaches the comparison of
    the second one. *)
Lemma significant_version_change_iff old_version new_version :
  _is_significant_version_change old_version new_version = true ↔
    version_parts old_version = None ∨ version_parts new_version = None
    ∨ ∃ a ra b rb, version_parts old_version = Some (a :: ra)
                   ∧ version_parts new_version = Some (b :: rb) ∧ a ≠ b.
Proof.
  unfold _is_significant_version_change.
  destruct (version_parts old_version) as [[|a ra]|] eqn:Ho;
    [by apply version_parts_nonempty in Ho| |split; [by left|done]].
  destruct (version_parts new_version) as [[|b rb]|] eqn:Hn;
    [by apply version_parts_nonempty in Hn| |split; [by (right; left)|done]].
  cbn. rewrite negb_true_iff, Z.eqb_neq. split.
  - intros ?. right; right. by exists a, ra, b, rb.
  - intros [?|[?|(? & ? & ? & ? & ? & ? & ?)]]; by simplify_eq.
Qed.

Lemma significant_not_minor old_version new_version :
  _is_significant_version_change old_version new_version = true →
  _is_minor_version_change old_version new_version = false.
Proof.
  rewrite significant_version_change_iff. unfold _is_minor_version_change.
  intros [->|[Hn|(a & ra & b & rb & -> & -> & Hab)]]; [done| |].
  - rewrite Hn. by destruct (version_parts old_version).
  - destruct ra as [|? [|? ?]], rb as [|? [|? ?]]; cbn; try done.
    apply Z.eqb_neq in Hab. by rewrite Hab.
Qed.

(** *** Which version changes are reported *)

(** The test of [_is_noise] on a technology name. *)
Definition is_noisy_name (n : string) : bool :=
  existsb (λ noisy, Py.contains noisy (Py.lower n)) noisy_technologies.

(** The returned list holds a [version_changed] change for technology [n]. *)
Definition version_changed_for (n : string) (l : list Change) : Prop :=
  ∃ t, Technology_change t ∈ l
       ∧ tc_change_type t = "version_changed" ∧ tc_technology_name t = n.

(** The integer in front of the first dot, when there is one. *)
Definition leading_component (v : string) : option Z :=
  head (Py.split "." v) ≫= Py.int.

(** One level above, [critical] staying [critical]. *)
Definition one_level_up (impact : string) : string :=
  if String.eqb impact "low" then "medium"
  else if String.eqb impact "medium" then "high"
  else "critical".

Lemma assess_tech_impact_level n : _assess_tech_impact n ∈ impact_levels.
Proof.
  unfold _assess_tech_impact.
  destruct (technology_importance !! Py.lower n) as [v|] eqn:Hv; cbn;
    [|unfold impact_levels; set_solver].
  revert Hv. generalize (Py.lower n). intros k Hk.
  assert (Hall : map_Forall (λ _ v, v ∈ impact_levels) technology_importance).
  { apply (bool_decide_unpack _). by vm_compute. }
  by apply (Hall k v).
Qed.

Lemma version_parts_leading v a ra :
  version_parts v = Some (a :: ra) → leading_component v = Some a.
Proof.
  unfold version_parts, leading_component. intros H%mapM_Some_1.
  inversion H as [|s ? ss ? Hs _]; subst. by cbn.
Qed.

Lemma major_version_change_leading old_version new_version :
  _is_major_version_change old_version new_version
  = match leading_component old_version, leading_component new_version with
    | Some a, Some b => negb (a =? b)%Z
    | _, _ => false
    end.
Proof.
  unfold _is_major_version_change, leading_component.
  rewrite <- !head_lookup.
  destruct (head (Py.split "." old_version) ≫= Py.int); [|done].
  by destruct (head (Py.split "." new_version) ≫= Py.int).
Qed.

Lemma assess_version_impact_eq n old_version new_version :
  _assess_version_impact n old_version new_version
  = if _is_major_version_change old_version new_version
    then one_level_up (_assess_tech_impact n) else _assess_tech_impact n.
Proof.
  unfold _assess_version_impact. destruct (_is_major_version_change _ _); [|done].
  pose proof (assess_tech_impact_level n) as H. unfold impact_levels in H.
  repeat (apply elem_of_cons in H as [->|H]); [done..|by apply elem_of_nil in H].
Qed.

(** The change the third loop builds for [n]. *)
Definition version_changed_change (n : string) (old_tech_data new_tech_data : Technology)
    : TechnologyChange :=
  let old_version := default "" (version old_tech_data) in
  let new_version := default "" (version new_tech_data) in
  {| tc_change_type := "version_changed";
     tc_technology_name := n;
     tc_technology_category := default "unknown" (category new_tech_data);
     tc_old_version := Some old_version;
     tc_new_version := Some new_version;
     tc_confidence := py_min (default 1%Q (confidence old_tech_data))
                             (default 1%Q (confidence new_tech_data));
     tc_impact_assessment := _assess_version_impact n old_version new_version;
     tc_evidence := EvVersionComparison old_version new_version
                      (_is_version_upgrade old_version new_version) |}.

Lemma truthy_iff s : Py.truthy s = true ↔ s ≠ "".
Proof. by destruct s. Qed.

(** What the third loop appends for a technology found in both snapshots. *)
Lemma version_change_eq old_tech new_tech n od nd ov nv :
  first_named old_tech n = Some od → first_named new_tech n = Some nd →
  version od = Some ov → version nd = Some nv → ov ≠ "" → nv ≠ "" → ov ≠ nv →
  version_change old_tech new_tech n
  = Some (if _is_significant_version_change ov nv
          then [Technology_change (version_changed_change n od nd)] else []).
Proof.
  intros Ho Hn Hov Hnv Ho' Hn' Hne. unfold version_change, version_changed_change.
  rewrite Ho, Hn. cbn [mbind option_bind]. rewrite Hov, Hnv. cbn [default from_option id].
  apply truthy_iff in Ho', Hn'. rewrite Ho', Hn'.
  apply String.eqb_neq in Hne. rewrite Hne. cbn [negb andb].
  by destruct (_is_significant_version_change ov nv).
Qed.

(** The technology changes returned for [n] when it is in both snapshots
    with two different non-empty versions: the [version_changed] change, iff
    the change is significant and the name is not noisy. *)
Lemma version_changed_returned_iff clock old_scan new_scan config_id d n od nd ov nv t :
  let old_tech := default no_technologies (technologies old_scan) in
  let new_tech := default no_technologies (technologies new_scan) in
  first_named old_tech n = Some od → first_named new_tech n = Some nd →
  version od = Some ov → version nd = Some nv → ov ≠ "" → nv ≠ "" → ov ≠ nv →
  Technology_change t ∈ changes (detect_changes clock old_scan new_scan config_id d).1
  ∧ tc_technology_name t = n
  ↔ _is_significant_version_change ov nv = true ∧ is_noisy_name n = false
    ∧ t = version_changed_change n od nd.
Proof.
  intros old_tech new_tech Ho Hn Hov Hnv Ho' Hn' Hne.
  rewrite detect_changes_changes, list_elem_of_filter, unfiltered_technology.
  unfold technology_part. fold old_tech new_tech. rewrite technology_changes_elem.
  pose proof (first_named_Some _ _ _ Ho) as [_ Hin_old].
  pose proof (first_named_Some _ _ _ Hn) as [_ Hin_new].
  pose proof (version_change_eq _ _ _ _ _ _ _ Ho Hn Hov Hnv Ho' Hn' Hne) as Hvc.
  split.
  - intros [[Hkept [(m & _ & Hnot & H)|[(m & _ & Hnot & H)|(m & l & _ & _ & H & Hc)]]] Hname].
    + unfold added_change in H. apply bind_Some in H as (x & _ & H).
      by (simplify_eq; cbn in *; subst).
    + unfold removed_change in H. apply bind_Some in H as (x & _ & H).
      by (simplify_eq; cbn in *; subst).
    + assert (m = n) as ->.
      { unfold version_change in H.
        apply bind_Some in H as (x & _ & H). apply bind_Some in H as (y & _ & H).
        repeat case_match; simplify_eq;
          first [by apply elem_of_nil in Hc
                | apply list_elem_of_singleton in Hc; by simplify_eq]. }
      rewrite Hvc in H. simplify_eq.
      destruct (_is_significant_version_change ov nv); [|by apply elem_of_nil in Hc].
      apply list_elem_of_singleton in Hc. simplify_eq. split; [done|]. split; [|done].
      unfold kept in Hkept. apply andb_prop in Hkept as [[Hnoise _]%andb_prop _].
      by apply negb_true_iff in Hnoise.
  - intros (Hsig & Hnoisy & ->). split; [|done]. split.
    + unfold kept.
      replace (_is_noise (Technology_change (version_changed_change n od nd)))
        with (is_noisy_name n) by done.
      rewrite Hnoisy. unfold minor_update_of_ignored, small_performance_change.
      cbn [get_type get_old_version get_new_version version_changed_change
           tc_old_version tc_new_version default from_option id].
      rewrite Hov, Hnv. cbn [default from_option id].
      rewrite (significant_not_minor _ _ Hsig). by rewrite !andb_false_r.
    + right; right. exists n, [Technology_change (version_changed_change n od nd)].
      rewrite Hvc, Hsig. split_and!; [done..|apply list_elem_of_here].
Qed.

(** C2 (amended).  Let technology [n] be in both snapshots, its first
    entries carrying two different non-empty version strings [ov] and [nv].
    - If the lower-cased name contains one of the noisy technology names,
      no [version_changed] change is returned for it.
    - Otherwise one is returned when the major versions differ, and also
      when a version string does not parse as dot-separated integers.
    - When both versions parse and agree on the major and the minor
      component (a patch-only difference), none is returned, whatever the
      technology.
    - The impact of a returned change is the base importance of the
      technology, raised one level ([critical] staying [critical]) when the
      leading components are integers that differ. *)
Theorem version_change_reporting
    clock old_scan new_scan config_id d n od nd ov nv :
  let old_tech := default no_technologies (technologies old_scan) in
  let new_tech := default no_technologies (technologies new_scan) in
  first_named old_tech n = Some od → first_named new_tech n = Some nd →
  version od = Some ov → version nd = Some nv → ov ≠ "" → nv ≠ "" → ov ≠ nv →
  let returned := changes (detect_changes clock old_scan new_scan config_id d).1 in
  (is_noisy_name n = true → ¬ version_changed_for n returned)
  ∧ (is_noisy_name n = false →
     version_parts ov = None ∨ version_parts nv = None
     ∨ (∃ a ra b rb, version_parts ov = Some (a :: ra)
                     ∧ version_parts nv = Some (b :: rb) ∧ a ≠ b) →
     version_changed_for n returned)
  ∧ (∀ a b ra rb, version_parts ov = Some (a :: b :: ra) →
                  version_parts nv = Some (a :: b :: rb) →
                  ¬ version_changed_for n returned)
  ∧ (∀ t, Technology_change t ∈ returned → tc_technology_name t = n →
          tc_impact_assessment t
          = match leading_component ov, leading_component nv with
            | Some a, Some b =>
                if (a =? b)%Z then _assess_tech_impact n
                else one_level_up (_assess_tech_impact n)
            | _, _ => _assess_tech_impact n
            end).
Proof.
  intros old_tech new_tech Ho Hn Hov Hnv Ho' Hn' Hne returned.
  pose proof (λ t, version_changed_returned_iff clock old_scan new_scan config_id d
                     n od nd ov nv t Ho Hn Hov Hnv Ho' Hn' Hne) as Hiff.
  fold returned in Hiff. split_and!.
  - intros Hnoisy (t & Hin & _ & Hname).
    destruct (proj1 (Hiff t) (conj Hin Hname)) as (_ & ? & _). congruence.
  - intros Hnoisy Hsig%significant_version_change_iff.
    exists (version_changed_change n od nd).
    split; [|done]. by apply (Hiff (version_changed_change n od nd)).
  - intros a b ra rb Hpo Hpn (t & Hin & _ & Hname).
    destruct (proj1 (Hiff t) (conj Hin Hname)) as (Hsig & _ & _).
    apply significant_version_change_iff in Hsig
      as [?|[?|(? & ? & ? & ? & ? & ? & ?)]]; by simplify_eq.
  - intros t Hin Hname.
    destruct (proj1 (Hiff t) (conj Hin Hname)) as (_ & _ & ->).
    cbn [version_changed_change tc_impact_assessment]. rewrite Hov, Hnv.
    cbn [default from_option id].
    rewrite assess_version_impact_eq, major_version_change_leading.
    destruct (leading_component ov), (leading_component nv); try done.
    by destruct (_ =? _)%Z.
Qed.

(** *** Sub-threshold performance deltas *)

Lemma kept_performance_change c :
  kept c = true → get_type c = "performance_change" →
  ¬ (Qabs (default 0%Q (get_change_percent c)) < 5)%Q.
Proof.
  unfold kept, small_performance_change. intros Hkept Hty Hlt.
  apply Qltb_lt in Hlt. rewrite Hty, Hlt in Hkept. cbn in Hkept.
  by rewrite andb_false_r in Hkept.
Qed.

(** C4.  Whatever the snapshots, the cached or configured thresholds and
    the state of the detector, a change of type [performance_change] in the
    list returned by [detect_changes] never has a [change_percent] of
    magnitude below 5 (a performance change without that key counts as 0
    and is never returned). *)
Theorem small_performance_change_never_reported
    clock old_scan new_scan config_id d c :
  c ∈ changes (detect_changes clock old_scan new_scan config_id d).1 →
  get_type c = "performance_change" →
  ¬ (Qabs (default 0%Q (get_change_percent c)) < 5)%Q.
Proof.
  rewrite detect_changes_changes. intros [Hkept _]%list_elem_of_filter.
  by apply kept_performance_change.
Qed.

(** *** Determinism *)

(** The thresholds the configuration table holds for a config. *)
Definition configured_thresholds (config_id : string) (d : Detector) : gmap string Q :=
  match Uuid.UUID config_id ≫= λ id, monitoring_configs d !! id with
  | Some {| scan_config := Some sc |} => default ∅ (performance_thresholds sc)
  | _ => ∅
  end.

(** The cache holds nothing but what was read from the table. *)
Definition cache_coherent (config_id : string) (d : Detector) : Prop :=
  ∀ cached expires_at,
    redis d !! ("perf_thresholds:" +:+ config_id) = Some (cached, expires_at) →
    cached = configured_thresholds config_id d.

Lemma thresholds_seen_coherent now config_id d :
  cache_coherent config_id d →
  thresholds_seen now config_id d = configured_thresholds config_id d.
Proof.
  unfold cache_coherent, thresholds_seen, _get_performance_thresholds,
    configured_thresholds, Redis.get, Redis.setex.
  intros Hcoh.
  destruct (redis d !! _) as [[cached expires_at]|] eqn:Hcache.
  - destruct (_ <? _)%Z; cbn; [by apply (Hcoh cached expires_at)|].
    by repeat case_match.
  - by repeat case_match.
Qed.

Lemma get_performance_thresholds_state now config_id d :
  let d' := (_get_performance_thresholds now config_id d).2 in
  monitoring_configs d' = monitoring_configs d
  ∧ metrics d' = metrics d
  ∧ (cache_coherent config_id d → cache_coherent config_id d').
Proof.
  unfold _get_performance_thresholds, Redis.get, Redis.setex.
  destruct (redis d !! _) as [[cached expires_at]|] eqn:Hcache.
  - destruct (_ <? _)%Z; cbn; [done|].
    destruct (Uuid.UUID config_id ≫= _) as [[[sc|]]|] eqn:Hrow; cbn; [|done..].
    split_and!; [done..|]. intros _ v e. unfold cache_coherent, configured_thresholds.
    cbn. rewrite lookup_insert_eq, Hrow. by intros [= <- _].
  - destruct (Uuid.UUID config_id ≫= _) as [[[sc|]]|] eqn:Hrow; cbn; [|done..].
    split_and!; [done..|]. intros _ v e. unfold cache_coherent, configured_thresholds.
    cbn. rewrite lookup_insert_eq, Hrow. by intros [= <- _].
Qed.

Lemma detect_changes_result clock old_scan new_scan config_id d :
  let r := (detect_changes clock old_scan new_scan config_id d).1 in
  detection_confidence r = _calculate_confidence (changes r)
  ∧ has_changes r = (0 <? length (changes r))%nat.
Proof.
  unfold detect_changes.
  destruct (_detect_technology_changes _ _ _) as [tech_changes m1].
  destruct (_detect_performance_changes _ _ _ _ _) as [perf_changes d2].
  destruct (_detect_security_changes _ _ _) as [security_changes m3].
  by destruct (_filter_noise _ _) as [meaningful m4].
Qed.

Lemma detect_changes_state clock old_scan new_scan config_id d :
  let d' := (detect_changes clock old_scan new_scan config_id d).2 in
  monitoring_configs d' = monitoring_configs d
  ∧ scan_results d' = scan_results d
  ∧ change_log d' = change_log d
  ∧ (cache_coherent config_id d → cache_coherent config_id d').
Proof.
  unfold detect_changes.
  destruct (_detect_technology_changes _ _ _) as [tech_changes m1].
  unfold _detect_performance_changes.
  pose proof (get_performance_thresholds_state (cache_now clock) config_id
                (with_metrics m1 d)) as (Hcfg & _ & Hcoh).
  assert (Htables :
    scan_results (_get_performance_thresholds (cache_now clock) config_id
                    (with_metrics m1 d)).2 = scan_results d
    ∧ change_log (_get_performance_thresholds (cache_now clock) config_id
                    (with_metrics m1 d)).2 = change_log d).
  { unfold _get_performance_thresholds. by repeat case_match. }
  destruct (_get_performance_thresholds _ _ _) as [thresholds d1].
  cbn [fst snd] in *.
  destruct (_detect_security_changes _ _ _) as [security_changes m3].
  destruct (_filter_noise _ _) as [meaningful m4]. cbn [fst snd].
  destruct Htables as [Hrows Hlog].
  unfold cache_coherent, configured_thresholds, with_metrics in *.
  cbn [monitoring_configs scan_results change_log redis] in *.
  split_and!; [done..|]. intros Hd. by apply Hcoh.
Qed.

(** What a run returns is a function of the two snapshots and of the
    configured thresholds. *)
Lemma detect_changes_function clock old_scan new_scan config_id d :
  cache_coherent config_id d →
  changes (detect_changes clock old_scan new_scan config_id d).1
  = filter (λ c, kept c = true)
           (unfiltered (configured_thresholds config_id d) old_scan new_scan).
Proof.
  intros Hcoh. by rewrite detect_changes_changes, thresholds_seen_coherent.
Qed.


(** A second run, started from the state the first one left and at any
    later or earlier clock reading, returns what the first one returned. *)
Lemma detect_changes_twice clock1 clock2 old_scan new_scan config_id d :
  cache_coherent config_id d →
  let '(r1, d') := detect_changes clock1 old_scan new_scan config_id d in
  let r2 := (detect_changes clock2 old_scan new_scan config_id d').1 in
  changes r1 = changes r2 ∧ detection_confidence r1 = detection_confidence r2.
Proof.
  intros Hcoh.
  pose proof (detect_changes_state clock1 old_scan new_scan config_id d)
    as (Hcfg & _ & _ & Hcoh').
  pose proof (detect_changes_function clock1 old_scan new_scan config_id d Hcoh) as H1.
  pose proof (detect_changes_result clock1 old_scan new_scan config_id d) as [Hc1 _].
  destruct (detect_changes clock1 old_scan new_scan config_id d) as [r1 d'].
  cbn [fst snd] in *. specialize (Hcoh' Hcoh).
  pose proof (detect_changes_function clock2 old_scan new_scan config_id d' Hcoh') as H2.
  pose proof (detect_changes_result clock2 old_scan new_scan config_id d') as [Hc2 _].
  cbn zeta in *.
  assert (configured_thresholds config_id d' = configured_thresholds config_id d) as Heq.
  { unfold configured_thresholds. by rewrite Hcfg. }
  rewrite Heq in H2. split; [congruence|]. rewrite Hc1, Hc2. congruence.
Qed.

(** *** A snapshot compared with itself *)

Lemma no_change_percent_is_noise (v : Q) :
  Qltb (Qabs ((v - v) / v * 100)) 2 = true.
Proof.
  apply Qltb_lt.
  assert ((v - v) / v * 100 == 0)%Q as ->; [|done].
  unfold Qdiv. ring.
Qed.

Lemma is_noise_performance p :
  _is_noise (Performance_change p) = Qltb (Qabs (pc_change_percent p)) 2.
Proof. reflexivity. Qed.

Lemma unfiltered_self thresholds scan c :
  c ∈ unfiltered thresholds scan scan → kept c = false.
Proof.
  unfold unfiltered. rewrite !elem_of_app. intros [H|[H|[H|[H|H]]]].
  - unfold technology_part in H. apply technology_changes_elem in H
      as [(n & ? & ? & _)|[(n & ? & ? & _)|(n & l & _ & _ & H & Hc)]]; [done..|].
    unfold version_change in H.
    apply bind_Some in H as (od & Hod & H). rewrite Hod in H. cbn in H.
    rewrite String.eqb_refl, andb_false_r in H. simplify_eq. by apply elem_of_nil in Hc.
  - unfold performance_part in H.
    rewrite !difference_diag_L, elements_empty, !fmap_nil, !app_nil_r in H.
    apply list_elem_of_bind in H as ([[[key display] unit] limit] & Hc & _).
    unfold metric_change in Hc.
    destruct (metrics_of _ !! key) as [v|]; [|by apply elem_of_nil in Hc].
    repeat case_match; try (by apply elem_of_nil in Hc);
      apply list_elem_of_singleton in Hc as ->;
      unfold kept; rewrite is_noise_performance; cbn [pc_change_percent];
      by rewrite no_change_percent_is_noise.
  - unfold security_part in H. apply security_changes_elem in H
      as [(k & v & ? & ? & _)|[(k & v & ? & ? & _)|[(h & ov & Hold & Hc)|Hc]]];
      [congruence..| |].
    + unfold header_change in Hc. rewrite Hold in Hc.
      rewrite bool_decide_false in Hc by (by intros ?). by apply elem_of_nil in Hc.
    + unfold certificate_change in Hc.
      rewrite bool_decide_false in Hc by (by intros ?). by apply elem_of_nil in Hc.
  - unfold _detect_content_changes, text_change, hash_change in H.
    rewrite !String.eqb_refl, !andb_false_r in H. by apply elem_of_nil in H.
  - unfold _detect_infrastructure_changes, field_change, cdn_change in H.
    rewrite !String.eqb_refl, !andb_false_r in H.
    rewrite bool_decide_false in H by (by intros ?). by apply elem_of_nil in H.
Qed.

(** Comparing a snapshot with itself reports nothing. *)
Lemma detect_changes_self clock scan config_id d :
  changes (detect_changes clock scan scan config_id d).1 = [].
Proof.
  rewrite detect_changes_changes.
  apply elem_of_nil_inv. intros c [Hkept Hc]%list_elem_of_filter.
  apply unfiltered_self in Hc. congruence.
Qed.

(** *** The scan the handler compares with *)

#[local] Instance newer_first_transitive : Transitive newer_first.
Proof. unfold newer_first. intros a b c ??. lia. Qed.

#[local] Instance newer_first_total : Total newer_first.
Proof. unfold newer_first. intros a b. lia. Qed.

Lemma head_take_2 {A} (l : list A) : head (take 2 l) = head l.
Proof. by destruct l. Qed.

(** [_get_previous_scan] returns a completed scan of the config with the
    greatest timestamp, whichever scan the event is about. *)
Lemma get_previous_scan_newest config_id d r :
  _get_previous_scan config_id d = Some r →
  r ∈ scan_results d ∧ Uuid.UUID config_id = Some (row_config_id r)
  ∧ row_status r = "completed"
  ∧ ∀ r', r' ∈ scan_results d → row_config_id r' = row_config_id r →
          row_status r' = "completed" →
          (row_scan_timestamp r' ≤ row_scan_timestamp r)%Z.
Proof.
  unfold _get_previous_scan, completed_scans_query.
  destruct (Uuid.UUID config_id) as [id|]; [|done]. cbn [mbind option_bind].
  rewrite head_take_2. set (l := filter _ (scan_results d)).
  pose proof (StronglySorted_merge_sort newer_first l) as Hsorted.
  pose proof (merge_sort_Permutation newer_first l) as Hperm.
  destruct (merge_sort newer_first l) as [|r0 s]; [done|]. intros [= ->].
  assert (r ∈ l) as [[<- ?] ?]%list_elem_of_filter by (rewrite <- Hperm; left).
  split_and!; [done..|]. intros r' Hin Hcfg Hst.
  assert (r' ∈ r :: s) as [->|Hr']%elem_of_cons.
  { rewrite Hperm. by apply list_elem_of_filter. }
  - done.
  - apply StronglySorted_inv in Hsorted as [_ Hall].
    rewrite Forall_forall in Hall. by apply Hall.
Qed.

(** It returns nothing only when no completed scan of the config is stored,
    or when the id is not a UUID. *)
Lemma get_previous_scan_None config_id d id :
  _get_previous_scan config_id d = None → Uuid.UUID config_id = Some id →
  ∀ r, r ∈ scan_results d → row_config_id r = id → row_status r ≠ "completed".
Proof.
  unfold _get_previous_scan, completed_scans_query. intros Hnone Hid.
  rewrite Hid in Hnone. revert Hnone.
  cbn [mbind option_bind]. rewrite head_take_2. set (l := filter _ (scan_results d)).
  pose proof (merge_sort_Permutation newer_first l) as Hperm.
  destruct (merge_sort newer_first l) as [|r0 s]; [|done]. intros _ r Hin Hcfg Hst.
  apply Permutation_nil_l in Hperm.
  assert (r ∈ l) as Hr by by apply list_elem_of_filter.
  rewrite <- Hperm in Hr. by apply elem_of_nil in Hr.
Qed.

Lemma get_previous_scan_not_uuid config_id d :
  Uuid.UUID config_id = None → _get_previous_scan config_id d = None.
Proof. unfold _get_previous_scan. by intros ->. Qed.

(** Once the row of the scan an event announces is stored as the newest
    completed scan of its config, that very row is what the handler takes
    for the previous scan. *)
Lemma get_previous_scan_current config_id d current :
  current ∈ scan_results d → Uuid.UUID config_id = Some (row_config_id current) →
  row_status current = "completed" →
  (∀ r, r ∈ scan_results d → row_config_id r = row_config_id current →
        row_status r = "completed" →
        (row_scan_timestamp current ≤ row_scan_timestamp r)%Z → r = current) →
  _get_previous_scan config_id d = Some current.
Proof.
  intros Hin Hcfg Hst Hnewest.
  destruct (_get_previous_scan config_id d) as [r|] eqn:Hprev.
  - apply get_previous_scan_newest in Hprev as (Hr & Hid & Hcompleted & Hmax).
    assert (row_config_id r = row_config_id current) as Hsame by congruence.
    f_equal. apply Hnewest; [done..|]. apply Hmax; [done|congruence|done].
  - by destruct (get_previous_scan_None _ _ _ Hprev Hcfg current Hin).
Qed.

(** The event that announces a stored scan, with the texts of its ids. *)
Definition announce (config_id scan_id : string) (row : ScanRow) : ScanCompleted :=
  {| msg_config_id := config_id;
     msg_scan_id := Some scan_id;
     msg_result_summary := Some (row_result_summary row) |}.

Lemma uuid_truthy hex id : Uuid.UUID hex = Some id → Py.truthy hex = true.
Proof. by destruct hex. Qed.

(** Hence, once the announced scan is stored as the newest completed scan
    of its config, the handler compares it with itself and never finds a
    change. *)
Lemma handler_compares_stored_scan_with_itself clock elapsed_ms d config_id scan_id row :
  row ∈ scan_results d → Uuid.UUID config_id = Some (row_config_id row) →
  row_status row = "completed" →
  (∀ r, r ∈ scan_results d → row_config_id r = row_config_id row →
        row_status r = "completed" →
        (row_scan_timestamp row ≤ row_scan_timestamp r)%Z → r = row) →
  ∃ result,
    (_handle_scan_completed clock elapsed_ms (announce config_id scan_id row) d).1
    = Compared row result
    ∧ changes result = [] ∧ has_changes result = false.
Proof.
  intros Hin Hcfg Hst Hnewest. unfold _handle_scan_completed, announce.
  cbn [msg_result_summary msg_config_id msg_scan_id].
  rewrite (uuid_truthy _ _ Hcfg). cbn [negb].
  rewrite (get_previous_scan_current config_id d row Hin Hcfg Hst Hnewest).
  pose proof (detect_changes_self clock (row_result_summary row) config_id d) as Hself.
  pose proof (detect_changes_result clock (row_result_summary row)
                (row_result_summary row) config_id d) as [_ Hflag].
  destruct (detect_changes clock _ _ _ d) as [result d1]. cbn [fst] in *.
  rewrite Hself in Hflag. cbn in Hflag. rewrite Hflag. by exists result.
Qed.

(** An event whose config id is not the text of a UUID is never compared
    with anything. *)
Lemma handler_skips_malformed_config_id clock elapsed_ms message d :
  Uuid.UUID (msg_config_id message) = None →
  (_handle_scan_completed clock elapsed_ms message d).1 ∈ [Invalid_message; Baseline_only].
Proof.
  intros Hid. unfold _handle_scan_completed.
  destruct (msg_result_summary message); [|by left].
  destruct (negb _); [by left|].
  rewrite get_previous_scan_not_uuid by done. right; left.
Qed.

End Detection.

(** *** Concrete snapshots *)

Definition empty_scan : Scan :=
  {| technologies := None; performance := None; security := None; content := None;
     infrastructure := None; scan_timestamp := None; scan_id := None |}.

Definition load_time_scan (load_time : Q) : Scan :=
  {| technologies := None;
     performance := Some {| metrics_of := {["load_time" := load_time]};
                            issues := None; perf_scan_timestamp := None |};
     security := None; content := None; infrastructure := None;
     scan_timestamp := None; scan_id := None |}.

Definition no_metrics : Metrics :=
  {| changes_detected := 0; technology_changes := 0; performance_changes := 0;
     security_changes := 0; false_positives_filtered := 0;
     processing_time_total_ms := 0 |}.

(** The config of the examples: the text of its id, as the events carry
    it, and the id. *)
Definition config_text : string := "6f1c2a9e-5b3d-4c7a-9e21-0a4b8c6d2e10".
Definition config_uuid : Z := 0x6f1c2a9e5b3d4c7a9e210a4b8c6d2e10.

Example config_text_uuid : Uuid.UUID config_text = Some config_uuid.
Proof. vm_compute. reflexivity. Qed.

(** A detector whose table configures the given thresholds for it. *)
Definition detector_with (thresholds : gmap string Q) (table : list ScanRow) : Detector :=
  {| metrics := no_metrics;
     redis := ∅;
     monitoring_configs :=
       {[config_uuid
         := {| scan_config := Some {| performance_thresholds := Some thresholds |} |}]};
     scan_results := table;
     change_log := [];
     change_detected := [] |}.

Definition at_noon : Readings :=
  {| started_at := 43200; cache_now := 43200; evidence_at := 43200; finished_at := 43201 |}.

(** A stand-in for the similarity ratio where no text is compared. *)
Definition constant_ratio : string → string → Q := λ _ _, 1%Q.

(** The example of the specification: 1000 ms to 1030 ms is 3 %, and is not
    reported even when the configured threshold is 1 %. *)
Example load_time_three_percent :
  changes (detect_changes constant_ratio at_noon (load_time_scan 1000) (load_time_scan 1030)
             config_text (detector_with {["load_time" := 1%Q]} [])).1 = [].
Proof. vm_compute. reflexivity. Qed.

Definition load_time_thirty_percent : Change :=
  Eval vm_compute in
    default (issue_change "" "" "")
      (head (changes (detect_changes constant_ratio at_noon
                        (load_time_scan 1000) (load_time_scan 1300)
                        config_text (detector_with {["load_time" := 1%Q]} [])).1)).

Lemma small_performance_change_never_reported_witness :
  ¬ (Qabs (default 0%Q (get_change_percent load_time_thirty_percent)) < 5)%Q.
Proof.
  apply (small_performance_change_never_reported constant_ratio at_noon
           (load_time_scan 1000) (load_time_scan 1300) config_text
           (detector_with {["load_time" := 1%Q]} []) load_time_thirty_percent).
  - vm_compute. apply list_elem_of_here.
  - reflexivity.
Defined.

Definition headers_scan (headers : gmap string string) : Scan :=
  {| technologies := None; performance := None;
     security := Some {| vulnerabilities := None; security_headers := Some headers;
                         ssl_info := None |};
     content := None; infrastructure := None; scan_timestamp := None; scan_id := None |}.

(** [X-Frame-Options] is dropped and [Content-Security-Policy] appears. *)
Definition headers_before : gmap string string := {["X-Frame-Options" := "DENY"]}.
Definition headers_after : gmap string string :=
  {["Content-Security-Policy" := "default-src https:"]}.

Definition frame_options_dropped : Change :=
  Security_change
    {| sc_change_type := "security_header_changed";
       sc_vulnerability_type := None;
       sc_severity := "critical";
       sc_description := "Security header 'X-Frame-Options' changed";
       sc_evidence := EvHeader "X-Frame-Options" "DENY" None;
       sc_remediation_advice := None |}.

Example dropped_header_reported_added_header_not :
  changes (detect_changes constant_ratio at_noon (headers_scan headers_before)
             (headers_scan headers_after) config_text (detector_with ∅ [])).1
  = [frame_options_dropped].
Proof. vm_compute. reflexivity. Qed.

Lemma header_change_refers_to_old_header_witness :
  (get_change_type frame_options_dropped = Some "security_header_changed" →
   ∃ header, reported_header frame_options_dropped = Some header
             ∧ is_Some (headers_before !! header))
  ∧ (∀ header, headers_before !! header = None →
               reported_header frame_options_dropped ≠ Some header).
Proof.
  apply (header_change_refers_to_old_header constant_ratio at_noon
           (headers_scan headers_before) (headers_scan headers_after) config_text
           (detector_with ∅ []) frame_options_dropped).
  vm_compute. apply list_elem_of_here.
Defined.

Definition tech (n v : string) : Technology :=
  {| name := n; version := Some v; category := None; confidence := None;
     detection_method := None; indicators := None |}.

Definition tech_scan (l : list Technology) : Scan :=
  {| technologies := Some {| detected := Some l; tech_scan_timestamp := None |};
     performance := None; security := None; content := None; infrastructure := None;
     scan_timestamp := None; scan_id := None |}.

Definition returned_for (old_detected new_detected : list Technology) : list Change :=
  changes (detect_changes constant_ratio at_noon (tech_scan old_detected)
             (tech_scan new_detected) config_text (detector_with ∅ [])).1.

(** The examples of the specification. *)
Example jquery_patch_update : returned_for [tech "jquery" "3.6.0"] [tech "jquery" "3.6.1"] = [].
Proof. vm_compute. reflexivity. Qed.

Example react_major_update :
  returned_for [tech "react" "17"] [tech "react" "18"]
  = [Technology_change
       {| tc_change_type := "version_changed";
          tc_technology_name := "react";
          tc_technology_category := "unknown";
          tc_old_version := Some "17";
          tc_new_version := Some "18";
          tc_confidence := 1;
          tc_impact_assessment := "critical";
          tc_evidence := EvVersionComparison "17" "18" true |}]
  ∧ _assess_tech_impact "react" = "high".
Proof. split; vm_compute; reflexivity. Qed.

(** A minor update of a technology of high importance: the comparison of
    the second component is never reached. *)
Example react_minor_update :
  returned_for [tech "react" "17.0.2"] [tech "react" "17.1.0"] = []
  ∧ _assess_tech_impact "react" = "high".
Proof. split; vm_compute; reflexivity. Qed.

(** C2 as stated fails: a major update of a noisy technology is not
    reported, and a major update of a technology of critical importance
    keeps the impact [critical]. *)
Lemma major_update_of_noisy_technology_not_reported :
  (version_parts "3.0.0" = Some [3; 0; 0]%Z ∧ version_parts "4.0.0" = Some [4; 0; 0]%Z
   ∧ returned_for [tech "google-analytics" "3.0.0"] [tech "google-analytics" "4.0.0"] = [])
  ∧ (_assess_tech_impact "nginx" = "critical"
     ∧ (tc_impact_assessment <$>
          omap (λ c, match c with Technology_change t => Some t | _ => None end)
               (returned_for [tech "nginx" "1.18.0"] [tech "nginx" "2.0.0"]))
       = ["critical"]).
Proof. repeat split; vm_compute; reflexivity. Qed.

Lemma version_change_reporting_witness :
  let returned := returned_for [tech "react" "17.0.2"] [tech "react" "18.2.0"] in
  (is_noisy_name "react" = true → ¬ version_changed_for "react" returned)
  ∧ (is_noisy_name "react" = false →
     version_parts "17.0.2" = None ∨ version_parts "18.2.0" = None
     ∨ (∃ a ra b rb, version_parts "17.0.2" = Some (a :: ra)
                     ∧ version_parts "18.2.0" = Some (b :: rb) ∧ a ≠ b) →
     version_changed_for "react" returned)
  ∧ (∀ a b ra rb, version_parts "17.0.2" = Some (a :: b :: ra) →
                  version_parts "18.2.0" = Some (a :: b :: rb) →
                  ¬ version_changed_for "react" returned)
  ∧ (∀ t, Technology_change t ∈ returned → tc_technology_name t = "react" →
          tc_impact_assessment t
          = match leading_component "17.0.2", leading_component "18.2.0" with
            | Some a, Some b =>
                if (a =? b)%Z then _assess_tech_impact "react"
                else one_level_up (_assess_tech_impact "react")
            | _, _ => _assess_tech_impact "react"
            end).
Proof.
  apply (version_change_reporting constant_ratio at_noon
           (tech_scan [tech "react" "17.0.2"]) (tech_scan [tech "react" "18.2.0"])
           config_text (detector_with ∅ []) "react"
           (tech "react" "17.0.2") (tech "react" "18.2.0") "17.0.2" "18.2.0");
    first [reflexivity | discriminate].
Defined.

(** The state a first run leaves: bumped counters and a filled cache. *)
Definition after_first_run : Detector :=
  (detect_changes constant_ratio at_noon (load_time_scan 1000) (load_time_scan 1300)
     config_text (detector_with {["load_time" := 1%Q]} [])).2.


Example first_run_fills_cache :
  redis after_first_run !! ("perf_thresholds:" +:+ config_text)
  = Some ({["load_time" := 1%Q]}, 46800%Z)
  ∧ performance_changes (metrics after_first_run) = 1.
Proof. split; vm_compute; reflexivity. Qed.


(** Two completed scans of one config, the second being the one the event
    announces. *)
Definition first_text : string := "0b7e41d2-93c8-4f5a-8a6e-5d1c2f3a4b01".
Definition first_uuid : Z := 0x0b7e41d293c84f5a8a6e5d1c2f3a4b01.
Definition second_text : string := "c4a9f0e6-27b1-4d38-b5c2-9e8d7f6a5b02".
Definition second_uuid : Z := 0xc4a9f0e627b14d38b5c29e8d7f6a5b02.

Example scan_text_uuid :
  Uuid.UUID first_text = Some first_uuid ∧ Uuid.UUID second_text = Some second_uuid.
Proof. split; vm_compute; reflexivity. Qed.

Definition first_scan : ScanRow :=
  {| row_id := first_uuid; row_config_id := config_uuid; row_status := "completed";
     row_scan_timestamp := 1000;
     row_result_summary := tech_scan [tech "react" "17.0.2"] |}.

Definition second_scan : ScanRow :=
  {| row_id := second_uuid; row_config_id := config_uuid; row_status := "completed";
     row_scan_timestamp := 2000;
     row_result_summary := tech_scan [tech "react" "18.2.0"] |}.

(** The events that announce them. *)
Definition first_announced : ScanCompleted := announce config_text first_text first_scan.
Definition second_announced : ScanCompleted := announce config_text second_text second_scan.

(** One run of the handler on a detector that holds the given scans. *)
Definition handle (message : ScanCompleted) (table : list ScanRow) : Handled * Detector :=
  _handle_scan_completed constant_ratio at_noon 1200 message (detector_with ∅ table).

(** What the handler compared the announced scan with, and what it found. *)
Definition compared_with (h : Handled * Detector) : option (Z * list Change) :=
  match h.1 with
  | Compared previous result => Some (row_id previous, changes result)
  | _ => None
  end.

(** C1.  With the announced scan already stored, [_get_previous_scan]
    hands back that scan itself: the handler compares the second scan with
    the second scan and finds nothing, although the comparison with the
    first scan reports the update; and on the very first scan of a config
    detection is not skipped, the scan is compared with itself. *)
Theorem previous_scan_is_the_announced_scan :
  _get_previous_scan config_text (detector_with ∅ [first_scan; second_scan])
  = Some second_scan
  ∧ compared_with (handle second_announced [first_scan; second_scan])
    = Some (second_uuid, [])
  ∧ length (returned_for [tech "react" "17.0.2"] [tech "react" "18.2.0"]) = 1
  ∧ compared_with (handle first_announced [first_scan]) = Some (first_uuid, []).
Proof. repeat split; vm_compute; reflexivity. Qed.

(** Before the announced scan is stored the lookup does give the preceding
    scan, and with no stored scan the handler only records a baseline. *)
Example previous_scan_when_not_yet_stored :
  compared_with (handle second_announced [first_scan])
  = Some (first_uuid, returned_for [tech "react" "17.0.2"] [tech "react" "18.2.0"])
  ∧ (handle first_announced []).1 = Baseline_only.
Proof. split; vm_compute; reflexivity. Qed.

(** What the handler hands on: the update found is inserted and published
    once; an event without a scan id, or one whose config id is not the
    text of a UUID, leaves nothing behind. *)
Definition handed_on (h : Handled * Detector) : nat * nat * nat :=
  (length (change_log h.2), length (change_detected h.2), changes_detected (metrics h.2)).

Example changes_handed_on :
  handed_on (handle second_announced [first_scan]) = (1, 1, 1)
  ∧ handed_on (handle {| msg_config_id := config_text; msg_scan_id := None;
                         msg_result_summary := Some (row_result_summary second_scan) |}
                 [first_scan])
    = (0, 0, 0)
  ∧ (handle (announce "cfg-1" second_text second_scan) [first_scan]).1 = Baseline_only.
Proof. repeat split; vm_compute; reflexivity. Qed.

End ChangeDetector.

(** ** The event bus client ([streaming/kafka_client.py]) *)

Module Kafka.

Definition dlq_topic : string := "dlq.failed-messages".

(** What [producer.send_and_wait] does with one request: the record is
    appended to the topic, or the producer gives up with a [KafkaError]
    after its retries, or another exception is raised. *)
Inductive SendOutcome :=
| Delivered
| Kafka_error (text : string)
| Other_error (text : string).

#[global] Instance SendOutcome_eq_dec : EqDecision SendOutcome.
Proof. solve_decision. Defined.

Section Client.

(** The payloads the components exchange (the [data] dict of an event). *)
Context {Body : Type}.

(** A decoded record value: the JSON object of an event, each of whose
    keys may be missing; the [data] of a dead-letter message holds the value
    of the message that failed. *)
Inductive Data :=
| Application (body : Body)
| Dead_letter (original_message : Wire) (original_topic error failed_at : string)
with Wire :=
| Wire_object (wire_id wire_timestamp wire_type wire_source : option string)
              (wire_data : option Data) (wire_metadata : option Body).

Definition wire_id (w : Wire) := let 'Wire_object i _ _ _ _ _ := w in i.
Definition wire_timestamp (w : Wire) := let 'Wire_object _ t _ _ _ _ := w in t.
Definition wire_type (w : Wire) := let 'Wire_object _ _ t _ _ _ := w in t.
Definition wire_source (w : Wire) := let 'Wire_object _ _ _ s _ _ := w in s.
Definition wire_data (w : Wire) := let 'Wire_object _ _ _ _ d _ := w in d.
Definition wire_metadata (w : Wire) := let 'Wire_object _ _ _ _ _ m := w in m.

(** [KafkaMessage]; an absent or empty [data] dict is [None]. *)
Record KafkaMessage := {
  id : string;
  timestamp : string;
  type : string;
  source : string;
  data : option Data;
  metadata : option Body }.

(** [asdict(message)] *)
Definition asdict (message : KafkaMessage) : Wire :=
  Wire_object (Some (id message)) (Some (timestamp message)) (Some (type message))
              (Some (source message)) (data message) (metadata message).

(** One call of [send_and_wait], with what came of it. *)
Record Request := {
  req_topic : string;
  req_key : option string;
  req_value : Wire;
  req_headers : list (string * string);
  req_outcome : SendOutcome }.

(** The client: whether the producer was started, the counters of
    [self.metrics], and the requests made to the cluster so far. *)
Record Client := {
  producer_started : bool;
  messages_produced : nat;
  messages_consumed : nat;
  production_errors : nat;
  consumption_errors : nat;
  last_error : option string;
  requests : list Request }.

(** [datetime.now(timezone.utc).isoformat()] and [str(time.time())] of a
    clock reading. *)
Variable isoformat : Z → string.
Variable str_time : Z → string.

(** The outcome of the n-th request made to the cluster. *)
Variable send_and_wait : nat → SendOutcome.

Inductive Produced :=
| Sent
| Not_initialized
| Failed_kafka (text : string)
| Failed_other (text : string).

Definition count_produced (request : Request) (c : Client) : Client :=
  {| producer_started := producer_started c;
     messages_produced := messages_produced c + 1;
     messages_consumed := messages_consumed c;
     production_errors := production_errors c;
     consumption_errors := consumption_errors c;
     last_error := last_error c;
     requests := requests c ++ [request] |}.

Definition count_production_error (e : string) (request : Request) (c : Client) : Client :=
  {| producer_started := producer_started c;
     messages_produced := messages_produced c;
     messages_consumed := messages_consumed c;
     production_errors := production_errors c + 1;
     consumption_errors := consumption_errors c;
     last_error := Some e;
     requests := requests c ++ [request] |}.

(** The [try] block of [produce_message] with the counters of its two
    handlers, without the routing to the dead-letter topic.  (The counters
    the source also keeps in the cache are left out.) *)
Definition produce_unrouted (topic : string) (message : KafkaMessage)
    (key : option string) (headers : list (string * string)) (c : Client)
    : Produced * Client :=
  if negb (producer_started c) then (Not_initialized, c)
  else
    let kafka_headers :=
      headers ++ [("source", source message); ("type", type message);
                  ("timestamp", timestamp message)] in
    let outcome := send_and_wait (length (requests c)) in
    let request :=
      {| req_topic := topic; req_key := key; req_value := asdict message;
         req_headers := kafka_headers; req_outcome := outcome |} in
    match outcome with
    | Delivered => (Sent, count_produced request c)
    | Kafka_error e => (Failed_kafka e, count_production_error e request c)
    | Other_error e => (Failed_other e, count_production_error e request c)
    end.

(** The message [_send_to_dlq] builds. *)
Definition dlq_message (now : Z) (message_data : Wire) (original_topic error : string)
    : KafkaMessage :=
  {| id := "dlq-" +:+ str_time now;
     timestamp := isoformat now;
     type := "dlq_message";
     source := "kafka_client";
     data := Some (Dead_letter message_data original_topic error (isoformat now));
     metadata := None |}.

(** [_send_to_dlq]: the inner [produce_message] is on the dead-letter
    topic, where a failure is not routed again. *)
Definition _send_to_dlq (now : Z) (message_data : Wire) (original_topic error : string)
    (c : Client) : Client :=
  (produce_unrouted dlq_topic (dlq_message now message_data original_topic error)
                    None [] c).2.

(** [produce_message] *)
Definition produce_message (now : Z) (topic : string) (message : KafkaMessage)
    (key : option string) (headers : list (string * string)) (c : Client)
    : bool * Client :=
  match produce_unrouted topic message key headers c with
  | (Sent, c1) => (true, c1)
  | (Not_initialized, c1) => (false, c1)
  | (Failed_kafka e, c1) =>
      if bool_decide (topic ≠ dlq_topic)
      then (false, _send_to_dlq now (asdict message) topic e c1)
      else (false, c1)
  | (Failed_other e, c1) => (false, c1)
  end.

(** A record handed to the consumer loop.  [cr_value] is [None] for a null
    or empty value (falsy). *)
Record ConsumerRecord := {
  cr_topic : string;
  cr_partition : Z;
  cr_offset : Z;
  cr_key : option string;
  cr_headers : list (string * string);
  cr_timestamp : Z;
  cr_value : option Wire }.

(** The second argument of a message handler. *)
Record Context := {
  ctx_topic : string;
  ctx_partition : Z;
  ctx_offset : Z;
  ctx_key : option string;
  ctx_headers : list (string * string);
  ctx_timestamp : Z }.

(** The state of the component that owns the handler, and the handler: it
    returns normally ([None]) or raises an exception with the given text. *)
Context {State : Type}.
Variable message_handler : KafkaMessage → Context → State → State * option string.

(** The [KafkaMessage] built from a record value. *)
Definition received (value : Wire) : KafkaMessage :=
  {| id := default "" (wire_id value);
     timestamp := default "" (wire_timestamp value);
     type := default "" (wire_type value);
     source := default "" (wire_source value);
     data := wire_data value;
     metadata := wire_metadata value |}.

Definition context_of (msg : ConsumerRecord) : Context :=
  {| ctx_topic := cr_topic msg; ctx_partition := cr_partition msg;
     ctx_offset := cr_offset msg; ctx_key := cr_key msg;
     ctx_headers := cr_headers msg; ctx_timestamp := cr_timestamp msg |}.

(** What the loop did with one record. *)
Inductive Consumed :=
| Skipped
| Handled
| Raised (text : string).

Definition count_consumed (c : Client) : Client :=
  {| producer_started := producer_started c;
     messages_produced := messages_produced c;
     messages_consumed := messages_consumed c + 1;
     production_errors := production_errors c;
     consumption_errors := consumption_errors c;
     last_error := last_error c;
     requests := requests c |}.

Definition count_consumption_error (e : string) (c : Client) : Client :=
  {| producer_started := producer_started c;
     messages_produced := messages_produced c;
     messages_consumed := messages_consumed c;
     production_errors := production_errors c;
     consumption_errors := consumption_errors c + 1;
     last_error := Some e;
     requests := requests c |}.

(** The body of the loop of [_consume_messages], for the record [msg]
    processed at instant [now]. *)
Definition consume_one (now : Z) (msg : ConsumerRecord) (s : State) (c : Client)
    : Consumed * State * Client :=
  match cr_value msg with
  | None => (Skipped, s, c)
  | Some value =>
      match message_handler (received value) (context_of msg) s with
      | (s', None) => (Handled, s', count_consumed c)
      | (s', Some e) =>
          let c1 := count_consumption_error e c in
          if bool_decide (cr_topic msg ≠ dlq_topic)
          then (Raised e, s', _send_to_dlq now value (cr_topic msg) e c1)
          else (Raised e, s', c1)
      end
  end.

(** [_consume_messages] over the records delivered so far, each with the
    instant at which it is processed. *)
Fixpoint _consume_messages (deliveries : list (Z * ConsumerRecord)) (s : State) (c : Client)
    : list Consumed * State * Client :=
  match deliveries with
  | [] => ([], s, c)
  | (now, msg) :: rest =>
      let '(outcome, s1, c1) := consume_one now msg s c in
      let '(outcomes, s2, c2) := _consume_messages rest s1 c1 in
      (outcome :: outcomes, s2, c2)
  end.

(** *** Dead-lettering *)


(** The records a topic holds: the values of the delivered requests. *)
Definition topic_log (topic : string) (c : Client) : list Wire :=
  req_value <$> filter (λ r, req_topic r = topic ∧ req_outcome r = Delivered) (requests c).

(** The request [_send_to_dlq] makes when it is the n-th one. *)
Definition dead_letter_request (now : Z) (message_data : Wire)
    (original_topic error : string) (n : nat) : Request :=
  {| req_topic := dlq_topic;
     req_key := None;
     req_value := asdict (dlq_message now message_data original_topic error);
     req_headers := [("source", "kafka_client"); ("type", "dlq_message");
                     ("timestamp", isoformat now)];
     req_outcome := send_and_wait n |}.

Lemma send_to_dlq_started now value topic e c :
  producer_started c = true →
  producer_started (_send_to_dlq now value topic e c) = true
  ∧ requests (_send_to_dlq now value topic e c)
    = requests c ++ [dead_letter_request now value topic e (length (requests c))].
Proof.
  intros Hstarted. unfold _send_to_dlq, produce_unrouted, dead_letter_request.
  rewrite Hstarted. cbn [negb]. by destruct (send_and_wait (length (requests c))).
Qed.




(** A record is skipped only for want of a value: every other record is
    handed to the handler, whatever happened to the records before it. *)
Lemma consume_messages_outcomes deliveries s c :
  let outcomes := (_consume_messages deliveries s c).1.1 in
  length outcomes = length deliveries
  ∧ ∀ j now msg, deliveries !! j = Some (now, msg) →
      (outcomes !! j = Some Skipped ↔ cr_value msg = None).
Proof.
  revert s c. induction deliveries as [|[now msg] rest IH]; intros s c.
  { split; [done|]. intros j ?? Hj. by rewrite lookup_nil in Hj. }
  cbn [_consume_messages].
  assert ((consume_one now msg s c).1.1 = Skipped ↔ cr_value msg = None) as Hone.
  { unfold consume_one. destruct (cr_value msg) as [value|]; [|done].
    destruct (message_handler _ _ s) as [s' [e|]]; [|done]. by case_bool_decide. }
  destruct (consume_one now msg s c) as [[outcome s1] c1]. cbn [fst] in Hone.
  specialize (IH s1 c1). destruct (_consume_messages rest s1 c1) as [[outcomes s2] c2].
  cbn in IH |- *. destruct IH as [Hlen IH]. split; [by rewrite Hlen|].
  intros [|j] now' msg' Hj; cbn in Hj |- *.
  - simplify_eq. rewrite <- Hone. split; congruence.
  - by apply IH with now'.
Qed.







End Client.

(** *** A poison message between two good ones *)

Definition event (i : string) : option (@Wire string) :=
  Some (Wire_object (Some i) (Some "2024-01-01T00:00:00+00:00") (Some "scan_completed")
                    (Some "scanner") (Some (Application i)) None).

Definition on_topic (topic : string) (offset : Z) (value : option (@Wire string))
    : ConsumerRecord :=
  {| cr_topic := topic; cr_partition := 0; cr_offset := offset; cr_key := Some "cfg-1";
     cr_headers := []; cr_timestamp := 0; cr_value := value |}.

(** A handler that counts the events it handled and raises on ["bad"]. *)
Definition choking_handler (m : @KafkaMessage string) (_ : Context) (handled : nat)
    : nat * option string :=
  if String.eqb (id m) "bad" then (handled, Some "cannot handle bad")
  else (handled + 1, None).

Definition started_client : @Client string :=
  {| producer_started := true; messages_produced := 0; messages_consumed := 0;
     production_errors := 0; consumption_errors := 0; last_error := None;
     requests := [] |}.

Definition fixed_text (text : string) : Z → string := λ _, text.

Example poison_message_between_two_good_ones :
  let '(outcomes, handled, c) :=
    _consume_messages (fixed_text "2024-01-01T00:00:05+00:00") (fixed_text "1704067205.0")
      (λ _, Delivered) choking_handler
      [(5%Z, on_topic "scan.completed" 0 (event "a"));
       (5%Z, on_topic "scan.completed" 1 (event "bad"));
       (6%Z, on_topic "scan.completed" 2 None);
       (6%Z, on_topic "scan.completed" 3 (event "b"))]
      0 started_client in
  outcomes = [Handled; Raised "cannot handle bad"; Skipped; Handled]
  ∧ handled = 2
  ∧ topic_log dlq_topic c
    = [Wire_object (Some "dlq-1704067205.0") (Some "2024-01-01T00:00:05+00:00")
                   (Some "dlq_message") (Some "kafka_client")
                   (Some (Dead_letter
                            (Wire_object (Some "bad") (Some "2024-01-01T00:00:00+00:00")
                                         (Some "scan_completed") (Some "scanner")
                                         (Some (Application "bad")) None)
                            "scan.completed" "cannot handle bad"
                            "2024-01-01T00:00:05+00:00"))
                   None].
Proof. vm_compute. repeat split; reflexivity. Qed.

End Kafka.

(** ** [urllib.parse]: the network location of a URL

    [urlparse(url).netloc] as CPython's [urlsplit] computes it: leading
    control characters and spaces are stripped, tabs and line breaks
    removed, a valid scheme is split off, and the part between ["//"] and
    the next ["/"], ["?"] or ["#"] is the network location.  Unbalanced
    square brackets raise [ValueError] ([None]); the further checks of a
    bracketed host are not modelled. *)

Module Urllib.

Definition is_c0_or_space (c : ascii) : bool := (nat_of_ascii c <=? 32)%nat.

Fixpoint lstrip_c0 (s : string) : string :=
  match s with
  | EmptyString => EmptyString
  | String c r => if is_c0_or_space c then lstrip_c0 r else s
  end.

Definition is_unsafe (c : ascii) : bool :=
  let n := nat_of_ascii c in ((n =? 9) || (n =? 10) || (n =? 13))%nat.

Fixpoint remove_unsafe (s : string) : string :=
  match s with
  | EmptyString => EmptyString
  | String c r => if is_unsafe c then remove_unsafe r else String c (remove_unsafe r)
  end.

Definition is_alpha (c : ascii) : bool :=
  let n := nat_of_ascii c in
  (((65 <=? n) && (n <=? 90)) || ((97 <=? n) && (n <=? 122)))%nat.

Definition is_scheme_char (c : ascii) : bool :=
  let n := nat_of_ascii c in
  is_alpha c || ((48 <=? n) && (n <=? 57))%nat
  || Ascii.eqb c "+" || Ascii.eqb c "-" || Ascii.eqb c ".".

(** What follows the first [":"], when every character before it is a
    scheme character. *)
Fixpoint after_scheme (s : string) : option string :=
  match s with
  | EmptyString => None
  | String c r =>
      if Ascii.eqb c ":" then Some r
      else if is_scheme_char c then after_scheme r else None
  end.

Definition drop_scheme (url : string) : string :=
  match url with
  | String c _ =>
      if is_alpha c then default url (after_scheme url) else url
  | EmptyString => url
  end.

(** [_splitnetloc]: up to the first of ["/"], ["?"], ["#"]. *)
Fixpoint until_delimiter (s : string) : string :=
  match s with
  | EmptyString => EmptyString
  | String c r =>
      if Ascii.eqb c "/" || Ascii.eqb c "?" || Ascii.eqb c "#" then EmptyString
      else String c (until_delimiter r)
  end.

(** [urlparse(url).netloc]; [None] stands for [ValueError].  A network
    location with one square bracket and not the other is refused.  What
    is accepted when it holds both depends on the release of the library
    (the text between them is validated as an IP literal, and later
    releases also look at what surrounds them): that check is the parameter
    [bracketed_netloc_ok]. *)
Definition netloc (bracketed_netloc_ok : string → bool) (url : string) : option string :=
  let url := drop_scheme (remove_unsafe (lstrip_c0 url)) in
  match url with
  | String "/" (String "/" rest) =>
      let n := until_delimiter rest in
      match Py.contains "[" n, Py.contains "]" n with
      | true, true => if bracketed_netloc_ok n then Some n else None
      | false, false => Some n
      | _, _ => None
      end
  | _ => Some EmptyString
  end.

(** The part of a string after the last occurrence of a character (the
    whole string when there is none), and the part before the first. *)
Fixpoint after_last (sep : ascii) (s : string) : string :=
  match s with
  | EmptyString => EmptyString
  | String c r =>
      if Py.contains (String sep EmptyString) r then after_last sep r
      else if Ascii.eqb c sep then r else s
  end.

Fixpoint before_first (sep : ascii) (s : string) : string :=
  match s with
  | EmptyString => EmptyString
  | String c r => if Ascii.eqb c sep then EmptyString else String c (before_first sep r)
  end.

(** The part of a string from the first occurrence of a character on,
    that occurrence included (nothing when there is none). *)
Fixpoint from_first (sep : ascii) (s : string) : string :=
  match s with
  | EmptyString => EmptyString
  | String c r => if Ascii.eqb c sep then s else from_first sep r
  end.

Definition after_first (sep : ascii) (s : string) : string :=
  match from_first sep s with
  | String _ r => r
  | EmptyString => EmptyString
  end.

(** The host of a network location, as the [hostname] property of a parse
    result gives it: without the user information and the port, in lower
    case up to a zone separator ["%"]; [None] when it is empty. *)
Definition hostname (location : string) : option string :=
  let hostinfo := after_last "@" location in
  let host :=
    if Py.contains "[" hostinfo then before_first "]" (after_first "[" hostinfo)
    else before_first ":" hostinfo in
  if Py.truthy host
  then Some (Py.lower (before_first "%" host) +:+ from_first "%" host)
  else None.

End Urllib.

Example netloc_examples bracketed_netloc_ok :
  Urllib.netloc bracketed_netloc_ok "https://Example.com/path?q=1" = Some "Example.com"
  /\ Urllib.netloc bracketed_netloc_ok "http://example.com:8080/" = Some "example.com:8080"
  /\ Urllib.netloc bracketed_netloc_ok "http://user@example.com" = Some "user@example.com"
  /\ Urllib.netloc bracketed_netloc_ok "example.com/path" = Some ""
  /\ Urllib.netloc bracketed_netloc_ok "http://[::1/" = None.
Proof. repeat split; reflexivity. Qed.

Example hostname_examples :
  Urllib.hostname "User:pw@Example.COM:443" = Some "example.com"
  /\ Urllib.hostname "[FE80::1%Eth0]:80" = Some "fe80::1%Eth0"
  /\ Urllib.hostname ":80" = None.
Proof. repeat split; reflexivity. Qed.

(** ** The rate limiter and the scheduler ([pipeline/monitoring_pipeline.py]) *)

Module RateLimiter.

(** The marks of the limiter: under each key the instant of the recorded
    scan (the stored text is its [isoformat], read back by
    [fromisoformat]) and the instant at which the key expires. *)
Abbreviation Marks := (gmap string (Z * Z)).

Section Limiter.

(** The check of the URL parser on a bracketed network location. *)
Variable bracketed_netloc_ok : string → bool.

(** [_extract_domain]; [None] is the exception of the URL parser. *)
Definition _extract_domain (url : string) : option string :=
  Py.lower <$> Urllib.netloc bracketed_netloc_ok url.

(** [is_allowed]; [None] is the exception of the URL parser. *)
Definition is_allowed (now : Z) (url : string) (min_interval_minutes : Z) (marks : Marks)
    : option bool :=
  domain ← _extract_domain url;
  let rate_limit_key := "scan_rate:" +:+ domain in
  match Redis.get now rate_limit_key marks with
  | Some last_scan_time =>
      if (now - last_scan_time <? min_interval_minutes * 60)%Z then Some false
      else Some true
  | None => Some true
  end.

(** [record_scan]; [None] is an exception (of the parser or of [setex]). *)
Definition record_scan (now : Z) (url : string) (ttl_minutes : Z) (marks : Marks)
    : option Marks :=
  domain ← _extract_domain url;
  let rate_limit_key := "scan_rate:" +:+ domain in
  Redis.setex now rate_limit_key (ttl_minutes * 60) now marks.

(** *** One throttle per network location *)

(** After a scan of [url1] is recorded at [now0], an attempt on a URL with
    the same lower-cased network location is refused exactly while the mark
    lives and the minimum interval has not elapsed. *)
Lemma throttle_shared_by_location now0 now url1 url2 ttl interval (marks marks' : Marks) :
  _extract_domain url1 = _extract_domain url2 →
  record_scan now0 url1 ttl marks = Some marks' → (now0 ≤ now)%Z →
  is_allowed now url2 interval marks'
  = Some (negb ((now <? now0 + ttl * 60) && (now - now0 <? interval * 60))%Z).
Proof.
  unfold record_scan, is_allowed, Redis.setex, Redis.get. intros <- Hrec Hle.
  destruct (_extract_domain url1) as [domain|]; cbn in *; [|done].
  destruct (0 <? ttl * 60)%Z; [|done]. simplify_eq.
  rewrite lookup_insert_eq.
  destruct (now <? now0 + ttl * 60)%Z; [|done].
  by destruct (now - now0 <? interval * 60)%Z.
Qed.

(** With the defaults of the source (a mark of 5 minutes, an interval of 5
    minutes) the attempt is refused for 300 seconds and accepted from then
    on. *)
Lemma default_throttle now0 now url1 url2 (marks marks' : Marks) :
  _extract_domain url1 = _extract_domain url2 →
  record_scan now0 url1 5 marks = Some marks' → (now0 ≤ now)%Z →
  is_allowed now url2 5 marks' = Some (negb (now - now0 <? 300)%Z).
Proof.
  intros Hloc Hrec Hle.
  rewrite (throttle_shared_by_location now0 now url1 url2 5 5 marks marks' Hloc Hrec Hle).
  do 2 f_equal. destruct (now - now0 <? 5 * 60)%Z eqn:H.
  - rewrite andb_true_r. lia.
  - rewrite andb_false_r. lia.
Qed.

(** A mark of another network location does not throttle. *)
Lemma throttle_other_location now0 now url1 url2 ttl interval (marks marks' : Marks) d1 d2 :
  _extract_domain url1 = Some d1 → _extract_domain url2 = Some d2 → d1 ≠ d2 →
  record_scan now0 url1 ttl marks = Some marks' →
  is_allowed now url2 interval marks' = is_allowed now url2 interval marks.
Proof.
  unfold record_scan, is_allowed, Redis.setex, Redis.get. intros -> -> Hne. cbn.
  destruct (0 <? ttl * 60)%Z; [|done]. intros [= <-].
  rewrite lookup_insert_ne; [done|]. intros [= ?]. done.
Qed.

Definition example_marks : option Marks := record_scan 0 "http://example.com/" 5 ∅.

(** C7.  Two target URLs on the host [example.com], one of them with a
    port: a scan of the first is recorded at instant 0, and one minute
    later an attempt on the second is accepted, because the mark is keyed
    by the whole network location ([example.com:8080]), not by the host.
    An attempt on a URL that differs in path and letter case only is
    refused. *)
Theorem same_host_other_port_not_throttled :
  Urllib.netloc bracketed_netloc_ok "http://example.com/" ≫= Urllib.hostname
  = Some "example.com"
  ∧ Urllib.netloc bracketed_netloc_ok "http://example.com:8080/status" ≫= Urllib.hostname
    = Some "example.com"
  ∧ _extract_domain "http://example.com:8080/status" = Some "example.com:8080"
  ∧ (example_marks ≫= is_allowed 60 "http://example.com:8080/status" 5) = Some true
  ∧ (example_marks ≫= is_allowed 60 "http://EXAMPLE.com/other" 5) = Some false.
Proof. repeat split; vm_compute; reflexivity. Qed.

End Limiter.

End RateLimiter.

Module Pipeline.

(** [config.schedule]: [type], and the keys of the two kinds of schedule. *)
Record Schedule := {
  schedule_type : string;
  expression : option string;
  timezone : option string;
  minutes : option Z }.

(** [config.scan_config]: opaque to the pipeline but for [priority]. *)
Record ScanOptions := { priority : option string }.

(** [MonitoringConfig], also the row of [monitoring_configs] ([alert_rules],
    which the pipeline never reads, is left out).  [id] is the text of the
    id; the table is keyed by the id itself, a [uuid]. *)
Record MonitoringConfig := {
  id : string;
  organization_id : string;
  name : string;
  url : string;
  schedule : Schedule;
  scan_config : ScanOptions;
  enabled : bool;
  last_scan_at : option Z;
  next_scan_at : option Z }.

Definition with_next_scan_at (t : Z) (c : MonitoringConfig) : MonitoringConfig :=
  {| id := id c; organization_id := organization_id c; name := name c; url := url c;
     schedule := schedule c; scan_config := scan_config c; enabled := enabled c;
     last_scan_at := last_scan_at c; next_scan_at := Some t |}.

Record ScanJob := {
  job_id : string;
  job_config_id : string;
  job_url : string;
  job_scan_config : ScanOptions;
  scheduled_time : Z;
  job_priority : string }.

(** The [data] of a [scan.scheduled] event. *)
Record ScanScheduled := {
  ss_config_id : string;
  ss_url : string;
  ss_scan_config : ScanOptions;
  ss_scheduled_at : string }.

(** The pipeline: the configs in memory, the table, the marks of the rate
    limiter, the bus client and the counters. *)
Record State := {
  active_configs : gmap string MonitoringConfig;
  monitoring_configs : gmap Z MonitoringConfig;
  marks : gmap string (Z * Z);
  kafka : @Kafka.Client ScanScheduled;
  scans_scheduled : nat;
  scans_rate_limited : nat;
  last_error : option string }.

Section Scheduler.

(** Renderings of a clock reading: [isoformat()], [str(time.time())] and
    [int(time.time())]. *)
Variable isoformat : Z → string.
Variable str_time : Z → string.
Variable int_time : Z → string.

(** The cluster, as in [Kafka]. *)
Variable send_and_wait : nat → Kafka.SendOutcome.

(** The check of the URL parser, as in [RateLimiter]. *)
Variable bracketed_netloc_ok : string → bool.

(** [croniter(expression, start).get_next(datetime)] for a start instant
    in UTC: the next instant at which the expression matches the UTC wall
    clock; [None] when the expression is refused. *)
Variable croniter_get_next : string → Z → option Z.

(** [_calculate_next_scan_time]; [None] is an exception (no [expression]
    key, or an expression the library refuses). *)
Definition _calculate_next_scan_time (now : Z) (config : MonitoringConfig) : option Z :=
  let schedule := schedule config in
  if String.eqb (schedule_type schedule) "cron" then
    e ← expression schedule; croniter_get_next e now
  else if String.eqb (schedule_type schedule) "interval" then
    let minutes := default 60%Z (minutes schedule) in
    Some (now + minutes * 60)%Z
  else Some (now + 3600)%Z.

(** [_update_scan_scheduled], which reads the clock at [now]: the [UPDATE]
    touches the row of the config, if there is one; a config that is not in
    memory, a failing calculation or an id that is not the text of a UUID
    leave the table as it is. *)
Definition _update_scan_scheduled (now : Z) (config_id : string) (scan_job : ScanJob)
    (p : State) : State :=
  match active_configs p !! config_id ≫= _calculate_next_scan_time now,
        Uuid.UUID config_id with
  | Some next_scan_time, Some row_id =>
      {| active_configs := active_configs p;
         monitoring_configs :=
           alter (with_next_scan_at next_scan_time) row_id (monitoring_configs p);
         marks := marks p; kafka := kafka p;
         scans_scheduled := scans_scheduled p;
         scans_rate_limited := scans_rate_limited p;
         last_error := last_error p |}
  | _, _ => p
  end.

(** [create_scan_scheduled_message] *)
Definition create_scan_scheduled_message (now : Z) (config_id url : string)
    (scan_config : ScanOptions) : @Kafka.KafkaMessage ScanScheduled :=
  {| Kafka.id := "scan-" +:+ config_id +:+ "-" +:+ int_time now;
     Kafka.timestamp := isoformat now;
     Kafka.type := "scan_scheduled";
     Kafka.source := "scheduler";
     Kafka.data :=
       Some (Kafka.Application
               {| ss_config_id := config_id; ss_url := url;
                  ss_scan_config := scan_config; ss_scheduled_at := isoformat now |});
     Kafka.metadata := None |}.

Definition with_kafka (k : @Kafka.Client ScanScheduled) (p : State) : State :=
  {| active_configs := active_configs p; monitoring_configs := monitoring_configs p;
     marks := marks p; kafka := k; scans_scheduled := scans_scheduled p;
     scans_rate_limited := scans_rate_limited p; last_error := last_error p |}.

Definition with_error (e : string) (p : State) : State :=
  {| active_configs := active_configs p; monitoring_configs := monitoring_configs p;
     marks := marks p; kafka := kafka p; scans_scheduled := scans_scheduled p;
     scans_rate_limited := scans_rate_limited p; last_error := Some e |}.

Definition rate_limited (p : State) : State :=
  {| active_configs := active_configs p; monitoring_configs := monitoring_configs p;
     marks := marks p; kafka := kafka p; scans_scheduled := scans_scheduled p;
     scans_rate_limited := scans_rate_limited p + 1; last_error := last_error p |}.

Definition scheduled (m : gmap string (Z * Z)) (p : State) : State :=
  {| active_configs := active_configs p; monitoring_configs := monitoring_configs p;
     marks := m; kafka := kafka p; scans_scheduled := scans_scheduled p + 1;
     scans_rate_limited := scans_rate_limited p; last_error := last_error p |}.

(** [_trigger_scan], started at instant [now] with [fresh_id] for the job;
    [updated_at] is the later reading of [_calculate_next_scan_time], once
    the event is published. *)
Definition _trigger_scan (now updated_at : Z) (fresh_id : string)
    (config : MonitoringConfig) (p : State) : State :=
  match RateLimiter.is_allowed bracketed_netloc_ok now (url config) 5 (marks p) with
  | None => with_error "Invalid IPv6 URL" p
  | Some false => rate_limited p
  | Some true =>
      let scan_job :=
        {| job_id := fresh_id; job_config_id := id config; job_url := url config;
           job_scan_config := scan_config config; scheduled_time := now;
           job_priority := default "normal" (priority (scan_config config)) |} in
      let message :=
        create_scan_scheduled_message now (id config) (url config) (scan_config config) in
      let '(success, k) :=
        Kafka.produce_message isoformat str_time send_and_wait now "scan.scheduled"
                              message (Some (url config)) [] (kafka p) in
      let p1 := with_kafka k p in
      if success then
        match RateLimiter.record_scan bracketed_netloc_ok now (url config) 5 (marks p1) with
        | Some m => _update_scan_scheduled updated_at (id config) scan_job (scheduled m p1)
        | None => with_error "invalid expire time in 'setex' command" p1
        end
      else p1
  end.

(** *** What a published trigger persists *)

Lemma update_scan_scheduled_row now config_id scan_job p cfg row_id row t :
  active_configs p !! config_id = Some cfg →
  Uuid.UUID config_id = Some row_id →
  monitoring_configs p !! row_id = Some row →
  _calculate_next_scan_time now cfg = Some t →
  monitoring_configs (_update_scan_scheduled now config_id scan_job p) !! row_id
  = Some (with_next_scan_at t row).
Proof.
  intros Hcfg Hid Hrow Ht. unfold _update_scan_scheduled.
  rewrite Hcfg, Hid. cbn. rewrite Ht. cbn. by rewrite lookup_alter_eq, Hrow.
Qed.

(** With an id that is not the text of a UUID nothing is persisted. *)
Lemma update_scan_scheduled_malformed now config_id scan_job p :
  Uuid.UUID config_id = None → _update_scan_scheduled now config_id scan_job p = p.
Proof. intros Hid. unfold _update_scan_scheduled. rewrite Hid. by case_match. Qed.

(** After a trigger that the rate limiter lets through and whose event the
    cluster accepts, the row of the config holds the instant computed from
    the schedule of the config in memory, at the reading [updated_at] taken
    once the event is published: that instant plus the minutes of an
    interval schedule (60 when the key is missing), and what [croniter]
    answers from that instant for the expression of a cron schedule. *)
Lemma trigger_scan_persists now updated_at fresh_id config p cfg row_id row :
  RateLimiter.is_allowed bracketed_netloc_ok now (url config) 5 (marks p) = Some true →
  Kafka.producer_started (kafka p) = true →
  send_and_wait (length (Kafka.requests (kafka p))) = Kafka.Delivered →
  active_configs p !! id config = Some cfg →
  Uuid.UUID (id config) = Some row_id →
  monitoring_configs p !! row_id = Some row →
  let row' :=
    monitoring_configs (_trigger_scan now updated_at fresh_id config p) !! row_id in
  (schedule_type (schedule cfg) = "interval" →
   row' = Some (with_next_scan_at
                  (updated_at + default 60 (minutes (schedule cfg)) * 60)%Z row))
  ∧ (∀ e t, schedule_type (schedule cfg) = "cron" → expression (schedule cfg) = Some e →
            croniter_get_next e updated_at = Some t →
            row' = Some (with_next_scan_at t row)).
Proof.
  intros Hallowed Hstarted Hsend Hcfg Hid Hrow row'.
  assert (∀ t, _calculate_next_scan_time updated_at cfg = Some t →
               row' = Some (with_next_scan_at t row)) as Hpersist.
  { intros t Ht. subst row'. unfold _trigger_scan. rewrite Hallowed.
    unfold Kafka.produce_message, Kafka.produce_unrouted. rewrite Hstarted, Hsend.
    cbn [negb]. cbn [with_kafka marks].
    assert (is_Some (RateLimiter.record_scan bracketed_netloc_ok now (url config) 5
                       (marks p))) as [m Hm].
    { unfold RateLimiter.is_allowed, RateLimiter.record_scan in *.
      destruct (RateLimiter._extract_domain bracketed_netloc_ok (url config));
        [by eexists|done]. }
    rewrite Hm. by apply update_scan_scheduled_row with cfg. }
  split.
  - intros Hty. apply Hpersist. unfold _calculate_next_scan_time. by rewrite Hty.
  - intros e t Hty He Hnext. apply Hpersist. unfold _calculate_next_scan_time.
    rewrite Hty, He. done.
Qed.

(** The calculation does not read the time zone of the schedule. *)
Lemma next_scan_time_ignores_timezone now c tz :
  _calculate_next_scan_time now
    {| id := id c; organization_id := organization_id c; name := name c; url := url c;
       schedule := {| schedule_type := schedule_type (schedule c);
                      expression := expression (schedule c);
                      timezone := tz;
                      minutes := minutes (schedule c) |};
       scan_config := scan_config c; enabled := enabled c;
       last_scan_at := last_scan_at c; next_scan_at := next_scan_at c |}
  = _calculate_next_scan_time now c.
Proof. reflexivity. Qed.

End Scheduler.

(** *** A daily schedule in another time zone *)

(** For an expression ["M H * * *"] and a wall clock [utc_offset] seconds
    ahead of UTC: the first instant after [now] at which that clock shows
    H:M.  With offset 0 this is what [croniter] answers for a start instant
    in UTC; with the offset of the schedule's time zone it is when the
    trigger of the scheduler, built by [_schedule_config] with that time
    zone, fires next. *)
Definition daily_next (utc_offset : Z) (e : string) (now : Z) : option Z :=
  match Py.split " " e with
  | [minute; hour; "*"; "*"; "*"] =>
      m ← Py.int minute; h ← Py.int hour;
      let local := (now + utc_offset)%Z in
      let today := (local - local `mod` 86400 + h * 3600 + m * 60)%Z in
      Some ((if (local <? today)%Z then today else today + 86400) - utc_offset)%Z
  | _ => None
  end.

Definition new_york_winter : Z := (-18000)%Z.

Definition nine_in_new_york : MonitoringConfig :=
  {| id := "6f1c2a9e-5b3d-4c7a-9e21-0a4b8c6d2e10";
     organization_id := "2d4f6a8c-0e1b-4c3d-9a5f-7b9d1e3f5a70"; name := "example";
     url := "https://example.com/";
     schedule := {| schedule_type := "cron"; expression := Some "0 9 * * *";
                    timezone := Some "America/New_York"; minutes := None |};
     scan_config := {| priority := None |}; enabled := true;
     last_scan_at := None; next_scan_at := None |}.

(** A pipeline that holds one config, in memory and in the table (an id
    that is not the text of a UUID has no row). *)
Definition pipeline_with (c : MonitoringConfig) : State :=
  {| active_configs := {[id c := c]};
     monitoring_configs :=
       match Uuid.UUID (id c) with Some row_id => {[row_id := c]} | None => ∅ end;
     marks := ∅;
     kafka := {| Kafka.producer_started := true; Kafka.messages_produced := 0;
                 Kafka.messages_consumed := 0; Kafka.production_errors := 0;
                 Kafka.consumption_errors := 0; Kafka.last_error := None;
                 Kafka.requests := [] |};
     scans_scheduled := 0; scans_rate_limited := 0; last_error := None |}.

(** 2024-01-01 14:00:00 UTC, which is 09:00 in New York. *)
Definition trigger_instant : Z := 1704117600.

(** The trigger of [c] at that instant, the event being published within
    the second, every request being accepted and [croniter] working on the
    UTC clock. *)
Definition triggered (c : MonitoringConfig) : State :=
  _trigger_scan (Kafka.fixed_text "2024-01-01T14:00:00+00:00")
    (Kafka.fixed_text "1704117600.0") (Kafka.fixed_text "1704117600")
    (λ _, Kafka.Delivered) (λ _, true) (daily_next 0) trigger_instant trigger_instant
    "5a7c9e1b-3d5f-4a6c-8e0a-2c4e6a8c0e30" c (pipeline_with c).

Definition persisted_next_scan_at (c : MonitoringConfig) : option Z :=
  Uuid.UUID (id c) ≫= λ row_id, monitoring_configs (triggered c) !! row_id ≫= next_scan_at.

(** C8.  A cron schedule ["0 9 * * *"] in the time zone America/New_York,
    triggered at 09:00 New York time: the event is published, and the
    persisted [next_scan_at] is 2024-01-02 09:00 UTC, the next match of the
    expression on the UTC clock, while the schedule, as the scheduler runs
    it, next occurs at 2024-01-02 14:00 UTC (09:00 in New York). *)
Theorem next_scan_at_of_zoned_cron_schedule :
  persisted_next_scan_at nine_in_new_york = Some 1704186000%Z
  ∧ daily_next new_york_winter "0 9 * * *" trigger_instant = Some 1704204000%Z
  ∧ scans_scheduled (triggered nine_in_new_york) = 1.
Proof. repeat split; vm_compute; reflexivity. Qed.

(** An interval schedule of 30 minutes. *)
Definition every_half_hour : MonitoringConfig :=
  {| id := "91e3c5a7-2b4d-4f6a-8c0e-3a5b7c9d1e20";
     organization_id := "2d4f6a8c-0e1b-4c3d-9a5f-7b9d1e3f5a70"; name := "example";
     url := "https://example.org/";
     schedule := {| schedule_type := "interval"; expression := None;
                    timezone := None; minutes := Some 30%Z |};
     scan_config := {| priority := None |}; enabled := true;
     last_scan_at := None; next_scan_at := None |}.

Example next_scan_at_of_interval_schedule :
  persisted_next_scan_at every_half_hour = Some (trigger_instant + 30 * 60)%Z.
Proof. vm_compute. reflexivity. Qed.

End Pipeline.

(** ** The alert engine ([alerting/alert_engine.py]) *)

Module AlertEngine.

Import ChangeDetector.

(** The declaration of the table [monitoring_alerts] is not part of the
    code.  The [INSERT] of [_store_alert] names neither [notification_sent]
    nor [notification_attempts] nor [last_notification_attempt]: a new row
    holds what the declaration gives these columns, a value or [NULL]
    ([None]). *)
Class ColumnDefaults := {
  default_notification_sent : option bool;
  default_notification_attempts : option Z;
  default_last_notification_attempt : option Z }.

Section Engine.

(** The rule conditions and the type-specific settings of a channel are
    not read by what follows. *)
Context {Conditions Settings : Type}.

(** The defaults of the columns of [monitoring_alerts], whatever they are. *)
Context {column_defaults : ColumnDefaults}.

(** One entry of [rule.notification_channels]. *)
Record ChannelConfig := {
  channel_type : option string;
  channel_name : option string;
  channel_settings : Settings }.

(** [AlertRule] ([escalation_rules], never read, is left out); empty
    [conditions] are [None]. *)
Record AlertRule := {
  rule_id : string;
  rule_name : string;
  conditions : option Conditions;
  rule_severity : string;
  notification_channels : list ChannelConfig;
  rule_enabled : bool;
  throttle_minutes : Z }.

(** [Alert].  The [details] are the change that triggered the rule; the
    changes the detector publishes carry no [id] key, so the
    [change_reference_id] of an alert that [_create_alert] builds is
    [None]. *)
Record Alert := {
  alert_id : string;
  alert_config_id : string;
  alert_rule_name : string;
  alert_type : string;
  alert_severity : string;
  alert_title : string;
  alert_description : string;
  details : Change;
  change_reference_id : option string;
  change_reference_type : option string;
  triggered_at : Z }.

(** A row of [monitoring_alerts]: the columns of type [uuid], then the
    other columns as the alert has them, then the three columns only
    [_update_alert_notification_status] writes, [None] being [NULL]. *)
Record AlertRow := {
  row_id : Z;
  row_config_id : Z;
  row_change_reference_id : option Z;
  stored_alert : Alert;
  stored_channels : list ChannelConfig;
  notification_sent : option bool;
  notification_attempts : option Z;
  last_notification_attempt : option Z }.

(** What [send_notification] returns: [status] is ['sent'] or ['failed']. *)
Record NotificationResult := {
  status : string;
  error : option string }.

(** A row of [alert_notifications]. *)
Record NotificationRow := {
  n_alert_id : Z;
  n_channel_type : string;
  n_channel_config : ChannelConfig;
  n_status : string;
  n_error_message : option string }.

(** The engine: the throttle marks, the two tables and the counters. *)
Record State := {
  throttle_marks : gmap string (string * Z);
  monitoring_alerts : list AlertRow;
  alert_notifications : list NotificationRow;
  smtp_config : Settings;
  alerts_sent : nat;
  alerts_failed : nat;
  notifications_sent : nat;
  notifications_failed : nat }.

(** [_generate_alert_title] and [_generate_alert_description]: text built
    from the change, by templates. *)
Variable _generate_alert_title : AlertRule → Change → string.
Variable _generate_alert_description : AlertRule → Change → string.

(** The handler of each channel type ([EmailChannel], [SlackChannel],
    [WebhookChannel], [SMSChannel]).  [handler_built] tells whether its
    constructor returns for a configuration (that of [WebhookChannel]
    raises on a [method] that is not a string); [send_notification]
    contacts the outside world and answers with a result, it never
    raises. *)
Variable handler_built : string → ChannelConfig → bool.
Variable send_notification : string → ChannelConfig → Alert → NotificationResult.

(** [{**self.smtp_config, **channel_config}] *)
Variable merge_settings : Settings → Settings → Settings.

Definition throttle_key (config_id rule_id : string) : string :=
  "alert_throttle:" +:+ config_id +:+ ":" +:+ rule_id.

(** [_is_throttled] *)
Definition _is_throttled (now : Z) (config_id rule_id : string) (e : State) : bool :=
  Redis.exists_ now (throttle_key config_id rule_id) (throttle_marks e).

Definition with_marks (m : gmap string (string * Z)) (e : State) : State :=
  {| throttle_marks := m; monitoring_alerts := monitoring_alerts e;
     alert_notifications := alert_notifications e; smtp_config := smtp_config e;
     alerts_sent := alerts_sent e; alerts_failed := alerts_failed e;
     notifications_sent := notifications_sent e;
     notifications_failed := notifications_failed e |}.

(** [_set_throttle]: the error of [setex] is logged and dropped. *)
Definition _set_throttle (now : Z) (config_id rule_id : string) (throttle_minutes : Z)
    (e : State) : State :=
  match Redis.setex now (throttle_key config_id rule_id) (throttle_minutes * 60) "1"
                    (throttle_marks e) with
  | Some m => with_marks m e
  | None => e
  end.

(** [uuid.UUID(x) if x else None] *)
Definition reference_uuid (x : option string) : option (option Z) :=
  match x with
  | Some hex => if Py.truthy hex then Some <$> Uuid.UUID hex else Some None
  | None => Some None
  end.

(** [_store_alert]; [None] stands for the error it raises again when an id
    is not the text of a UUID. *)
Definition _store_alert (alert : Alert) (channels : list ChannelConfig) (e : State)
    : option State :=
  id ← Uuid.UUID (alert_id alert);
  config_id ← Uuid.UUID (alert_config_id alert);
  reference_id ← reference_uuid (change_reference_id alert);
  Some
    {| throttle_marks := throttle_marks e;
       monitoring_alerts :=
         monitoring_alerts e
         ++ [{| row_id := id; row_config_id := config_id;
                row_change_reference_id := reference_id;
                stored_alert := alert; stored_channels := channels;
                notification_sent := default_notification_sent;
                notification_attempts := default_notification_attempts;
                last_notification_attempt := default_last_notification_attempt |}];
       alert_notifications := alert_notifications e; smtp_config := smtp_config e;
       alerts_sent := alerts_sent e; alerts_failed := alerts_failed e;
       notifications_sent := notifications_sent e;
       notifications_failed := notifications_failed e |}.

(** [_create_alert], at instant [now] and with [fresh_id], the text of a
    fresh [uuid4], for the alert.  When [_store_alert] raises, no alert is
    returned and no mark is set. *)
Definition _create_alert (now : Z) (fresh_id config_id : string) (rule : AlertRule)
    (change_details : Change) (e : State) : option Alert * State :=
  if _is_throttled now config_id (rule_id rule) e then (None, e)
  else
    let alert :=
      {| alert_id := fresh_id;
         alert_config_id := config_id;
         alert_rule_name := rule_name rule;
         alert_type := get_type change_details;
         alert_severity := rule_severity rule;
         alert_title := _generate_alert_title rule change_details;
         alert_description := _generate_alert_description rule change_details;
         details := change_details;
         change_reference_id := None;
         change_reference_type := Some (get_type change_details);
         triggered_at := now |} in
    match _store_alert alert (notification_channels rule) e with
    | Some e1 =>
        (Some alert,
         _set_throttle now config_id (rule_id rule) (throttle_minutes rule) e1)
    | None => (None, e)
    end.

(** One entry of the [alert_rules] column of a config. *)
Record RuleData := {
  data_id : option string;
  data_name : option string;
  data_conditions : option Conditions;
  data_severity : option string;
  data_notification_channels : option (list ChannelConfig);
  data_enabled : option bool;
  data_throttle_minutes : option Z }.

(** The rule [_get_alert_rules] builds from an entry; [fresh_uuid] is the
    text of the [uuid4] drawn for it, which becomes the id of a rule stored
    without one. *)
Definition load_rule (fresh_uuid : string) (rule_data : RuleData) : AlertRule :=
  {| rule_id := default fresh_uuid (data_id rule_data);
     rule_name := default "" (data_name rule_data);
     conditions := data_conditions rule_data;
     rule_severity := default "medium" (data_severity rule_data);
     notification_channels := default [] (data_notification_channels rule_data);
     rule_enabled := default true (data_enabled rule_data);
     throttle_minutes := default 60%Z (data_throttle_minutes rule_data) |}.

(** [_get_alert_rules]: [table] is the [alert_rules] column of
    [monitoring_configs] (NULL being the empty list) and [fresh_uuid i] the
    draw for the entry at position [i].  An id that is not the text of a
    UUID gives no rule. *)
Definition _get_alert_rules (fresh_uuid : nat → string) (config_id : string)
    (table : gmap Z (list RuleData)) : list AlertRule :=
  match Uuid.UUID config_id ≫= λ id, table !! id with
  | Some alert_rules => imap (λ i, load_rule (fresh_uuid i)) alert_rules
  | None => []
  end.

(** A rule stored without [throttle_minutes] is loaded with 60, and a rule
    stored with an id keeps it at every load. *)
Lemma load_rule_defaults fresh_uuid rule_data :
  (data_throttle_minutes rule_data = None →
   throttle_minutes (load_rule fresh_uuid rule_data) = 60%Z)
  ∧ (∀ i, data_id rule_data = Some i → rule_id (load_rule fresh_uuid rule_data) = i).
Proof. unfold load_rule. cbn. split; [by intros ->|]. by intros i ->. Qed.

(** One qualifying change: the handler of [change.detected] found that the
    rule matches the change and calls [_create_alert]. *)
Record Call := {
  call_at : Z;
  call_fresh_id : string;
  call_config_id : string;
  call_rule : AlertRule;
  call_change : Change }.


(** The calls of a run of the engine, in order, with what each returned. *)
Fixpoint create_alerts (calls : list Call) (e : State) : list (option Alert) * State :=
  match calls with
  | [] => ([], e)
  | c :: rest =>
      let '(created, e1) :=
        _create_alert (call_at c) (call_fresh_id c) (call_config_id c) (call_rule c)
                      (call_change c) e in
      let '(others, e2) := create_alerts rest e1 in
      (created :: others, e2)
  end.

(** *** Notifications *)

Definition channel_handlers : list string := ["email"; "slack"; "webhook"; "sms"].

(** [_log_notification_attempt]: the error raised for an id that is not
    the text of a UUID is logged and dropped, and so is the row. *)
Definition _log_notification_attempt (alert_id channel_type : string)
    (channel_config : ChannelConfig) (result : NotificationResult) (e : State) : State :=
  match Uuid.UUID alert_id with
  | Some id =>
      {| throttle_marks := throttle_marks e; monitoring_alerts := monitoring_alerts e;
         alert_notifications :=
           alert_notifications e
           ++ [{| n_alert_id := id; n_channel_type := channel_type;
                  n_channel_config := channel_config; n_status := status result;
                  n_error_message := error result |}];
         smtp_config := smtp_config e;
         alerts_sent := alerts_sent e; alerts_failed := alerts_failed e;
         notifications_sent := notifications_sent e;
         notifications_failed := notifications_failed e |}
  | None => e
  end.

Definition count_notification (result : NotificationResult) (e : State) : State :=
  {| throttle_marks := throttle_marks e; monitoring_alerts := monitoring_alerts e;
     alert_notifications := alert_notifications e; smtp_config := smtp_config e;
     alerts_sent := alerts_sent e; alerts_failed := alerts_failed e;
     notifications_sent :=
       if String.eqb (status result) "sent" then notifications_sent e + 1
       else notifications_sent e;
     notifications_failed :=
       if String.eqb (status result) "sent" then notifications_failed e
       else notifications_failed e + 1 |}.

(** The configuration a handler is built from: for an email channel, the
    channel's own merged over the SMTP defaults. *)
Definition handler_config (e : State) (ty : string) (channel_config : ChannelConfig)
    : ChannelConfig :=
  if String.eqb ty "email" then
    {| channel_type := channel_type channel_config;
       channel_name := channel_name channel_config;
       channel_settings :=
         merge_settings (smtp_config e) (channel_settings channel_config) |}
  else channel_config.

(** The loop of [_send_notifications] over the channels: the results
    gathered ([None] when a constructor raised, which ends the loop), and
    the state. *)
Fixpoint notify_channels (alert : Alert) (channels : list ChannelConfig) (e : State)
    : option (list NotificationResult) * State :=
  match channels with
  | [] => (Some [], e)
  | channel_config :: rest =>
      match channel_type channel_config with
      | Some ty =>
          if bool_decide (ty ∈ channel_handlers) then
            let config := handler_config e ty channel_config in
            if handler_built ty config then
              let result := send_notification ty config alert in
              let e1 :=
                count_notification result
                  (_log_notification_attempt (alert_id alert) ty channel_config result e) in
              let '(results, e2) := notify_channels alert rest e1 in
              ((result ::.) <$> results, e2)
            else (None, e)
          else notify_channels alert rest e
      | None => notify_channels alert rest e
      end
  end.

(** [any(r['status'] == 'sent' for r in results)] *)
Definition any_sent (results : list NotificationResult) : bool :=
  existsb (λ r, String.eqb (status r) "sent") results.

(** The row of an alert after the [UPDATE] of
    [_update_alert_notification_status]; [NULL + 1] is [NULL]. *)
Definition attempted_row (now : Z) (sent : bool) (row : AlertRow) : AlertRow :=
  {| row_id := row_id row; row_config_id := row_config_id row;
     row_change_reference_id := row_change_reference_id row;
     stored_alert := stored_alert row; stored_channels := stored_channels row;
     notification_sent := Some sent;
     notification_attempts := (λ n, n + 1)%Z <$> notification_attempts row;
     last_notification_attempt := Some now |}.

(** [_update_alert_notification_status]: the [UPDATE] of the rows with the
    id of the alert; the error raised for an id that is not the text of a
    UUID is logged and dropped. *)
Definition _update_alert_notification_status (now : Z) (alert_id : string)
    (results : list NotificationResult) (e : State) : State :=
  match Uuid.UUID alert_id with
  | Some id =>
      let mark (row : AlertRow) :=
        if (row_id row =? id)%Z then attempted_row now (any_sent results) row else row in
      {| throttle_marks := throttle_marks e;
         monitoring_alerts := mark <$> monitoring_alerts e;
         alert_notifications := alert_notifications e; smtp_config := smtp_config e;
         alerts_sent := alerts_sent e; alerts_failed := alerts_failed e;
         notifications_sent := notifications_sent e;
         notifications_failed := notifications_failed e |}
  | None => e
  end.

Definition count_alert (success : bool) (e : State) : State :=
  {| throttle_marks := throttle_marks e; monitoring_alerts := monitoring_alerts e;
     alert_notifications := alert_notifications e; smtp_config := smtp_config e;
     alerts_sent := if success then alerts_sent e + 1 else alerts_sent e;
     alerts_failed := if success then alerts_failed e else alerts_failed e + 1;
     notifications_sent := notifications_sent e;
     notifications_failed := notifications_failed e |}.

Definition count_dispatch_error (e : State) : State :=
  {| throttle_marks := throttle_marks e; monitoring_alerts := monitoring_alerts e;
     alert_notifications := alert_notifications e; smtp_config := smtp_config e;
     alerts_sent := alerts_sent e; alerts_failed := alerts_failed e;
     notifications_sent := notifications_sent e;
     notifications_failed := notifications_failed e + 1 |}.

(** [_send_notifications] for the pair [_get_alert_by_id] returned.  An
    exception in the loop leaves the alert as it is. *)
Definition _send_notifications (now : Z)
    (alert_data : option Alert * list ChannelConfig) (e : State) : State :=
  match alert_data with
  | (None, _) => e
  | (Some alert, notification_channels) =>
      match notify_channels alert notification_channels e with
      | (Some results, e1) =>
          let e2 := _update_alert_notification_status now (alert_id alert) results e1 in
          count_alert (any_sent results) e2
      | (None, e1) => count_dispatch_error e1
      end
  end.

(** [_get_alert_by_id]: the alert built from the row with that id, and
    the channels stored with it; [(None, [])] when there is no such row, or
    when the id is not the text of a UUID. *)
Definition _get_alert_by_id (alert_id' : string) (e : State)
    : option Alert * list ChannelConfig :=
  match Uuid.UUID alert_id'
        ≫= λ id, List.find (λ row, (row_id row =? id)%Z) (monitoring_alerts e) with
  | Some row =>
      let stored := stored_alert row in
      (Some {| alert_id := Uuid.str (row_id row);
               alert_config_id := Uuid.str (row_config_id row);
               alert_rule_name := alert_rule_name stored;
               alert_type := alert_type stored;
               alert_severity := alert_severity stored;
               alert_title := alert_title stored;
               alert_description := alert_description stored;
               details := details stored;
               change_reference_id := Uuid.str <$> row_change_reference_id row;
               change_reference_type := change_reference_type stored;
               triggered_at := triggered_at stored |},
       stored_channels row)
  | None => (None, [])
  end.

(** [_handle_alert_triggered] for the [alert_id] of an [alert.triggered]
    event.  (The pair [_get_alert_by_id] returns is never falsy: the test
    for an alert that was not found is made by [_send_notifications].) *)
Definition _handle_alert_triggered (now : Z) (alert_id' : option string) (e : State)
    : State :=
  if Py.truthy_opt alert_id'
  then _send_notifications now (_get_alert_by_id (default "" alert_id') e) e
  else e.

(** *** The throttle window *)

Lemma is_throttled_mark now config_id rule_id' e :
  _is_throttled now config_id rule_id' e = true ↔
  ∃ v expires_at, throttle_marks e !! throttle_key config_id rule_id' = Some (v, expires_at)
                  ∧ (now < expires_at)%Z.
Proof.
  unfold _is_throttled, Redis.exists_, Redis.get.
  destruct (throttle_marks e !! _) as [[v expires_at]|]; last first.
  { split; [done|]. by intros (? & ? & ? & ?). }
  destruct (now <? expires_at)%Z eqn:Hlt.
  - split; [|done]. intros _. exists v, expires_at. split; [done|lia].
  - split; [done|]. intros (? & ? & [= <- <-] & ?). lia.
Qed.

Lemma store_alert_Some alert channels e e1 :
  _store_alert alert channels e = Some e1 →
  throttle_marks e1 = throttle_marks e
  ∧ is_Some (Uuid.UUID (alert_id alert)) ∧ is_Some (Uuid.UUID (alert_config_id alert)).
Proof.
  unfold _store_alert. intros H.
  apply bind_Some in H as (id & Hid & H). apply bind_Some in H as (cfg & Hcfg & H).
  apply bind_Some in H as (ref & Href & [= <-]). rewrite Hid, Hcfg. by split_and!.
Qed.

Lemma store_alert_is_Some alert channels e :
  is_Some (Uuid.UUID (alert_id alert)) → is_Some (Uuid.UUID (alert_config_id alert)) →
  change_reference_id alert = None →
  is_Some (_store_alert alert channels e).
Proof. unfold _store_alert. intros [id ->] [cfg ->] ->. by eexists. Qed.

(** What a call that creates an alert has done: the pair was not throttled,
    both ids are texts of UUIDs, and the marks are those of [_set_throttle]. *)
Lemma create_alert_Some now fresh_id config_id rule change e alert e1 :
  _create_alert now fresh_id config_id rule change e = (Some alert, e1) →
  _is_throttled now config_id (rule_id rule) e = false
  ∧ is_Some (Uuid.UUID fresh_id) ∧ is_Some (Uuid.UUID config_id)
  ∧ throttle_marks e1
    = match Redis.setex now (throttle_key config_id (rule_id rule))
                        (throttle_minutes rule * 60) "1" (throttle_marks e) with
      | Some m => m
      | None => throttle_marks e
      end.
Proof.
  unfold _create_alert.
  destruct (_is_throttled now config_id (rule_id rule) e) eqn:Hfree; [done|].
  destruct (_store_alert _ _ e) as [e0|] eqn:Hstore; [|done]. intros [= _ <-].
  apply store_alert_Some in Hstore as (Hmarks & Hid & Hcfg).
  split_and!; [done..|]. unfold _set_throttle. rewrite Hmarks.
  by destruct (Redis.setex _ _ _ _ _).
Qed.

(** A call for a pair that is not throttled, with ids that are texts of
    UUIDs, creates an alert. *)
Lemma create_alert_is_Some now fresh_id config_id rule change e :
  _is_throttled now config_id (rule_id rule) e = false →
  is_Some (Uuid.UUID fresh_id) → is_Some (Uuid.UUID config_id) →
  is_Some (_create_alert now fresh_id config_id rule change e).1.
Proof.
  intros Hfree Hid Hcfg. unfold _create_alert. rewrite Hfree.
  destruct (store_alert_is_Some
              {| alert_id := fresh_id; alert_config_id := config_id;
                 alert_rule_name := rule_name rule; alert_type := get_type change;
                 alert_severity := rule_severity rule;
                 alert_title := _generate_alert_title rule change;
                 alert_description := _generate_alert_description rule change;
                 details := change; change_reference_id := None;
                 change_reference_type := Some (get_type change);
                 triggered_at := now |}
              (notification_channels rule) e Hid Hcfg eq_refl) as [e1 ->].
  by eexists.
Qed.

(** A created alert leaves a mark that lives for [throttle_minutes]. *)
Lemma create_alert_mark now0 fresh_id config_id rule change e alert e1 :
  _create_alert now0 fresh_id config_id rule change e = (Some alert, e1) →
  ∀ t, (now0 ≤ t)%Z →
    _is_throttled t config_id (rule_id rule) e1 = true ↔
    (t < now0 + throttle_minutes rule * 60)%Z.
Proof.
  intros (Hfree & _ & _ & Hmarks)%create_alert_Some t Ht.
  rewrite is_throttled_mark, Hmarks. unfold Redis.setex.
  destruct (0 <? throttle_minutes rule * 60)%Z eqn:Hpos.
  - rewrite lookup_insert_eq. split.
    + by intros (? & ? & [= <- <-] & ?).
    + intros ?. by eexists _, _.
  - split; [|lia]. intros (v & expires_at & Hmark & Hlt).
    apply not_true_iff_false in Hfree. destruct Hfree.
    apply is_throttled_mark. exists v, expires_at. split; [done|lia].
Qed.






Lemma contains_char_cons a b s :
  Py.contains (String a "") (String b s)
  = Ascii.eqb a b || Py.contains (String a "") s.
Proof. cbn [Py.contains Py.startswith]. by destruct (Ascii.eqb a b), s. Qed.

(** Two pairs whose config ids hold no colon have the same throttle key
    only if they are the same pair. *)
Lemma throttle_key_inj config_id1 rule_id1 config_id2 rule_id2 :
  Py.contains ":" config_id1 = false → Py.contains ":" config_id2 = false →
  throttle_key config_id1 rule_id1 = throttle_key config_id2 rule_id2 →
  config_id1 = config_id2 ∧ rule_id1 = rule_id2.
Proof.
  unfold throttle_key. intros H1 H2 Heq.
  apply (inj (String.append "alert_throttle:")) in Heq.
  revert config_id2 H1 H2 Heq.
  induction config_id1 as [|a c1 IH]; intros [|b c2] H1 H2 Heq;
    repeat first
      [ progress change ("" +:+ ?t) with t in Heq
      | progress change (String ?c ?s +:+ ?t) with (String c (s +:+ t)) in Heq ].
  - by injection Heq as ->.
  - injection Heq as <- _. by rewrite contains_char_cons, Ascii.eqb_refl in H2.
  - injection Heq as -> _. by rewrite contains_char_cons, Ascii.eqb_refl in H1.
  - injection Heq as -> Heq. rewrite contains_char_cons in H1, H2.
    apply orb_false_elim in H1 as [_ H1]. apply orb_false_elim in H2 as [_ H2].
    by destruct (IH c2 H1 H2 Heq) as [-> ->].
Qed.

(** So have two pairs whose config ids are written as [str] writes a
    UUID. *)
Lemma throttle_key_of_uuid u1 rule_id1 u2 rule_id2 :
  throttle_key (Uuid.str u1) rule_id1 = throttle_key (Uuid.str u2) rule_id2 →
  Uuid.str u1 = Uuid.str u2 ∧ rule_id1 = rule_id2.
Proof.
  assert (∀ s, Uuid.all_chars (λ c, negb (Ascii.eqb ":" c)) s = true →
               Py.contains ":" s = false) as Hnone.
  { induction s as [|c s IH]; [done|]. cbn [Uuid.all_chars].
    intros [Hc Hs]%andb_true_iff. rewrite contains_char_cons, (IH Hs).
    by apply negb_true_iff in Hc as ->. }
  assert (∀ u, Py.contains ":" (Uuid.str u) = false) as Hstr.
  { intros u. apply Hnone, Uuid.str_lower_hex_or_hyphen; [|done].
    intros d. pose proof (Uuid.hex_char_lower d) as Hd.
    destruct (Uuid.hex_char d) as [[] [] [] [] [] [] [] []];
      first [discriminate Hd | reflexivity]. }
  apply throttle_key_inj; apply Hstr.
Qed.

(** *** Partial success *)

(** The channels a sender exists for, with their type, in order. *)
Definition attempted (channels : list ChannelConfig) : list (string * ChannelConfig) :=
  omap (λ channel_config,
          ty ← channel_type channel_config;
          if bool_decide (ty ∈ channel_handlers) then Some (ty, channel_config) else None)
       channels.

(** What the sender of an attempted channel answers. *)
Definition attempt_result (e : State) (alert : Alert) (a : string * ChannelConfig)
    : NotificationResult :=
  send_notification a.1 (handler_config e a.1 a.2) alert.

(** The row recorded for an attempted channel of the alert [id]. *)
Definition attempt_row (e : State) (alert : Alert) (id : Z) (a : string * ChannelConfig)
    : NotificationRow :=
  {| n_alert_id := id;
     n_channel_type := a.1;
     n_channel_config := a.2;
     n_status := status (attempt_result e alert a);
     n_error_message := error (attempt_result e alert a) |}.

(** Every handler of the attempted channels can be built. *)
Definition handlers_built (e : State) (channels : list ChannelConfig) : Prop :=
  ∀ a, a ∈ attempted channels → handler_built a.1 (handler_config e a.1 a.2) = true.

Lemma notify_channels_spec alert id channels e :
  Uuid.UUID (alert_id alert) = Some id → handlers_built e channels →
  let '(results, e') := notify_channels alert channels e in
  results = Some (attempt_result e alert <$> attempted channels)
  ∧ alert_notifications e'
    = alert_notifications e ++ (attempt_row e alert id <$> attempted channels)
  ∧ monitoring_alerts e' = monitoring_alerts e
  ∧ smtp_config e' = smtp_config e.
Proof.
  intros Hid. revert e. induction channels as [|ch channels IH]; intros e Hbuilt.
  { cbn. by rewrite app_nil_r. }
  revert Hbuilt. unfold handlers_built.
  cbn [notify_channels attempted omap list_omap]. fold (attempted channels).
  destruct (channel_type ch) as [ty|] eqn:Hty; cbn [mbind option_bind]; [|apply IH].
  case_bool_decide; [|apply IH]. intros Hbuilt.
  pose proof (Hbuilt (ty, ch) ltac:(left)) as Hthis. cbn [fst snd] in Hthis.
  rewrite Hthis.
  set (e1 := count_notification _ _).
  assert (smtp_config e1 = smtp_config e) as Hsmtp.
  { subst e1. unfold _log_notification_attempt. by rewrite Hid. }
  assert (handler_config e1 = handler_config e) as Hconfig.
  { unfold handler_config. by rewrite Hsmtp. }
  specialize (IH e1). destruct (notify_channels alert channels e1) as [results e2].
  destruct IH as (-> & -> & -> & ->).
  { intros a Ha. rewrite Hconfig. apply Hbuilt. by right. }
  assert (attempt_result e1 alert = attempt_result e alert) as ->.
  { unfold attempt_result. by rewrite Hconfig. }
  assert (attempt_row e1 alert id = attempt_row e alert id) as ->.
  { unfold attempt_row, attempt_result. by rewrite Hconfig. }
  subst e1. unfold _log_notification_attempt. rewrite Hid.
  split_and!; [done| |done..].
  cbn [count_notification alert_notifications fmap list_fmap].
  by rewrite <- app_assoc.
Qed.

Lemma any_sent_true results :
  any_sent results = true ↔ ∃ r, r ∈ results ∧ status r = "sent".
Proof.
  unfold any_sent. rewrite existsb_exists.
  setoid_rewrite String.eqb_eq. by setoid_rewrite list_elem_of_In.
Qed.

(** C5.  When the notifications of an alert are dispatched (its id being
    the text of a UUID, as that of every alert read from the table is, and
    the handler of every channel being built from its configuration), one
    row is recorded for every channel a sender exists for, in order, with
    the status and the error of that channel's own attempt; the other
    columns of the alerts stay; and if the attempt of at least one channel
    was ['sent'], whatever the others did, the row of the alert is marked
    [notification_sent = true]. *)
Theorem partial_success_marks_alert_sent now alert id channels e :
  Uuid.UUID (alert_id alert) = Some id → handlers_built e channels →
  let e' := _send_notifications now (Some alert, channels) e in
  alert_notifications e'
  = alert_notifications e ++ (attempt_row e alert id <$> attempted channels)
  ∧ (λ row, (row_id row, stored_alert row)) <$> monitoring_alerts e'
    = (λ row, (row_id row, stored_alert row)) <$> monitoring_alerts e
  ∧ ((∃ a, a ∈ attempted channels ∧ status (attempt_result e alert a) = "sent") →
     ∀ row, row ∈ monitoring_alerts e' → row_id row = id →
            notification_sent row = Some true).
Proof.
  intros Hid Hbuilt. unfold _send_notifications.
  pose proof (notify_channels_spec alert id channels e Hid Hbuilt) as Hspec.
  destruct (notify_channels alert channels e) as [results e1].
  destruct Hspec as (-> & Hrows & Halerts & _).
  unfold _update_alert_notification_status. rewrite Hid.
  cbn [count_alert alert_notifications monitoring_alerts].
  split_and!; [done| |].
  - rewrite Halerts, <- list_fmap_compose. apply list_fmap_ext.
    intros i row _. cbn. by destruct (_ =? _)%Z.
  - intros (a & Ha & Hsent) row (row0 & -> & _)%list_elem_of_fmap Hrow.
    destruct (row_id row0 =? id)%Z eqn:Heq.
    + cbn. f_equal. apply any_sent_true. exists (attempt_result e alert a).
      split; [|done].
      by apply list_elem_of_fmap_2.
    + apply Z.eqb_neq in Heq. done.
Qed.

(** The alert read back from the table carries the text of its row's id:
    whatever spelling of the id the event used, the notifications are
    dispatched with an id that is the text of a UUID. *)
Lemma get_alert_by_id_stored text id row e :
  Uuid.UUID text = Some id →
  List.find (λ row, (row_id row =? id)%Z) (monitoring_alerts e) = Some row →
  ∃ alert, _get_alert_by_id text e = (Some alert, stored_channels row)
           ∧ Uuid.UUID (alert_id alert) = Some id
           ∧ details alert = details (stored_alert row).
Proof.
  intros Hid Hrow. unfold _get_alert_by_id. rewrite Hid. cbn [mbind option_bind].
  rewrite Hrow. eexists. split; [done|]. cbn [alert_id details].
  apply find_some in Hrow as [_ ->%Z.eqb_eq]. split; [|done].
  by apply Uuid.UUID_str, Uuid.UUID_range with text.
Qed.

(** The loop never touches the table of alerts. *)
Lemma notify_channels_alerts alert channels e :
  monitoring_alerts (notify_channels alert channels e).2 = monitoring_alerts e.
Proof.
  revert e. induction channels as [|ch channels IH]; intros e; [done|].
  cbn [notify_channels]. destruct (channel_type ch) as [ty|]; [|apply IH].
  case_bool_decide; [|apply IH]. destruct (handler_built _ _); [|done].
  set (e1 := count_notification _ _). specialize (IH e1).
  destruct (notify_channels alert channels e1) as [results e2]. cbn [snd] in *.
  rewrite IH. subst e1. unfold _log_notification_attempt. by destruct (Uuid.UUID _).
Qed.

(** When the constructor of a handler raises, the dispatch ends there: the
    alert is not marked, whatever the channels before it did. *)
Lemma dispatch_error_leaves_alert now alert channels e :
  (notify_channels alert channels e).1 = None →
  monitoring_alerts (_send_notifications now (Some alert, channels) e)
  = monitoring_alerts e.
Proof.
  intros Hnone. unfold _send_notifications.
  pose proof (notify_channels_alerts alert channels e) as Halerts.
  destruct (notify_channels alert channels e) as [[results|] e1]; [done|]. done.
Qed.

(** With an id that is not the text of a UUID the senders are still
    called, but no attempt is recorded and no alert is marked. *)
Lemma send_notifications_malformed_id now alert channels e :
  Uuid.UUID (alert_id alert) = None →
  let e' := _send_notifications now (Some alert, channels) e in
  alert_notifications e' = alert_notifications e
  ∧ monitoring_alerts e' = monitoring_alerts e.
Proof.
  intros Hid. unfold _send_notifications.
  assert (∀ e0, alert_notifications (notify_channels alert channels e0).2
                = alert_notifications e0) as Hloop.
  { induction channels as [|ch channels IH]; intros e0; [done|].
    cbn [notify_channels]. destruct (channel_type ch) as [ty|]; [|apply IH].
    case_bool_decide; [|apply IH]. destruct (handler_built _ _); [|done].
    set (e1 := count_notification _ _). specialize (IH e1).
    destruct (notify_channels alert channels e1) as [results e2]. cbn [snd] in *.
    rewrite IH. subst e1. unfold _log_notification_attempt. by rewrite Hid. }
  specialize (Hloop e). pose proof (notify_channels_alerts alert channels e) as Halerts.
  destruct (notify_channels alert channels e) as [[results|] e1]; cbn [snd] in *.
  - unfold _update_alert_notification_status. by rewrite Hid.
  - done.
Qed.

End Engine.

(** *** An hourly throttle, and two channels of which one fails *)

(** In the examples the table is declared with [notification_sent] false
    by default, no attempt counted and no last attempt. *)
#[local] Instance declared_defaults : ColumnDefaults :=
  {| default_notification_sent := Some false;
     default_notification_attempts := Some 0%Z;
     default_last_notification_attempt := None |}.

Definition title_of (_ : @AlertRule unit unit) (c : Change) : string := get_type c.

Definition slack_and_email : list (@ChannelConfig unit) :=
  [ {| channel_type := Some "email"; channel_name := Some "ops mail"; channel_settings := () |};
    {| channel_type := Some "pager"; channel_name := None; channel_settings := () |};
    {| channel_type := Some "slack"; channel_name := Some "ops chat"; channel_settings := () |} ].

Definition header_rule : @AlertRule unit unit :=
  {| rule_id := "rule-1"; rule_name := "security headers"; conditions := Some ();
     rule_severity := "high"; notification_channels := slack_and_email;
     rule_enabled := true; throttle_minutes := 60 |}.

Definition idle_engine : @State unit :=
  {| throttle_marks := ∅; monitoring_alerts := []; alert_notifications := [];
     smtp_config := (); alerts_sent := 0; alerts_failed := 0;
     notifications_sent := 0; notifications_failed := 0 |}.

(** The text of the id drawn for the first alert, and the id. *)
Definition alert_text : string := "0d9e8f7a-6b5c-4d3e-8f2a-1b0c9d8e7f60".
Definition alert_uuid : Z := 0x0d9e8f7a6b5c4d3e8f2a1b0c9d8e7f60.

Definition first_alert : Alert :=
  {| alert_id := alert_text; alert_config_id := config_text;
     alert_rule_name := "security headers"; alert_type := "security_change";
     alert_severity := "high"; alert_title := "security_change";
     alert_description := "security_change"; details := frame_options_dropped;
     change_reference_id := None; change_reference_type := Some "security_change";
     triggered_at := 1000 |}.

Definition after_first_alert : @State unit :=
  (_create_alert title_of title_of 1000 alert_text config_text header_rule
     frame_options_dropped idle_engine).2.


(** Ten qualifying changes within the hour, then one after it. *)
Definition ten_calls : list (@Call unit unit) :=
  (λ t, {| call_at := t; call_fresh_id := "7e6f5a4b-3c2d-4e1f-9a0b-8c7d6e5f4a30";
           call_config_id := config_text;
           call_rule := header_rule; call_change := frame_options_dropped |})
  <$> [1001; 1100; 1500; 2000; 2500; 3000; 3500; 4000; 4500; 4599; 4600; 4700]%Z.

Example ten_changes_in_the_window :
  (λ created, bool_decide (is_Some created))
  <$> (create_alerts title_of title_of ten_calls after_first_alert).1
  = [false; false; false; false; false; false; false; false; false; false; true; false].
Proof. vm_compute. reflexivity. Qed.

(** A change of a config whose id is not the text of a UUID never becomes
    an alert, and sets no mark. *)
Example no_alert_for_malformed_config_id :
  _create_alert title_of title_of 1000 alert_text "cfg-1" header_rule
    frame_options_dropped idle_engine
  = (None, idle_engine).
Proof. vm_compute. reflexivity. Qed.

(** Every handler is built. *)
Definition always_built (_ : string) (_ : @ChannelConfig unit) : bool := true.

(** The mail server is down, the chat webhook answers. *)
Definition mail_down (ty : string) (_ : @ChannelConfig unit) (_ : Alert)
    : NotificationResult :=
  if String.eqb ty "email"
  then {| status := "failed"; error := Some "Connection refused" |}
  else {| status := "sent"; error := None |}.

Definition after_notifications : @State unit :=
  _send_notifications always_built mail_down (λ _ s, s) 1010
    (Some first_alert, slack_and_email) after_first_alert.

Example one_channel_fails_one_succeeds :
  ((λ row, (n_alert_id row, n_channel_type row, n_status row))
     <$> alert_notifications after_notifications)
  = [(alert_uuid, "email", "failed"); (alert_uuid, "slack", "sent")]
  ∧ ((λ row, (row_id row, notification_sent row, notification_attempts row))
       <$> monitoring_alerts after_notifications) = [(alert_uuid, Some true, Some 1%Z)]
  ∧ (notifications_sent after_notifications, notifications_failed after_notifications,
     alerts_sent after_notifications) = (1, 1, 1).
Proof. vm_compute. repeat split; reflexivity. Qed.

Lemma partial_success_marks_alert_sent_witness :
  alert_notifications after_notifications
  = alert_notifications after_first_alert
    ++ (attempt_row mail_down (λ _ s, s) after_first_alert first_alert alert_uuid
          <$> attempted slack_and_email)
  ∧ (λ row, (row_id row, stored_alert row)) <$> monitoring_alerts after_notifications
    = (λ row, (row_id row, stored_alert row)) <$> monitoring_alerts after_first_alert
  ∧ ((∃ a, a ∈ attempted slack_and_email
           ∧ status (attempt_result mail_down (λ _ s, s) after_first_alert first_alert a)
             = "sent") →
     ∀ row, row ∈ monitoring_alerts after_notifications → row_id row = alert_uuid →
            notification_sent row = Some true).
Proof.
  apply (partial_success_marks_alert_sent always_built mail_down (λ _ s, s) 1010
           first_alert alert_uuid slack_and_email after_first_alert).
  - vm_compute. reflexivity.
  - intros a _. reflexivity.
Defined.

(** The event may spell the id otherwise: the alert is read back from the
    table and dispatched under the text of its row's id. *)
Example alert_triggered_dispatch :
  _handle_alert_triggered always_built mail_down (λ _ s, s) 1010
    (Some "{0D9E8F7A-6B5C-4D3E-8F2A-1B0C9D8E7F60}") after_first_alert
  = after_notifications
  ∧ _handle_alert_triggered always_built mail_down (λ _ s, s) 1010
      (Some "alert-1") after_first_alert
    = after_first_alert.
Proof. split; vm_compute; reflexivity. Qed.

(** A webhook whose handler cannot be built, after a chat message that
    was sent: its attempt is recorded, the alert is not marked. *)
Definition no_webhook (ty : string) (_ : @ChannelConfig unit) : bool :=
  negb (String.eqb ty "webhook").

Definition slack_then_webhook : list (@ChannelConfig unit) :=
  [ {| channel_type := Some "slack"; channel_name := Some "ops chat"; channel_settings := () |};
    {| channel_type := Some "webhook"; channel_name := None; channel_settings := () |} ].

Example handler_that_cannot_be_built :
  let e' :=
    _send_notifications no_webhook mail_down (λ _ s, s) 1010
      (Some first_alert, slack_then_webhook) after_first_alert in
  ((λ row, (n_channel_type row, n_status row)) <$> alert_notifications e')
  = [("slack", "sent")]
  ∧ monitoring_alerts e' = monitoring_alerts after_first_alert
  ∧ (notifications_sent e', notifications_failed e', alerts_sent e', alerts_failed e')
    = (1, 1, 0, 0).
Proof. vm_compute. repeat split; reflexivity. Qed.

(** A rule stored without [throttle_minutes] is throttled for an hour; a
    rule stored without an id gets another id, hence another throttle key,
    each time the rules are loaded. *)
Definition stored_rule (i : option string) : @RuleData unit unit :=
  {| data_id := i; data_name := Some "security headers"; data_conditions := Some ();
     data_severity := Some "high"; data_notification_channels := Some slack_and_email;
     data_enabled := None; data_throttle_minutes := None |}.

(** The draws of two loads. *)
Definition first_load (_ : nat) : string := "3b1d9c7e-5f2a-4e6b-8d0c-1a3c5e7f9b10".
Definition second_load (_ : nat) : string := "8c0e2a4c-6e8a-4b1d-9f3b-5d7f9b1d3f20".

Example loaded_rule_defaults :
  _get_alert_rules first_load config_text {[config_uuid := [stored_rule (Some "rule-1")]]}
  = [header_rule]
  ∧ rule_id <$> _get_alert_rules first_load config_text {[config_uuid := [stored_rule None]]}
    = [first_load 0]
  ∧ rule_id <$> _get_alert_rules second_load config_text {[config_uuid := [stored_rule None]]}
    = [second_load 0]
  ∧ _get_alert_rules first_load "cfg-1" {[config_uuid := [stored_rule None]]} = [].
Proof. repeat split; vm_compute; reflexivity. Qed.

End AlertEngine.


(** * Further properties of the code *)

Module DetectorFacts.

Import ChangeDetector.

Section Facts.

Variable similarity : string → string → Q.

(** *** What the noise filter lets through *)

Lemma kept_other_types c :
  get_type c ≠ "technology_change" → get_type c ≠ "performance_change" → kept c = true.
Proof.
  intros Ht Hp. unfold kept, _is_noise, minor_update_of_ignored, small_performance_change.
  apply String.eqb_neq in Ht, Hp. by rewrite Ht, Hp.
Qed.

Lemma kept_security c : get_type c = "security_change" → kept c = true.
Proof. intros H. apply kept_other_types; by rewrite H. Qed.

Lemma kept_content c : get_type c = "content_change" → kept c = true.
Proof. intros H. apply kept_other_types; by rewrite H. Qed.

Lemma kept_infrastructure c : get_type c = "infrastructure_change" → kept c = true.
Proof. intros H. apply kept_other_types; by rewrite H. Qed.

Lemma returned_iff clock old_scan new_scan config_id d c :
  c ∈ changes (detect_changes similarity clock old_scan new_scan config_id d).1
  ↔ kept c = true
    ∧ c ∈ unfiltered similarity (thresholds_seen (cache_now clock) config_id d)
            old_scan new_scan.
Proof. by rewrite detect_changes_changes, list_elem_of_filter. Qed.

(** X1.  A snapshot compared with itself: no change is returned, [has_changes]
    is false and the confidence of the detection is 1. *)
Theorem snapshot_compared_with_itself clock scan config_id d :
  let result := (detect_changes similarity clock scan scan config_id d).1 in
  changes result = [] ∧ has_changes result = false ∧ detection_confidence result = 1%Q.
Proof.
  intros result. subst result.
  destruct (detect_changes_result similarity clock scan scan config_id d) as [-> ->].
  by rewrite detect_changes_self.
Qed.

(** X2.  No [issue_added] or [issue_resolved] change is ever among the changes
    [detect_changes] returns: the noise filter drops each of them, since they
    carry no [change_percent]. *)
Theorem performance_issue_never_reported clock old_scan new_scan config_id d issue :
  Performance_issue issue
  ∉ changes (detect_changes similarity clock old_scan new_scan config_id d).1.
Proof. rewrite returned_iff. by intros [Hkept _]. Qed.


(** X3.  No returned technology change names a noisy technology.  A technology
    whose name is not noisy and that only the new (only the old) snapshot holds
    is reported as [added] ([removed]), with the impact [_assess_tech_impact]
    gives its name. *)
Theorem technology_in_one_snapshot_reporting clock old_scan new_scan config_id d n :
  let old_tech := default no_technologies (technologies old_scan) in
  let new_tech := default no_technologies (technologies new_scan) in
  let returned :=
    changes (detect_changes similarity clock old_scan new_scan config_id d).1 in
  (∀ t, Technology_change t ∈ returned → is_noisy_name (tc_technology_name t) = false)
  ∧ (n ∈ names_of new_tech → n ∉ names_of old_tech → is_noisy_name n = false →
     ∃ t, Technology_change t ∈ returned ∧ tc_change_type t = "added"
          ∧ tc_technology_name t = n ∧ tc_old_version t = None
          ∧ tc_impact_assessment t = _assess_tech_impact n)
  ∧ (n ∈ names_of old_tech → n ∉ names_of new_tech → is_noisy_name n = false →
     ∃ t, Technology_change t ∈ returned ∧ tc_change_type t = "removed"
          ∧ tc_technology_name t = n ∧ tc_new_version t = None
          ∧ tc_impact_assessment t = _assess_tech_impact n).
Proof.
  intros old_tech new_tech returned. subst returned. split_and!.
  - intros t [Hkept _]%returned_iff. unfold kept in Hkept.
    apply andb_prop in Hkept as [[Hnoise _]%andb_prop _].
    by apply negb_true_iff in Hnoise.
  - intros Hnew Hold Hnoisy.
    destruct (first_named_is_Some new_tech n Hnew) as [tech_data Hdata].
    eexists. split.
    + apply returned_iff. split; last first.
      * apply unfiltered_technology. unfold technology_part. fold old_tech new_tech.
        apply technology_changes_elem. left. exists n. split_and!; [done..|].
        unfold added_change. rewrite Hdata. done.
      * unfold kept, minor_update_of_ignored, small_performance_change.
        replace (_is_noise _) with (is_noisy_name n) by done. rewrite Hnoisy. done.
    + done.
  - intros Hold Hnew Hnoisy.
    destruct (first_named_is_Some old_tech n Hold) as [tech_data Hdata].
    eexists. split.
    + apply returned_iff. split; last first.
      * apply unfiltered_technology. unfold technology_part. fold old_tech new_tech.
        apply technology_changes_elem. right; left. exists n. split_and!; [done..|].
        unfold removed_change. rewrite Hdata. done.
      * unfold kept, minor_update_of_ignored, small_performance_change.
        replace (_is_noise _) with (is_noisy_name n) by done. rewrite Hnoisy. done.
    + done.
Qed.


(** *** Security, content and infrastructure changes are never filtered *)

Lemma unfiltered_by_type thresholds old_scan new_scan c :
  c ∈ unfiltered similarity thresholds old_scan new_scan ↔
    (get_type c = "technology_change" ∧ c ∈ technology_part old_scan new_scan)
    ∨ (get_type c = "performance_change"
       ∧ c ∈ performance_part thresholds old_scan new_scan)
    ∨ (get_type c = "security_change" ∧ c ∈ security_part old_scan new_scan)
    ∨ (get_type c = "content_change"
       ∧ c ∈ _detect_content_changes similarity
               (default no_content (content old_scan))
               (default no_content (content new_scan)))
    ∨ (get_type c = "infrastructure_change"
       ∧ c ∈ _detect_infrastructure_changes
               (default no_infrastructure (infrastructure old_scan))
               (default no_infrastructure (infrastructure new_scan))).
Proof.
  unfold unfiltered. rewrite !elem_of_app. split.
  - intros [H|[H|[H|[H|H]]]].
    + left. split; [by eapply technology_part_type|done].
    + right; left. split; [by eapply performance_part_type|done].
    + right; right; left. split; [by eapply security_part_type|done].
    + right; right; right; left. split; [by eapply content_changes_type|done].
    + right; right; right; right. split; [by eapply infrastructure_changes_type|done].
  - intros [[_ H]|[[_ H]|[[_ H]|[[_ H]|[_ H]]]]]; auto.
Qed.

Lemma security_change_returned clock old_scan new_scan config_id d s :
  Security_change s
    ∈ changes (detect_changes similarity clock old_scan new_scan config_id d).1
  ↔ Security_change s ∈ security_part old_scan new_scan.
Proof.
  rewrite returned_iff, unfiltered_by_type. split.
  - by intros [_ [[? _]|[[? _]|[[_ ?]|[[? _]|[? _]]]]]].
  - intros H. split; [done|]. right; right; left. done.
Qed.

Lemma content_change_returned clock old_scan new_scan config_id d k :
  Content_change k
    ∈ changes (detect_changes similarity clock old_scan new_scan config_id d).1
  ↔ Content_change k
      ∈ _detect_content_changes similarity (default no_content (content old_scan))
                                (default no_content (content new_scan)).
Proof.
  rewrite returned_iff, unfiltered_by_type. split.
  - by intros [_ [[? _]|[[? _]|[[? _]|[[_ ?]|[? _]]]]]].
  - intros H. split; [done|]. right; right; right; left. done.
Qed.

Lemma infrastructure_change_returned clock old_scan new_scan config_id d i :
  Infrastructure_change i
    ∈ changes (detect_changes similarity clock old_scan new_scan config_id d).1
  ↔ Infrastructure_change i
      ∈ _detect_infrastructure_changes
          (default no_infrastructure (infrastructure old_scan))
          (default no_infrastructure (infrastructure new_scan)).
Proof.
  rewrite returned_iff, unfiltered_by_type. split.
  - by intros [_ [[? _]|[[? _]|[[? _]|[[? _]|[_ ?]]]]]].
  - intros H. split; [done|]. right; right; right; right. done.
Qed.

(** The change [_detect_security_changes] builds for a header. *)
Definition header_changed (header old_value : string) (new_value : option string)
    : SecurityChange :=
  {| sc_change_type := "security_header_changed";
     sc_vulnerability_type := None;
     sc_severity := _assess_header_change_severity header old_value new_value;
     sc_description := "Security header '" +:+ header +:+ "' changed";
     sc_evidence := EvHeader header old_value new_value;
     sc_remediation_advice := None |}.

Lemma security_part_header old_scan new_scan s header :
  let old_headers :=
    default ∅ (security_headers (default no_security (security old_scan))) in
  let new_headers :=
    default ∅ (security_headers (default no_security (security new_scan))) in
  Security_change s ∈ security_part old_scan new_scan
  ∧ reported_header (Security_change s) = Some header
  ↔ ∃ old_value, old_headers !! header = Some old_value
                 ∧ new_headers !! header ≠ Some old_value
                 ∧ s = header_changed header old_value (new_headers !! header).
Proof.
  intros old_headers new_headers. unfold security_part. rewrite security_changes_elem.
  fold old_headers new_headers. split.
  - intros [[(k & v & _ & _ & H)|[(k & v & _ & _ & H)|[(h & ov & Hold & Hc)|Hc]]] Hrep].
    + unfold vulnerability_added in H. by simplify_eq.
    + unfold vulnerability_fixed in H. by simplify_eq.
    + unfold header_change in Hc. case_bool_decide; [|by apply elem_of_nil in Hc].
      apply list_elem_of_singleton in Hc. simplify_eq. cbn in Hrep. simplify_eq.
      by exists ov.
    + unfold certificate_change in Hc. case_bool_decide; [|by apply elem_of_nil in Hc].
      apply list_elem_of_singleton in Hc. by simplify_eq.
  - intros (ov & Hold & Hne & ->). split; [|done].
    right; right; left. exists header, ov. split; [done|].
    unfold header_change. rewrite bool_decide_true by done. apply list_elem_of_here.
Qed.

(** X4.  A change of a security header is returned exactly for the headers the
    old snapshot holds with a value the new snapshot does not give them, so a
    header the old snapshot lacks is never reported; the returned change is
    built from the old value and what the new snapshot holds. *)
Theorem header_reported_iff_changed clock old_scan new_scan config_id d header :
  let old_headers :=
    default ∅ (security_headers (default no_security (security old_scan))) in
  let new_headers :=
    default ∅ (security_headers (default no_security (security new_scan))) in
  let returned :=
    changes (detect_changes similarity clock old_scan new_scan config_id d).1 in
  ((∃ c, c ∈ returned ∧ reported_header c = Some header)
   ↔ ∃ old_value, old_headers !! header = Some old_value
                  ∧ new_headers !! header ≠ Some old_value)
  ∧ (∀ c, c ∈ returned → reported_header c = Some header →
       ∃ old_value, old_headers !! header = Some old_value
         ∧ c = Security_change (header_changed header old_value (new_headers !! header))).
Proof.
  intros old_headers new_headers returned. subst returned.
  assert (∀ c, c ∈ changes (detect_changes similarity clock old_scan new_scan config_id d).1 →
            reported_header c = Some header →
            ∃ old_value, old_headers !! header = Some old_value
              ∧ new_headers !! header ≠ Some old_value
              ∧ c = Security_change
                      (header_changed header old_value (new_headers !! header))) as Hall.
  { intros c Hin Hrep. destruct c as [| | |s| |]; try done.
    apply security_change_returned in Hin.
    destruct (proj1 (security_part_header old_scan new_scan s header) (conj Hin Hrep))
      as (ov & ? & ? & ->).
    by exists ov. }
  split; [split|].
  - intros (c & Hin & Hrep). destruct (Hall c Hin Hrep) as (ov & ? & ? & _). by exists ov.
  - intros (ov & Hold & Hne).
    exists (Security_change (header_changed header ov (new_headers !! header))).
    split; [|done]. apply security_change_returned.
    apply (security_part_header old_scan new_scan _ header). by exists ov.
  - intros c Hin Hrep. destruct (Hall c Hin Hrep) as (ov & ? & ? & ->). by exists ov.
Qed.

(** X5.  A vulnerability whose key only the new (only the old) snapshot holds is
    returned as [vulnerability_added] ([vulnerability_fixed]), and every
    returned change of these two types is one of those. *)
Theorem vulnerability_reporting clock old_scan new_scan config_id d :
  let old_vulns :=
    vulns_by_key (default [] (vulnerabilities (default no_security (security old_scan)))) in
  let new_vulns :=
    vulns_by_key (default [] (vulnerabilities (default no_security (security new_scan)))) in
  let returned :=
    changes (detect_changes similarity clock old_scan new_scan config_id d).1 in
  (∀ k v, new_vulns !! k = Some v → old_vulns !! k = None →
          vulnerability_added v ∈ returned)
  ∧ (∀ k v, old_vulns !! k = Some v → new_vulns !! k = None →
            vulnerability_fixed k v ∈ returned)
  ∧ (∀ s, Security_change s ∈ returned →
          sc_change_type s = "vulnerability_added" →
          ∃ k v, new_vulns !! k = Some v ∧ old_vulns !! k = None
                 ∧ Security_change s = vulnerability_added v)
  ∧ (∀ s, Security_change s ∈ returned →
          sc_change_type s = "vulnerability_fixed" →
          ∃ k v, old_vulns !! k = Some v ∧ new_vulns !! k = None
                 ∧ Security_change s = vulnerability_fixed k v).
Proof.
  intros old_vulns new_vulns returned. subst returned. split_and!.
  - intros k v Hnew Hold. apply security_change_returned.
    unfold security_part. apply security_changes_elem. left. by exists k, v.
  - intros k v Hold Hnew. apply security_change_returned.
    unfold security_part. apply security_changes_elem. right; left. by exists k, v.
  - intros s Hin%security_change_returned Hty. unfold security_part in Hin.
    apply security_changes_elem in Hin
      as [(k & v & ? & ? & H)|[(k & v & ? & ? & H)|[(h & ov & Hold & Hc)|Hc]]].
    + by exists k, v.
    + unfold vulnerability_fixed in H. by simplify_eq.
    + unfold header_change in Hc. case_bool_decide; [|by apply elem_of_nil in Hc].
      apply list_elem_of_singleton in Hc. by simplify_eq.
    + unfold certificate_change in Hc. case_bool_decide; [|by apply elem_of_nil in Hc].
      apply list_elem_of_singleton in Hc. by simplify_eq.
  - intros s Hin%security_change_returned Hty. unfold security_part in Hin.
    apply security_changes_elem in Hin
      as [(k & v & ? & ? & H)|[(k & v & ? & ? & H)|[(h & ov & Hold & Hc)|Hc]]].
    + unfold vulnerability_added in H. by simplify_eq.
    + by exists k, v.
    + unfold header_change in Hc. case_bool_decide; [|by apply elem_of_nil in Hc].
      apply list_elem_of_singleton in Hc. by simplify_eq.
    + unfold certificate_change in Hc. case_bool_decide; [|by apply elem_of_nil in Hc].
      apply list_elem_of_singleton in Hc. by simplify_eq.
Qed.


Lemma field_change_elem kind description evidence old_field new_field c :
  c ∈ field_change kind description evidence old_field new_field ↔
  ∃ a b, old_field = Some a ∧ new_field = Some b ∧ a ≠ "" ∧ b ≠ "" ∧ a ≠ b
         ∧ c = Infrastructure_change
                 {| ic_change_type := kind; ic_description := description;
                    ic_severity := "medium"; ic_evidence := evidence a b |}.
Proof.
  unfold field_change. split.
  - destruct (Py.truthy (default "" old_field)) eqn:Ha; [|by intros ?%elem_of_nil].
    destruct (Py.truthy (default "" new_field)) eqn:Hb; [|by intros ?%elem_of_nil].
    destruct (String.eqb _ _) eqn:Hab; [by intros ?%elem_of_nil|].
    cbn. intros ->%list_elem_of_singleton.
    apply truthy_iff in Ha, Hb. apply String.eqb_neq in Hab.
    destruct old_field as [a|], new_field as [b|]; try done. by exists a, b.
  - intros (a & b & -> & -> & Ha%truthy_iff & Hb%truthy_iff & Hab%String.eqb_neq & ->).
    cbn. rewrite Ha, Hb, Hab. apply list_elem_of_here.
Qed.

(** X6.  [ip_address_changed] and [server_software_changed] are returned exactly
    when both snapshots give the value, both values are non-empty and they
    differ; [cdn_changed] exactly when the sets of providers differ. *)
Theorem infrastructure_reporting clock old_scan new_scan config_id d :
  let old_infra := default no_infrastructure (infrastructure old_scan) in
  let new_infra := default no_infrastructure (infrastructure new_scan) in
  let returned :=
    changes (detect_changes similarity clock old_scan new_scan config_id d).1 in
  let reported change_type :=
    ∃ i, Infrastructure_change i ∈ returned ∧ ic_change_type i = change_type in
  (reported "ip_address_changed"
   ↔ ∃ a b, ip_address old_infra = Some a ∧ ip_address new_infra = Some b
            ∧ a ≠ "" ∧ b ≠ "" ∧ a ≠ b)
  ∧ (reported "server_software_changed"
     ↔ ∃ a b, server_software old_infra = Some a ∧ server_software new_infra = Some b
              ∧ a ≠ "" ∧ b ≠ "" ∧ a ≠ b)
  ∧ (reported "cdn_changed"
     ↔ (list_to_set (default [] (cdn_providers old_infra)) : gset string)
       ≠ list_to_set (default [] (cdn_providers new_infra))).
Proof.
  intros old_infra new_infra returned reported. subst reported returned. cbn beta.
  setoid_rewrite infrastructure_change_returned. fold old_infra new_infra.
  unfold _detect_infrastructure_changes. setoid_rewrite elem_of_app.
  setoid_rewrite elem_of_app. setoid_rewrite field_change_elem.
  unfold cdn_change. split_and!.
  - split.
    + intros (i & [H|[H|H]] & Hty).
      * destruct H as (a & b & _ & _ & _ & _ & _ & H). by simplify_eq.
      * destruct H as (a & b & ? & ? & ? & ? & ? & _). by exists a, b.
      * case_bool_decide; [|by apply elem_of_nil in H].
        apply list_elem_of_singleton in H. by simplify_eq.
    + intros (a & b & ? & ? & ? & ? & ?). eexists.
      split; [right; left; exists a, b; by split_and!|done].
  - split.
    + intros (i & [H|[H|H]] & Hty).
      * destruct H as (a & b & ? & ? & ? & ? & ? & _). by exists a, b.
      * destruct H as (a & b & _ & _ & _ & _ & _ & H). by simplify_eq.
      * case_bool_decide; [|by apply elem_of_nil in H].
        apply list_elem_of_singleton in H. by simplify_eq.
    + intros (a & b & ? & ? & ? & ? & ?). eexists.
      split; [left; exists a, b; by split_and!|done].
  - split.
    + intros (i & [H|[H|H]] & Hty).
      * destruct H as (a & b & _ & _ & _ & _ & _ & H). by simplify_eq.
      * destruct H as (a & b & _ & _ & _ & _ & _ & H). by simplify_eq.
      * by case_bool_decide; [|by apply elem_of_nil in H].
    + intros Hne. eexists.
      split; [right; right; rewrite bool_decide_true by done; apply list_elem_of_here|done].
Qed.


Lemma text_change_nonempty kind description limit old_field new_field :
  text_change similarity kind description limit old_field new_field ≠ [] ↔
  let a := Py.strip (default "" old_field) in
  let b := Py.strip (default "" new_field) in
  a ≠ "" ∧ b ≠ "" ∧ a ≠ b ∧ (similarity a b < limit)%Q.
Proof.
  unfold text_change. cbn zeta.
  rewrite <- !truthy_iff, <- String.eqb_neq, <- Qltb_lt.
  destruct (Py.truthy (Py.strip (default "" old_field)));
    destruct (Py.truthy (Py.strip (default "" new_field)));
    destruct (String.eqb _ _); destruct (Qltb _ _); cbn;
    (split; [try done; by intros []|intros (? & ? & ? & ?); congruence]).
Qed.

Lemma text_change_elem kind description limit old_field new_field c :
  c ∈ text_change similarity kind description limit old_field new_field →
  get_change_type c = Some kind.
Proof.
  unfold text_change. repeat case_match; try (by intros ?%elem_of_nil).
  by intros ->%list_elem_of_singleton.
Qed.

Lemma hash_change_nonempty old_field new_field :
  hash_change old_field new_field ≠ [] ↔
  ∃ a b, old_field = Some a ∧ new_field = Some b ∧ a ≠ "" ∧ b ≠ "" ∧ a ≠ b.
Proof.
  unfold hash_change. split.
  - destruct (Py.truthy (default "" old_field)) eqn:Ha; [|done].
    destruct (Py.truthy (default "" new_field)) eqn:Hb; [|done].
    destruct (String.eqb _ _) eqn:Hab; [done|]. intros _.
    apply truthy_iff in Ha, Hb. apply String.eqb_neq in Hab.
    destruct old_field as [a|], new_field as [b|]; try done. by exists a, b.
  - intros (a & b & -> & -> & Ha%truthy_iff & Hb%truthy_iff & Hab%String.eqb_neq).
    cbn. by rewrite Ha, Hb, Hab.
Qed.

Lemma hash_change_elem old_field new_field c :
  c ∈ hash_change old_field new_field →
  get_change_type c = Some "content_hash_changed".
Proof.
  unfold hash_change. repeat case_match; try (by intros ?%elem_of_nil).
  by intros ->%list_elem_of_singleton.
Qed.

Lemma nonempty_elem {A} (l : list A) : l ≠ [] ↔ ∃ x, x ∈ l.
Proof.
  destruct l as [|x l]; split; try done.
  - by intros [? ?%elem_of_nil].
  - intros _. exists x. left.
Qed.

(** X7.  [content_hash_changed] is returned exactly when both hashes are given,
    non-empty and different; [title_changed] ([meta_description_changed])
    exactly when both stripped texts are non-empty, differ, and their similarity
    is below 4/5 (7/10). *)
Theorem content_reporting clock old_scan new_scan config_id d :
  let old_content := default no_content (content old_scan) in
  let new_content := default no_content (content new_scan) in
  let returned :=
    changes (detect_changes similarity clock old_scan new_scan config_id d).1 in
  let reported change_type :=
    ∃ c, c ∈ returned ∧ get_type c = "content_change"
         ∧ get_change_type c = Some change_type in
  let differ (old_text new_text : string) :=
    old_text ≠ "" ∧ new_text ≠ "" ∧ old_text ≠ new_text in
  (reported "content_hash_changed"
   ↔ ∃ a b, content_hash old_content = Some a ∧ content_hash new_content = Some b
            ∧ differ a b)
  ∧ (reported "title_changed"
     ↔ let a := Py.strip (default "" (title old_content)) in
       let b := Py.strip (default "" (title new_content)) in
       differ a b ∧ (similarity a b < 4 # 5)%Q)
  ∧ (reported "meta_description_changed"
     ↔ let a := Py.strip (default "" (meta_description old_content)) in
       let b := Py.strip (default "" (meta_description new_content)) in
       differ a b ∧ (similarity a b < 7 # 10)%Q).
Proof.
  intros old_content new_content returned reported differ.
  assert (∀ ty, reported ty ↔
            ∃ c, c ∈ _detect_content_changes similarity old_content new_content
                 ∧ get_change_type c = Some ty) as Hrep.
  { intros ty. subst reported returned. cbn beta. split.
    - intros (c & Hin & Hty & Hct). exists c. split; [|done].
      destruct c as [| | | |k|]; try done. by apply content_change_returned in Hin.
    - intros (c & Hin & Hct). exists c.
      pose proof (content_changes_type _ _ _ _ Hin) as Hty.
      destruct c as [| | | |k|]; try done. split; [|done].
      by apply content_change_returned. }
  rewrite !Hrep. clear Hrep. subst differ. cbn beta zeta.
  unfold _detect_content_changes. setoid_rewrite elem_of_app. setoid_rewrite elem_of_app.
  split_and!.
  - rewrite <- hash_change_nonempty, nonempty_elem. split.
    + intros (c & [H%text_change_elem|[H%text_change_elem|H]] & Hct);
        [congruence..|by exists c].
    + intros (c & H). exists c. split; [auto|by apply hash_change_elem in H].
  - pose proof (text_change_nonempty "title_changed" "Page title changed significantly"
                  (4 # 5) (title old_content) (title new_content)) as Hne.
    cbn zeta in Hne. rewrite nonempty_elem in Hne. split.
    + intros (c & [H|[H%text_change_elem|H%hash_change_elem]] & Hct); [|congruence..].
      destruct (proj1 Hne) as (? & ? & ? & ?); [by exists c|done].
    + intros [(? & ? & ?) ?]. destruct (proj2 Hne) as [c Hc]; [done|].
      exists c. split; [auto|by apply text_change_elem in Hc].
  - pose proof (text_change_nonempty "meta_description_changed"
                  "Meta description changed significantly"
                  (7 # 10) (meta_description old_content) (meta_description new_content))
      as Hne.
    cbn zeta in Hne. rewrite nonempty_elem in Hne. split.
    + intros (c & [H%text_change_elem|[H|H%hash_change_elem]] & Hct);
        [congruence| |congruence].
      destruct (proj1 Hne) as (? & ? & ? & ?); [by exists c|done].
    + intros [(? & ? & ?) ?]. destruct (proj2 Hne) as [c Hc]; [done|].
      exists c. split; [auto|by apply text_change_elem in Hc].
Qed.


(** *** The counters *)

Lemma filter_noise_counters l m :
  let m' := (_filter_noise l m).2 in
  false_positives_filtered m' + length (_filter_noise l m).1
  = false_positives_filtered m + length l
  ∧ changes_detected m' = changes_detected m
  ∧ technology_changes m' = technology_changes m
  ∧ performance_changes m' = performance_changes m
  ∧ security_changes m' = security_changes m
  ∧ processing_time_total_ms m' = processing_time_total_ms m.
Proof.
  revert m. induction l as [|c l IH]; intros m; [done|].
  cbn [_filter_noise].
  assert (let m' := (_filter_noise l (add_false_positive m)).2 in
          false_positives_filtered m' + length (_filter_noise l (add_false_positive m)).1
          = false_positives_filtered m + length (c :: l)
          ∧ changes_detected m' = changes_detected m
          ∧ technology_changes m' = technology_changes m
          ∧ performance_changes m' = performance_changes m
          ∧ security_changes m' = security_changes m
          ∧ processing_time_total_ms m' = processing_time_total_ms m) as Hdrop.
  { destruct (IH (add_false_positive m)) as (H1 & H2 & H3 & H4 & H5 & H6).
    cbn [add_false_positive false_positives_filtered changes_detected technology_changes
         performance_changes security_changes processing_time_total_ms length] in *.
    split_and!; [lia|done..]. }
  destruct (_is_noise c); [done|].
  destruct (minor_update_of_ignored c); [done|].
  destruct (small_performance_change c); [done|].
  specialize (IH m). destruct (_filter_noise l m) as [meaningful m'].
  cbn [fst snd length] in *. destruct IH as (H1 & ?). split; [lia|done].
Qed.

Lemma detect_changes_counters clock old_scan new_scan config_id d :
  let thresholds := thresholds_seen (cache_now clock) config_id d in
  let run := detect_changes similarity clock old_scan new_scan config_id d in
  let before := metrics d in
  let after := metrics run.2 in
  technology_changes after
  = technology_changes before + length (technology_part old_scan new_scan)
  ∧ performance_changes after
    = performance_changes before + length (performance_part thresholds old_scan new_scan)
  ∧ security_changes after
    = security_changes before + length (security_part old_scan new_scan)
  ∧ false_positives_filtered after + length (changes run.1)
    = false_positives_filtered before
      + length (unfiltered similarity thresholds old_scan new_scan)
  ∧ changes_detected after = changes_detected before
  ∧ processing_time_total_ms after = processing_time_total_ms before.
Proof.
  intros thresholds run before after. subst thresholds run before after.
  unfold detect_changes, unfiltered, technology_part, security_part, performance_part,
    thresholds_seen.
  assert (∀ o n m, (_detect_technology_changes o n m)
                   = (default [] (technology_changes_of o n),
                      add_technology_changes
                        (length (default [] (technology_changes_of o n))) m)) as Htech.
  { intros o n m. unfold _detect_technology_changes.
    destruct (technology_changes_of o n); [done|].
    destruct m. unfold add_technology_changes. cbn. by rewrite Nat.add_0_r. }
  assert (∀ o n m, (_detect_security_changes o n m)
                   = (default [] (security_changes_of o n),
                      add_security_changes
                        (length (default [] (security_changes_of o n))) m)) as Hsec.
  { intros o n m. unfold _detect_security_changes.
    destruct (security_changes_of o n); [done|].
    destruct m. unfold add_security_changes. cbn. by rewrite Nat.add_0_r. }
  rewrite Htech. unfold _detect_performance_changes.
  replace (_get_performance_thresholds (cache_now clock) config_id d).1
    with (_get_performance_thresholds (cache_now clock) config_id
            (with_metrics
               (add_technology_changes
                  (length (default [] (technology_changes_of
                     (default no_technologies (technologies old_scan))
                     (default no_technologies (technologies new_scan))))) (metrics d)) d)).1.
  2:{ unfold _get_performance_thresholds. cbn [redis with_metrics monitoring_configs].
      repeat case_match; done. }
  match goal with
  | |- context [_get_performance_thresholds ?now ?c ?d0] =>
      pose proof (get_performance_thresholds_state now c d0) as (_ & Hm & _);
      destruct (_get_performance_thresholds now c d0) as [thresholds d1]
  end.
  cbn [fst snd] in *. rewrite Hsec.
  match goal with
  | |- context [_filter_noise ?l ?m] =>
      pose proof (filter_noise_counters l m) as Hf;
      destruct (_filter_noise l m) as [meaningful m4]
  end.
  cbn [fst snd changes with_metrics metrics] in *. rewrite Hm in Hf.
  destruct Hf as (H1 & H2 & H3 & H4 & H5 & H6).
  cbn [add_security_changes add_performance_changes add_technology_changes with_metrics
       metrics false_positives_filtered changes_detected technology_changes
       performance_changes security_changes processing_time_total_ms] in *.
  split_and!; done.
Qed.

(** X8.  [detect_changes] adds to the counters of technology, performance and
    security changes the numbers of changes found before the noise filter; every
    change found is either returned or counted in [false_positives_filtered];
    [changes_detected] and the processing time are left alone. *)
Theorem detection_counters clock old_scan new_scan config_id d :
  let thresholds := thresholds_seen (cache_now clock) config_id d in
  let run := detect_changes similarity clock old_scan new_scan config_id d in
  let before := metrics d in
  let after := metrics run.2 in
  technology_changes after
  = technology_changes before + length (technology_part old_scan new_scan)
  ∧ performance_changes after
    = performance_changes before + length (performance_part thresholds old_scan new_scan)
  ∧ security_changes after
    = security_changes before + length (security_part old_scan new_scan)
  ∧ false_positives_filtered after + length (changes run.1)
    = false_positives_filtered before
      + length (unfiltered similarity thresholds old_scan new_scan)
  ∧ changes_detected after = changes_detected before
  ∧ processing_time_total_ms after = processing_time_total_ms before.
Proof. apply detect_changes_counters. Qed.



(** *** The confidence of a detection *)

(** Every confidence a snapshot states for a technology lies between 0
    and 1. *)
Definition confidences_in_range (tech : Technologies) : Prop :=
  ∀ t c, t ∈ default [] (detected tech) → confidence t = Some c → (0 <= c <= 1)%Q.

Lemma first_named_elem tech n t :
  first_named tech n = Some t → t ∈ default [] (detected tech).
Proof.
  unfold first_named. destruct (detected tech) as [l|]; [|done]. cbn.
  intros [Hin _]%find_some. by apply list_elem_of_In.
Qed.

Lemma stated_confidence_in_range tech n t :
  confidences_in_range tech → first_named tech n = Some t →
  (0 <= default 1 (confidence t) <= 1)%Q.
Proof.
  intros Hrange Ht%first_named_elem. destruct (confidence t) as [c|] eqn:Hc; cbn.
  - by apply (Hrange t c).
  - split; lra.
Qed.

Lemma technology_part_confidence old_scan new_scan c :
  confidences_in_range (default no_technologies (technologies old_scan)) →
  confidences_in_range (default no_technologies (technologies new_scan)) →
  c ∈ technology_part old_scan new_scan →
  (0 <= default 1 (get_confidence c) <= 1)%Q.
Proof.
  intros Hold Hnew. unfold technology_part. rewrite technology_changes_elem.
  unfold added_change, removed_change, version_change.
  intros [(n & _ & _ & H)|[(n & _ & _ & H)|(n & l & _ & _ & H & Hc)]].
  - apply bind_Some in H as (t & Ht & H). simplify_eq. cbn.
    by eapply stated_confidence_in_range.
  - apply bind_Some in H as (t & _ & H). simplify_eq. cbn. split; lra.
  - apply bind_Some in H as (od & Hod & H). apply bind_Some in H as (nd & Hnd & H).
    pose proof (stated_confidence_in_range _ _ _ Hold Hod).
    pose proof (stated_confidence_in_range _ _ _ Hnew Hnd).
    repeat case_match; simplify_eq;
      [apply list_elem_of_singleton in Hc as -> | apply elem_of_nil in Hc..]; try done.
    cbn. unfold py_min. by case_match.
Qed.

Lemma adjusted_confidence_in_range c :
  (0 <= default 1 (get_confidence c) <= 1)%Q → (0 <= adjusted_confidence c <= 1)%Q.
Proof.
  unfold adjusted_confidence. generalize (default 1%Q (get_confidence c)). intros q Hq.
  repeat case_match; split; lra.
Qed.

Lemma total_confidence_in_range l a :
  Forall (λ c, (0 <= adjusted_confidence c <= 1)%Q) l →
  (a <= foldl (λ total change, (total + adjusted_confidence change)%Q) a l
     <= a + inject_Z (Z.of_nat (length l)))%Q.
Proof.
  intros Hall. revert a. induction Hall as [|c l Hc _ IH]; intros a.
  - cbn [foldl length]. change (inject_Z (Z.of_nat 0)) with 0%Q. split; lra.
  - cbn [foldl length]. specialize (IH (a + adjusted_confidence c)%Q).
    rewrite Nat2Z.inj_succ, <- Z.add_1_r, inject_Z_plus.
    change (inject_Z 1) with 1%Q. split; lra.
Qed.

Lemma calculate_confidence_in_range l :
  Forall (λ c, (0 <= adjusted_confidence c <= 1)%Q) l →
  (0 <= _calculate_confidence l <= 1)%Q.
Proof.
  intros Hall. unfold _calculate_confidence. destruct l as [|c l]; [split; lra|].
  pose proof (total_confidence_in_range (c :: l) 0 Hall) as [Hlo Hhi].
  assert (0 < inject_Z (Z.of_nat (length (c :: l))))%Q as Hpos.
  { change 0%Q with (inject_Z 0). rewrite <- Zlt_Qlt. cbn [length]. lia. }
  split.
  - apply Qle_shift_div_l; [done|]. lra.
  - apply Qle_shift_div_r; [done|]. lra.
Qed.

(** X9.  When the confidences the two snapshots state for their technologies lie
    between 0 and 1, so does the confidence of the detection. *)
Theorem detection_confidence_in_range clock old_scan new_scan config_id d :
  confidences_in_range (default no_technologies (technologies old_scan)) →
  confidences_in_range (default no_technologies (technologies new_scan)) →
  (0 <= detection_confidence
          (detect_changes similarity clock old_scan new_scan config_id d).1 <= 1)%Q.
Proof.
  intros Hold Hnew.
  destruct (detect_changes_result similarity clock old_scan new_scan config_id d) as [-> _].
  apply calculate_confidence_in_range, Forall_forall. intros c [_ Hc]%returned_iff.
  apply adjusted_confidence_in_range.
  apply unfiltered_by_type in Hc as [[_ H]|[[H _]|[[H _]|[[H _]|[H _]]]]].
  - by apply (technology_part_confidence old_scan new_scan).
  - destruct c; try done; cbn; split; lra.
  - destruct c; try done; cbn; split; lra.
  - destruct c; try done; cbn; split; lra.
  - destruct c; try done; cbn; split; lra.
Qed.


(** *** The direction of a version change *)

Lemma upgrade_scan_refl parts : upgrade_scan parts parts = false.
Proof.
  induction parts as [|a parts IH]; [done|]. cbn.
  rewrite Z.ltb_irrefl. done.
Qed.

Lemma upgrade_scan_antisym old_parts new_parts :
  old_parts ≠ new_parts →
  upgrade_scan old_parts new_parts = negb (upgrade_scan new_parts old_parts).
Proof.
  revert new_parts. induction old_parts as [|o os IH]; intros [|n ns] Hne; try done.
  cbn [upgrade_scan].
  destruct (o <? n)%Z eqn:H1, (n <? o)%Z eqn:H2; try done; [lia|].
  apply IH. intros ->. apply Hne. f_equal. lia.
Qed.

(** X10.  For two versions that both parse: [_is_version_upgrade] is false both
    ways when the parts are equal, true in exactly one direction when they
    differ, and true from a version to one that extends it. *)
Theorem version_upgrade_order old_version new_version old_parts new_parts :
  version_parts old_version = Some old_parts →
  version_parts new_version = Some new_parts →
  (old_parts = new_parts →
   _is_version_upgrade old_version new_version = false
   ∧ _is_version_upgrade new_version old_version = false)
  ∧ (old_parts ≠ new_parts →
     _is_version_upgrade old_version new_version
     = negb (_is_version_upgrade new_version old_version))
  ∧ (∀ extra, new_parts = old_parts ++ extra → extra ≠ [] →
       _is_version_upgrade old_version new_version = true).
Proof.
  intros Hold Hnew. unfold _is_version_upgrade. rewrite Hold, Hnew. split_and!.
  - intros ->. by rewrite upgrade_scan_refl.
  - apply upgrade_scan_antisym.
  - intros extra -> Hextra. clear Hold Hnew.
    induction old_parts as [|o os IH]; cbn.
    + destruct extra; [done|]. done.
    + by rewrite Z.ltb_irrefl.
Qed.


(** *** Storing and publishing the changes of a detection *)

Lemma store_and_publish_valid config_id scan_id cfg scan changes rows sent :
  Uuid.UUID config_id = Some cfg → Uuid.UUID_opt scan_id = Some scan →
  store_and_publish config_id scan_id changes rows sent
  = (Some (rows ++ ((λ c, {| stored_config_id := cfg; stored_scan_id := scan;
                             stored_change := c |})
                    <$> filter (λ c, has_table c = true) changes)),
     sent ++ ((λ c, (config_id, c)) <$> changes)).
Proof.
  intros Hcfg Hscan. revert rows sent.
  induction changes as [|c changes IH]; intros rows sent.
  { cbn. by rewrite !app_nil_r. }
  cbn [store_and_publish]. unfold change_row. rewrite Hcfg, Hscan. cbn [mbind option_bind].
  rewrite filter_cons. destruct (has_table c) eqn:Hc.
  - rewrite decide_True by done. rewrite IH, fmap_cons, <- !app_assoc. done.
  - rewrite decide_False by done. rewrite IH, fmap_cons, app_nil_r, <- !app_assoc. done.
Qed.

(** X11.  [_process_detected_changes] with a config id and a scan id that are
    texts of UUIDs: every technology, performance and security change is stored,
    in order, every change is published on [change.detected], and
    [changes_detected] grows by the number of changes; the table of scans is not
    touched. *)
Theorem changes_stored_and_published config_id scan_id cfg scan detection_result d :
  Uuid.UUID config_id = Some cfg → Uuid.UUID_opt scan_id = Some scan →
  let d' := _process_detected_changes config_id scan_id detection_result d in
  change_log d'
  = change_log d
    ++ ((λ c, {| stored_config_id := cfg; stored_scan_id := scan; stored_change := c |})
        <$> filter (λ c, has_table c = true) (changes detection_result))
  ∧ change_detected d'
    = change_detected d ++ ((λ c, (config_id, c)) <$> changes detection_result)
  ∧ changes_detected (metrics d')
    = changes_detected (metrics d) + length (changes detection_result)
  ∧ scan_results d' = scan_results d.
Proof.
  intros Hcfg Hscan d'. subst d'. unfold _process_detected_changes.
  rewrite (store_and_publish_valid _ _ cfg scan) by done. done.
Qed.

Lemma store_and_publish_malformed config_id scan_id changes rows sent :
  Uuid.UUID config_id = None ∨ Uuid.UUID_opt scan_id = None →
  ∃ published rest,
    changes = published ++ rest
    ∧ Forall (λ c, has_table c = false) published
    ∧ store_and_publish config_id scan_id changes rows sent
      = (match rest with [] => Some rows | _ => None end,
         sent ++ ((λ c, (config_id, c)) <$> published))
    ∧ match rest with [] => True | c :: _ => has_table c = true end.
Proof.
  intros Hbad. revert rows sent.
  induction changes as [|c changes IH]; intros rows sent.
  { exists [], []. cbn. by rewrite app_nil_r. }
  cbn [store_and_publish]. unfold change_row. destruct (has_table c) eqn:Hc.
  - exists [], (c :: changes). cbn [app fmap list_fmap]. rewrite app_nil_r.
    split_and!; [done..| |done].
    destruct Hbad as [-> | Hbad]; [done|]. rewrite Hbad.
    by destruct (Uuid.UUID config_id).
  - destruct (IH (rows ++ []) (sent ++ [(config_id, c)]))
      as (published & rest & -> & Hall & -> & Hrest).
    exists (c :: published), rest. split_and!; [done|by constructor| |done].
    rewrite app_nil_r, fmap_cons, <- app_assoc. done.
Qed.

(** X12.  [_process_detected_changes] with a config id or a scan id that is not
    the text of a UUID stores nothing: the changes before the first one that has
    a table are published, that one and the later ones are not, and the counters
    stay as they were when there is such a change. *)
Theorem malformed_ids_store_nothing config_id scan_id detection_result d :
  Uuid.UUID config_id = None ∨ Uuid.UUID_opt scan_id = None →
  let d' := _process_detected_changes config_id scan_id detection_result d in
  change_log d' = change_log d
  ∧ (Exists (λ c, has_table c = true) (changes detection_result) →
     metrics d' = metrics d)
  ∧ ∃ published rest,
      changes detection_result = published ++ rest
      ∧ Forall (λ c, has_table c = false) published
      ∧ (∀ c, head rest = Some c → has_table c = true)
      ∧ change_detected d'
        = change_detected d ++ ((λ c, (config_id, c)) <$> published).
Proof.
  intros Hbad d'. subst d'. unfold _process_detected_changes.
  destruct (store_and_publish_malformed config_id scan_id (changes detection_result)
              [] [] Hbad) as (published & rest & Heq & Hall & -> & Hrest).
  destruct rest as [|c rest].
  - cbn. rewrite app_nil_r. split_and!; [done| |].
    + rewrite Heq, app_nil_r. intros (c & Hin & Hc)%Exists_exists.
      rewrite Forall_forall in Hall. specialize (Hall c Hin). congruence.
    + by exists published, [].
  - cbn. split_and!; [done..|]. exists published, (c :: rest). cbn.
    split_and!; [done..| |done]. by intros ? [= <-].
Qed.


(** *** The threshold cache *)

(** The table of configs as another process leaves it. *)
Definition with_table (table : gmap Z ConfigRow) (d : Detector) : Detector :=
  {| metrics := metrics d; redis := redis d; monitoring_configs := table;
     scan_results := scan_results d; change_log := change_log d;
     change_detected := change_detected d |}.

(** X13.  Thresholds read from the table of configs are cached for an hour:
    within it [_get_performance_thresholds] answers them whatever the table has
    become, afterwards the table is read again. *)
Theorem cached_thresholds_outlive_the_table now0 now config_id id sc table d :
  Redis.get now0 ("perf_thresholds:" +:+ config_id) (redis d) = None →
  Uuid.UUID config_id = Some id →
  monitoring_configs d !! id = Some {| scan_config := Some sc |} →
  let d1 :=
    with_table table (_get_performance_thresholds now0 config_id d).2 in
  (_get_performance_thresholds now0 config_id d).1
  = default ∅ (performance_thresholds sc)
  ∧ ((now < now0 + 3600)%Z →
     thresholds_seen now config_id d1 = default ∅ (performance_thresholds sc))
  ∧ ((now0 + 3600 ≤ now)%Z →
     thresholds_seen now config_id d1 = configured_thresholds config_id d1).
Proof.
  intros Hmiss Hid Hrow d1. subst d1.
  unfold thresholds_seen, configured_thresholds, _get_performance_thresholds.
  rewrite Hmiss, Hid. cbn [mbind option_bind]. rewrite Hrow.
  unfold Redis.setex. cbn [Z.ltb Z.compare fst snd with_table with_redis
                           redis monitoring_configs].
  split; [done|]. unfold Redis.get. rewrite lookup_insert_eq. split.
  - intros Hlt. by rewrite (proj2 (Z.ltb_lt _ _) Hlt).
  - intros Hge. rewrite (proj2 (Z.ltb_ge _ _) Hge).
    by destruct (table !! id) as [[[sc'|]]|].
Qed.

(** *** What the handler of [scan.completed] touches *)

Lemma process_detected_changes_tables config_id scan_id detection_result d :
  let d' := _process_detected_changes config_id scan_id detection_result d in
  scan_results d' = scan_results d ∧ monitoring_configs d' = monitoring_configs d
  ∧ redis d' = redis d.
Proof. unfold _process_detected_changes. by destruct (store_and_publish _ _ _ _ _) as [[]]. Qed.

(** X14.  The handler of [scan.completed] of the detector never changes the
    tables of scans and of configs; an invalid message (no result summary, or an
    empty config id) and a first scan leave the detector as it was; a comparison
    is made with the scan [_get_previous_scan] returns and adds the elapsed time
    to the processing time. *)
Theorem scan_completed_handler_tables clock elapsed_ms message d :
  let handled := _handle_scan_completed similarity clock elapsed_ms message d in
  scan_results handled.2 = scan_results d
  ∧ monitoring_configs handled.2 = monitoring_configs d
  ∧ (handled.1 = Invalid_message ∨ handled.1 = Baseline_only → handled.2 = d)
  ∧ (msg_result_summary message = None ∨ msg_config_id message = "" →
     handled.1 = Invalid_message)
  ∧ (∀ previous result, handled.1 = Compared previous result →
       _get_previous_scan (msg_config_id message) d = Some previous
       ∧ processing_time_total_ms (metrics handled.2)
         = (processing_time_total_ms (metrics d) + elapsed_ms)%Z).
Proof.
  intros handled. subst handled. unfold _handle_scan_completed.
  destruct (msg_result_summary message) as [result_summary|]; [|by split_and!; [..|intros ??]].
  destruct (Py.truthy (msg_config_id message)) eqn:Hid; cbn [negb];
    [|split_and!; [done..|intros ?? [=]]].
  destruct (_get_previous_scan (msg_config_id message) d) as [previous|] eqn:Hprev;
    [|split_and!; [done..| |intros ?? [=]]]; last first.
  { intros [[=]|Hempty]. rewrite Hempty in Hid. done. }
  pose proof (detect_changes_state similarity clock (row_result_summary previous)
                result_summary (msg_config_id message) d) as (Hcfg & Hrows & _ & _).
  pose proof (detect_changes_counters clock (row_result_summary previous) result_summary
                (msg_config_id message) d) as (_ & _ & _ & _ & _ & Htime).
  destruct (detect_changes similarity clock _ _ _ d) as [result d1]. cbn [fst snd] in *.
  assert (∀ d2, scan_results d2 = scan_results d1 →
                monitoring_configs d2 = monitoring_configs d1 →
                processing_time_total_ms (metrics d2)
                = (processing_time_total_ms (metrics d1) + elapsed_ms)%Z →
                scan_results d2 = scan_results d ∧ monitoring_configs d2 = monitoring_configs d
                ∧ processing_time_total_ms (metrics d2)
                  = (processing_time_total_ms (metrics d) + elapsed_ms)%Z) as Hd2.
  { intros d2 -> -> ->. by rewrite Htime. }
  destruct (has_changes result); cbn [fst snd].
  - match goal with
    | |- context [_process_detected_changes ?c ?s ?r ?d0] =>
        pose proof (process_detected_changes_tables c s r d0) as (Hr & Hc & _);
        assert (processing_time_total_ms (metrics (_process_detected_changes c s r d0))
                = processing_time_total_ms (metrics d0)) as Ht
    end.
    { unfold _process_detected_changes. by destruct (store_and_publish _ _ _ _ _) as [[]]. }
    cbn zeta in *.
    match goal with
    | |- context [_process_detected_changes ?c ?s ?r ?d0] =>
        destruct (Hd2 (_process_detected_changes c s r d0)) as (Hs & Hm & Hp)
    end; [by rewrite Hr|by rewrite Hc|by rewrite Ht|].
    split_and!; [done|done|by intros [|]| |by intros ?? [= <- <-]].
    intros [Hnone|Hempty]; [done|by rewrite Hempty in Hid].
  - match goal with
    | |- context [with_metrics ?m ?d0] =>
        destruct (Hd2 (with_metrics m d0)) as (Hs & Hm & Hp)
    end; [done..|].
    split_and!; [done|done|by intros [|]| |by intros ?? [= <- <-]].
    intros [Hnone|Hempty]; [done|by rewrite Hempty in Hid].
Qed.

End Facts.


(** *** Concrete runs *)

(** A technology detected with a stated confidence. *)
Definition sure (n v : string) (c : Q) : Technology :=
  {| name := n; version := Some v; category := None; confidence := Some c;
     detection_method := None; indicators := None |}.

Example confidence_of_one_update :
  detection_confidence
    (detect_changes constant_ratio at_noon (tech_scan [sure "react" "17.0.2" (9 # 10)])
       (tech_scan [sure "react" "18.2.0" (8 # 10)]) config_text (detector_with ∅ [])).1
  = (72 # 100)%Q.
Proof. vm_compute. reflexivity. Qed.

Lemma detection_confidence_in_range_witness :
  (0 <= detection_confidence
          (detect_changes constant_ratio at_noon
             (tech_scan [sure "react" "17.0.2" (9 # 10)])
             (tech_scan [sure "react" "18.2.0" (8 # 10)])
             config_text (detector_with ∅ [])).1 <= 1)%Q.
Proof.
  apply (detection_confidence_in_range constant_ratio at_noon
           (tech_scan [sure "react" "17.0.2" (9 # 10)])
           (tech_scan [sure "react" "18.2.0" (8 # 10)]) config_text (detector_with ∅ [])).
  - intros t c Hin Hc. cbn in Hin. apply list_elem_of_singleton in Hin. subst t.
    cbn in Hc. injection Hc as <-. split; discriminate.
  - intros t c Hin Hc. cbn in Hin. apply list_elem_of_singleton in Hin. subst t.
    cbn in Hc. injection Hc as <-. split; discriminate.
Defined.

Lemma version_upgrade_order_witness :
  ([1; 9; 0]%Z = [1; 10]%Z →
   _is_version_upgrade "1.9.0" "1.10" = false ∧ _is_version_upgrade "1.10" "1.9.0" = false)
  ∧ ([1; 9; 0]%Z ≠ [1; 10]%Z →
     _is_version_upgrade "1.9.0" "1.10" = negb (_is_version_upgrade "1.10" "1.9.0"))
  ∧ (∀ extra, [1; 10]%Z = [1; 9; 0]%Z ++ extra → extra ≠ [] →
       _is_version_upgrade "1.9.0" "1.10" = true).
Proof.
  apply (version_upgrade_order "1.9.0" "1.10" [1; 9; 0]%Z [1; 10]%Z); reflexivity.
Defined.

Example version_upgrade_examples :
  _is_version_upgrade "1.9.0" "1.10" = true
  ∧ _is_version_upgrade "1.10" "1.9.0" = false
  ∧ _is_version_upgrade "2.0" "2.0.0" = true
  ∧ _is_version_upgrade "2.0.0-beta" "1.0" = true
  ∧ _is_version_upgrade "1.0" "2.0.0-beta" = true.
Proof. repeat split; vm_compute; reflexivity. Qed.

(** The detection of the update of [react] between the two stored scans. *)
Definition react_update : ChangeDetection :=
  (detect_changes constant_ratio at_noon (row_result_summary first_scan)
     (row_result_summary second_scan) config_text (detector_with ∅ [first_scan])).1.

Lemma changes_stored_and_published_witness :
  let d := detector_with ∅ [first_scan] in
  let d' := _process_detected_changes config_text (Some second_text) react_update d in
  change_log d'
  = change_log d
    ++ ((λ c, {| stored_config_id := config_uuid; stored_scan_id := second_uuid;
                 stored_change := c |})
        <$> filter (λ c, has_table c = true) (changes react_update))
  ∧ change_detected d'
    = change_detected d ++ ((λ c, (config_text, c)) <$> changes react_update)
  ∧ changes_detected (metrics d')
    = changes_detected (metrics d) + length (changes react_update)
  ∧ scan_results d' = scan_results d.
Proof.
  apply (changes_stored_and_published config_text (Some second_text) config_uuid
           second_uuid react_update (detector_with ∅ [first_scan]));
    vm_compute; reflexivity.
Defined.

Lemma malformed_ids_store_nothing_witness :
  let d := detector_with ∅ [first_scan] in
  let d' := _process_detected_changes config_text (Some "scan-2") react_update d in
  change_log d' = change_log d
  ∧ (Exists (λ c, has_table c = true) (changes react_update) → metrics d' = metrics d)
  ∧ ∃ published rest,
      changes react_update = published ++ rest
      ∧ Forall (λ c, has_table c = false) published
      ∧ (∀ c, head rest = Some c → has_table c = true)
      ∧ change_detected d'
        = change_detected d ++ ((λ c, (config_text, c)) <$> published).
Proof.
  apply (malformed_ids_store_nothing config_text (Some "scan-2") react_update
           (detector_with ∅ [first_scan])).
  right. vm_compute. reflexivity.
Defined.

Lemma cached_thresholds_outlive_the_table_witness :
  let sc := {| performance_thresholds := Some {["load_time" := 1%Q]} |} in
  let d := detector_with {["load_time" := 1%Q]} [] in
  let d1 :=
    with_table ∅ (_get_performance_thresholds 43200 config_text d).2 in
  (_get_performance_thresholds 43200 config_text d).1
  = default ∅ (performance_thresholds sc)
  ∧ ((45000 < 43200 + 3600)%Z →
     thresholds_seen 45000 config_text d1 = default ∅ (performance_thresholds sc))
  ∧ ((43200 + 3600 ≤ 45000)%Z →
     thresholds_seen 45000 config_text d1 = configured_thresholds config_text d1).
Proof.
  apply (cached_thresholds_outlive_the_table 43200 45000 config_text config_uuid
           {| performance_thresholds := Some {["load_time" := 1%Q]} |} ∅
           (detector_with {["load_time" := 1%Q]} []));
    vm_compute; reflexivity.
Defined.

End DetectorFacts.


Module KafkaFacts.

Import Kafka.

Section Facts.

Context {Body State : Type}.
Variable isoformat : Z → string.
Variable str_time : Z → string.
Variable send_and_wait : nat → SendOutcome.
Variable message_handler :
  @KafkaMessage Body → Context → State → State * option string.

Abbreviation Client := (@Client Body).

(** *** Every request is counted once *)

(** The requests made since the client was in state [c]. *)
Definition requests_since (c c' : Client) : list (@Request Body) :=
  drop (length (requests c)) (requests c').

(** One step of the client: the producer keeps its state, the requests
    made are appended, each counted once as produced or as an error, and
    the consumption counters move by [consumed] and [failed]. *)
Record step (consumed failed : nat) (c c' : Client) : Prop := {
  step_started : producer_started c' = producer_started c;
  step_requests : requests c' = requests c ++ requests_since c c';
  step_produced :
    messages_produced c' + production_errors c'
    = messages_produced c + production_errors c + length (requests_since c c');
  step_delivered :
    messages_produced c'
    = messages_produced c
      + length (filter (λ r, req_outcome r = Delivered) (requests_since c c'));
  step_consumed : messages_consumed c' = messages_consumed c + consumed;
  step_failed : consumption_errors c' = consumption_errors c + failed }.

Lemma step_refl c : step 0 0 c c.
Proof.
  split; unfold requests_since; rewrite ?drop_all, ?app_nil_r; cbn; try done; lia.
Qed.

Lemma requests_since_app c l :
  ∀ c', requests c' = requests c ++ l → requests_since c c' = l.
Proof. intros c' H. unfold requests_since. by rewrite H, drop_app_length. Qed.

Lemma step_trans n1 e1 n2 e2 c c1 c2 :
  step n1 e1 c c1 → step n2 e2 c1 c2 → step (n1 + n2) (e1 + e2) c c2.
Proof.
  intros [S1 R1 P1 D1 C1 F1] [S2 R2 P2 D2 C2 F2].
  assert (requests_since c c2 = requests_since c c1 ++ requests_since c1 c2) as Hsince.
  { apply requests_since_app. by rewrite R2, R1 at 1; rewrite <- app_assoc. }
  split; rewrite ?Hsince, ?filter_app, ?length_app; try lia.
  - congruence.
  - rewrite R2, R1 at 1. by rewrite <- app_assoc.
Qed.

Lemma requests_since_count_produced r c : requests_since c (count_produced r c) = [r].
Proof. by apply requests_since_app. Qed.

Lemma requests_since_count_production_error e r c :
  requests_since c (count_production_error e r c) = [r].
Proof. by apply requests_since_app. Qed.

Lemma produce_unrouted_step topic message key headers c :
  step 0 0 c (produce_unrouted send_and_wait topic message key headers c).2.
Proof.
  unfold produce_unrouted. destruct (producer_started c); cbn [negb]; [|apply step_refl].
  destruct (send_and_wait (length (requests c))) eqn:Hout; cbn [snd].
  all: split;
    rewrite ?requests_since_count_produced, ?requests_since_count_production_error,
      ?filter_cons, ?filter_nil;
    cbn [requests messages_produced production_errors producer_started
         messages_consumed consumption_errors count_produced
         count_production_error length req_outcome]; try done; try lia.
Qed.

Lemma send_to_dlq_step now value topic e c :
  step 0 0 c (_send_to_dlq isoformat str_time send_and_wait now value topic e c).
Proof. apply produce_unrouted_step. Qed.

Lemma send_to_dlq_topic now value topic e c :
  Forall (λ r, req_topic r = dlq_topic)
         (requests_since c (_send_to_dlq isoformat str_time send_and_wait now value topic e c)).
Proof.
  unfold _send_to_dlq, produce_unrouted.
  destruct (producer_started c); cbn [negb snd];
    [|unfold requests_since; by rewrite drop_all].
  destruct (send_and_wait (length (requests c))); cbn [snd];
    rewrite ?requests_since_count_produced, ?requests_since_count_production_error;
    by repeat constructor.
Qed.

Lemma send_to_dlq_unstarted now value topic e (c : Client) :
  producer_started c = false →
  _send_to_dlq isoformat str_time send_and_wait now value topic e c = c.
Proof. intros H. unfold _send_to_dlq, produce_unrouted. by rewrite H. Qed.

(** *** The consumer loop *)

Definition handled (o : Consumed) : bool :=
  match o with Handled => true | _ => false end.

Definition raised (o : Consumed) : bool :=
  match o with Raised _ => true | _ => false end.

Definition count (p : Consumed → bool) (outcomes : list Consumed) : nat :=
  length (filter (λ o, p o = true) outcomes).

Lemma count_cons p o outcomes :
  count p (o :: outcomes) = (if p o then 1 else 0) + count p outcomes.
Proof.
  unfold count. rewrite filter_cons. destruct (p o).
  - by rewrite decide_True.
  - by rewrite decide_False.
Qed.

Lemma count_consumed_step c : step 1 0 c (count_consumed c).
Proof.
  split; unfold requests_since; cbn; rewrite ?drop_all, ?app_nil_r; cbn; try done; lia.
Qed.

Lemma count_consumption_error_step e c : step 0 1 c (count_consumption_error e c).
Proof.
  split; unfold requests_since; cbn; rewrite ?drop_all, ?app_nil_r; cbn; try done; lia.
Qed.

Lemma requests_since_same c c1 c2 :
  requests c1 = requests c → requests_since c1 c2 = requests_since c c2.
Proof. unfold requests_since. by intros ->. Qed.

Lemma consume_one_step now msg s c :
  let '(outcome, _, c') :=
    consume_one isoformat str_time send_and_wait message_handler now msg s c in
  step (if handled outcome then 1 else 0) (if raised outcome then 1 else 0) c c'
  ∧ Forall (λ r, req_topic r = dlq_topic) (requests_since c c')
  ∧ (cr_topic msg = dlq_topic ∨ producer_started c = false → requests c' = requests c).
Proof.
  unfold consume_one. destruct (cr_value msg) as [value|];
    [|split_and!; [apply step_refl|unfold requests_since; by rewrite drop_all|done]].
  destruct (message_handler _ _ s) as [s' [e|]].
  - case_bool_decide as Htopic.
    + split_and!.
      * apply (step_trans 0 1 0 0 c (count_consumption_error e c));
          [apply count_consumption_error_step|apply send_to_dlq_step].
      * rewrite <- (requests_since_same c (count_consumption_error e c)) by done.
        apply send_to_dlq_topic.
      * intros [?|Hstarted]; [done|]. by rewrite send_to_dlq_unstarted.
    + split_and!; [apply count_consumption_error_step| |done].
      unfold requests_since. cbn. by rewrite drop_all.
  - split_and!; [apply count_consumed_step| |done].
    unfold requests_since. cbn. by rewrite drop_all.
Qed.

Lemma consume_messages_step deliveries s c :
  let '(outcomes, _, c') :=
    _consume_messages isoformat str_time send_and_wait message_handler deliveries s c in
  step (count handled outcomes) (count raised outcomes) c c'
  ∧ Forall (λ r, req_topic r = dlq_topic) (requests_since c c')
  ∧ (Forall (λ d, cr_topic d.2 = dlq_topic) deliveries ∨ producer_started c = false →
     requests c' = requests c).
Proof.
  revert s c. induction deliveries as [|[now msg] rest IH]; intros s c.
  { cbn. split_and!; [apply step_refl|unfold requests_since; by rewrite drop_all|done]. }
  cbn [_consume_messages].
  pose proof (consume_one_step now msg s c) as H1.
  destruct (consume_one _ _ _ _ now msg s c) as [[outcome s1] c1].
  specialize (IH s1 c1).
  destruct (_consume_messages _ _ _ _ rest s1 c1) as [[outcomes s2] c2].
  destruct H1 as (Hstep1 & Hdlq1 & Hnone1), IH as (Hstep2 & Hdlq2 & Hnone2).
  assert (requests_since c c2 = requests_since c c1 ++ requests_since c1 c2) as Hsince.
  { apply requests_since_app.
    rewrite (step_requests _ _ _ _ Hstep2), (step_requests _ _ _ _ Hstep1) at 1.
    by rewrite <- app_assoc. }
  split_and!.
  - rewrite !count_cons. by eapply step_trans.
  - rewrite Hsince. by apply Forall_app.
  - intros Hcase. rewrite Hnone2, Hnone1; [done| |].
    + destruct Hcase as [Hall|?]; [left|by right]. by inversion Hall.
    + destruct Hcase as [Hall|Hstarted]; [left; by inversion Hall|right].
      by rewrite (step_started _ _ _ _ Hstep1).
Qed.



Lemma consume_one_outcome now msg s c :
  let '(outcome, _, c') :=
    consume_one isoformat str_time send_and_wait message_handler now msg s c in
  (if handled outcome then 1 else 0) + (if raised outcome then 1 else 0)
  = (if cr_value msg is Some _ then 1 else 0)
  ∧ (length (requests_since c c') ≤ (if raised outcome then 1 else 0))%nat.
Proof.
  unfold consume_one. destruct (cr_value msg) as [value|];
    [|unfold requests_since; by rewrite drop_all].
  destruct (message_handler _ _ s) as [s' [e|]].
  - case_bool_decide; cbn; (split; [done|]).
    + rewrite <- (requests_since_same c (count_consumption_error e c)) by done.
      unfold _send_to_dlq, produce_unrouted. cbn [producer_started count_consumption_error].
      destruct (producer_started c); cbn [negb snd];
        [|unfold requests_since; rewrite drop_all; cbn; lia].
      destruct (send_and_wait _); cbn [snd];
        by rewrite ?requests_since_count_produced, ?requests_since_count_production_error.
    + unfold requests_since. cbn. rewrite drop_all. cbn. lia.
  - cbn. split; [done|]. unfold requests_since. cbn. by rewrite drop_all.
Qed.

Lemma consume_messages_outcome deliveries s c :
  let '(outcomes, _, c') :=
    _consume_messages isoformat str_time send_and_wait message_handler deliveries s c in
  count handled outcomes + count raised outcomes
  = length (filter (λ d, is_Some (cr_value d.2)) deliveries)
  ∧ (length (requests_since c c') ≤ count raised outcomes)%nat.
Proof.
  revert s c. induction deliveries as [|[now msg] rest IH]; intros s c.
  { cbn. unfold requests_since. by rewrite drop_all. }
  cbn [_consume_messages].
  pose proof (consume_one_outcome now msg s c) as H1.
  pose proof (consume_one_step now msg s c) as S1.
  destruct (consume_one _ _ _ _ now msg s c) as [[outcome s1] c1].
  specialize (IH s1 c1). pose proof (consume_messages_step rest s1 c1) as S2.
  destruct (_consume_messages _ _ _ _ rest s1 c1) as [[outcomes s2] c2].
  destruct H1 as [Hone Hreq1], IH as [Hall Hreq2], S1 as (Hstep1 & _), S2 as (Hstep2 & _).
  assert (requests_since c c2 = requests_since c c1 ++ requests_since c1 c2) as Hsince.
  { apply requests_since_app.
    rewrite (step_requests _ _ _ _ Hstep2), (step_requests _ _ _ _ Hstep1) at 1.
    by rewrite <- app_assoc. }
  rewrite !count_cons, Hsince, length_app, filter_cons. cbn [snd].
  destruct (cr_value msg) as [value|].
  - rewrite (decide_True (P := is_Some (Some value))) by done. cbn [length]. lia.
  - rewrite (decide_False (P := is_Some None)) by (by intros [? ?]). lia.
Qed.

(** X15.  The consumer loop counts every record once: [messages_consumed] grows
    by the number of records the handler handled, [consumption_errors] by the
    number it raised on, and the records with an empty value are counted in
    neither. *)
Theorem consumer_counters deliveries s c :
  let '(outcomes, _, c') :=
    _consume_messages isoformat str_time send_and_wait message_handler deliveries s c in
  messages_consumed c' = messages_consumed c + count handled outcomes
  ∧ consumption_errors c' = consumption_errors c + count raised outcomes
  ∧ count handled outcomes + count raised outcomes
    = length (filter (λ d, is_Some (cr_value d.2)) deliveries)
  ∧ length outcomes = length deliveries.
Proof.
  pose proof (consume_messages_step deliveries s c) as Hstep.
  pose proof (consume_messages_outcome deliveries s c) as Hout.
  pose proof (consume_messages_outcomes isoformat str_time send_and_wait message_handler
                deliveries s c) as [Hlen _].
  destruct (_consume_messages _ _ _ _ deliveries s c) as [[outcomes s'] c'].
  destruct Hstep as ([_ _ _ _ Hc He] & _), Hout as [Hsum _]. done.
Qed.

(** X16.  The only requests the consumer loop makes to the cluster are dead-
    letter messages on [dlq.failed-messages], at most one per record the handler
    raised on; none when every record comes from that topic or the producer is
    not started. *)
Theorem consumer_publishes_dead_letters_only deliveries s c :
  let '(outcomes, _, c') :=
    _consume_messages isoformat str_time send_and_wait message_handler deliveries s c in
  ∃ published,
    requests c' = requests c ++ published
    ∧ Forall (λ r, req_topic r = dlq_topic) published
    ∧ (length published ≤ count raised outcomes)%nat
    ∧ messages_produced c' + production_errors c'
      = messages_produced c + production_errors c + length published
    ∧ (Forall (λ d, cr_topic d.2 = dlq_topic) deliveries → published = [])
    ∧ (producer_started c = false → published = []).
Proof.
  pose proof (consume_messages_step deliveries s c) as Hstep.
  pose proof (consume_messages_outcome deliveries s c) as Hout.
  destruct (_consume_messages _ _ _ _ deliveries s c) as [[outcomes s'] c'].
  destruct Hstep as ([_ Hreq Hp _ _ _] & Hdlq & Hnone), Hout as [_ Hbound].
  exists (requests_since c c'). split_and!; [done..| |].
  - intros Hall. unfold requests_since. rewrite Hnone by by left. by rewrite drop_all.
  - intros Hstarted. unfold requests_since. rewrite Hnone by by right. by rewrite drop_all.
Qed.

(** X17.  [produce_message] on a client that is not started returns false and
    changes nothing.  On a started client it makes one request with the given
    topic, key and value and returns whether it was delivered; one more request
    follows, the dead-letter message, exactly when that request fails with a
    Kafka error on a topic other than [dlq.failed-messages]; each request is
    counted as produced or as a production error. *)
Theorem produce_message_outcomes now topic message key headers (c : Client) :
  let '(ok, c') :=
    produce_message isoformat str_time send_and_wait now topic message key headers c in
  (producer_started c = false → ok = false ∧ c' = c)
  ∧ (producer_started c = true →
     ∃ first rest,
       requests c' = requests c ++ first :: rest
       ∧ req_topic first = topic ∧ req_key first = key
       ∧ req_value first = asdict message
       ∧ req_outcome first = send_and_wait (length (requests c))
       ∧ ok = bool_decide (req_outcome first = Delivered)
       ∧ rest = match req_outcome first with
                | Kafka_error e =>
                    if bool_decide (topic ≠ dlq_topic)
                    then [dead_letter_request isoformat str_time send_and_wait now
                            (asdict message) topic e (S (length (requests c)))]
                    else []
                | _ => []
                end
       ∧ messages_produced c' + production_errors c'
         = messages_produced c + production_errors c + 1 + length rest).
Proof.
  unfold produce_message, produce_unrouted.
  destruct (producer_started c) eqn:Hstarted; cbn [negb]; [|by split].
  destruct (send_and_wait (length (requests c))) as [|e|e] eqn:Hout.
  - split; [done|]. intros _. eexists _, []. cbn.
    split_and!; try done; lia.
  - case_bool_decide as Htopic; (split; [done|]); intros _.
    + match goal with
      | |- context [_send_to_dlq _ _ _ ?n ?v ?t ?e0 ?c1] =>
          destruct (send_to_dlq_started isoformat str_time send_and_wait n v t e0 c1 Hstarted)
            as [_ Hreq];
          pose proof (send_to_dlq_step n v t e0 c1) as [_ _ Hp _ _ _]
      end.
      rewrite requests_since_app with (l := [_]) in Hp by exact Hreq.
      cbn [requests count_production_error messages_produced production_errors length]
        in Hreq, Hp.
      eexists _, [_]. split_and!.
      * rewrite Hreq, <- app_assoc. cbn [app]. reflexivity.
      * done.
      * done.
      * done.
      * done.
      * done.
      * cbn [req_outcome]. by rewrite length_app, Nat.add_1_r.
      * cbn [length]. lia.
    + eexists _, []. cbn. split_and!; try done; lia.
  - split; [done|]. intros _. eexists _, []. cbn.
    split_and!; try done; lia.
Qed.

(** X18.  A record whose value is the dict of a message is handed to the handler
    as that message (the message built from [asdict] of a message is that
    message); the state is the one the handler leaves, and the record counts as
    handled or as raised according to the handler. *)
Theorem published_message_reaches_handler now msg message s (c : Client) :
  cr_value msg = Some (asdict message) →
  let '(outcome, s', _) :=
    consume_one isoformat str_time send_and_wait message_handler now msg s c in
  let ran := message_handler message (context_of msg) s in
  received (asdict message) = message
  ∧ s' = ran.1
  ∧ outcome = match ran.2 with None => Handled | Some e => Raised e end.
Proof.
  intros Hvalue. unfold consume_one. rewrite Hvalue.
  assert (received (asdict message) = message) as -> by by destruct message.
  destruct (message_handler message (context_of msg) s) as [s' [e|]]; [|done].
  by case_bool_decide.
Qed.

End Facts.

(** *** A published event, consumed *)

Definition scan_event : @KafkaMessage string :=
  {| id := "a"; timestamp := "2024-01-01T00:00:00+00:00"; type := "scan_completed";
     source := "scanner"; data := Some (Application "a"); metadata := None |}.

Lemma published_message_reaches_handler_witness :
  let msg := on_topic "scan.completed" 0 (Some (asdict scan_event)) in
  let '(outcome, handled, _) :=
    consume_one (fixed_text "2024-01-01T00:00:05+00:00") (fixed_text "1704067205.0")
                (λ _, Delivered) choking_handler 5 msg 0 started_client in
  cr_value msg = Some (asdict scan_event)
  ∧ received (asdict scan_event) = scan_event
  ∧ handled = (choking_handler scan_event (context_of msg) 0).1
  ∧ outcome = Handled.
Proof.
  pose proof (published_message_reaches_handler
                (fixed_text "2024-01-01T00:00:05+00:00") (fixed_text "1704067205.0")
                (λ _, Delivered) choking_handler 5
                (on_topic "scan.completed" 0 (Some (asdict scan_event))) scan_event 0
                started_client eq_refl) as H.
  cbv zeta.
  destruct (consume_one _ _ _ _ _ _ _ _) as [[outcome handled] c].
  destruct H as (H1 & H2 & H3). split_and!; [reflexivity|exact H1|exact H2|exact H3].
Defined.

End KafkaFacts.


Module PipelineFacts.

Import Pipeline.

Section Facts.

Variable isoformat : Z → string.
Variable str_time : Z → string.
Variable int_time : Z → string.
Variable send_and_wait : nat → Kafka.SendOutcome.
Variable bracketed_netloc_ok : string → bool.
Variable croniter_get_next : string → Z → option Z.

Abbreviation trigger_scan :=
  (_trigger_scan isoformat str_time int_time send_and_wait bracketed_netloc_ok
                 croniter_get_next).
Abbreviation is_allowed := (RateLimiter.is_allowed bracketed_netloc_ok).
Abbreviation record_scan := (RateLimiter.record_scan bracketed_netloc_ok).
Abbreviation _extract_domain := (RateLimiter._extract_domain bracketed_netloc_ok).

Lemma update_scan_scheduled_keeps now config_id scan_job p :
  let p' := _update_scan_scheduled croniter_get_next now config_id scan_job p in
  active_configs p' = active_configs p ∧ marks p' = marks p ∧ kafka p' = kafka p
  ∧ scans_scheduled p' = scans_scheduled p
  ∧ scans_rate_limited p' = scans_rate_limited p
  ∧ last_error p' = last_error p.
Proof. unfold _update_scan_scheduled. by repeat case_match. Qed.

(** What a trigger that is published leaves: one delivered request on
    [scan.scheduled], and the mark of the rate limiter. *)
Lemma published_trigger now updated_at fresh_id config p :
  let p' := trigger_scan now updated_at fresh_id config p in
  scans_scheduled p' ≠ scans_scheduled p →
  is_allowed now (url config) 5 (marks p) = Some true
  ∧ Kafka.producer_started (kafka p) = true
  ∧ send_and_wait (length (Kafka.requests (kafka p))) = Kafka.Delivered
  ∧ record_scan now (url config) 5 (marks p) = Some (marks p')
  ∧ scans_scheduled p' = scans_scheduled p + 1
  ∧ scans_rate_limited p' = scans_rate_limited p.
Proof.
  cbn zeta. unfold _trigger_scan.
  destruct (RateLimiter.is_allowed _ now (url config) 5 (marks p)) as [[|]|]; [|done..].
  unfold Kafka.produce_message, Kafka.produce_unrouted.
  destruct (Kafka.producer_started (kafka p)); cbn [negb]; [|done].
  destruct (send_and_wait (length (Kafka.requests (kafka p)))) eqn:Hout;
    [|by case_bool_decide|done].
  cbn [with_kafka marks].
  destruct (RateLimiter.record_scan _ now (url config) 5 (marks p)) as [m|]; [|done].
  match goal with
  | |- context [_update_scan_scheduled ?f ?n ?i ?j ?q] =>
      pose proof (update_scan_scheduled_keeps n i j q) as (_ & -> & _ & -> & -> & _)
  end.
  cbn. intros _. split_and!; done.
Qed.

(** X19.  After a trigger that published its event, a trigger for a URL of the
    same network location within 300 seconds publishes nothing, writes nothing
    and only counts in [scans_rate_limited]; from 300 seconds on the rate
    limiter allows it again. *)
Theorem second_trigger_within_window
    now0 updated0 job0 config0 now updated_at job config p :
  let p1 := trigger_scan now0 updated0 job0 config0 p in
  scans_scheduled p1 = scans_scheduled p + 1 →
  _extract_domain (url config) = _extract_domain (url config0) →
  (now0 ≤ now)%Z →
  let p2 := trigger_scan now updated_at job config p1 in
  ((now < now0 + 300)%Z →
   kafka p2 = kafka p1 ∧ monitoring_configs p2 = monitoring_configs p1
   ∧ marks p2 = marks p1 ∧ scans_scheduled p2 = scans_scheduled p1
   ∧ scans_rate_limited p2 = scans_rate_limited p1 + 1)
  ∧ ((now0 + 300 ≤ now)%Z → is_allowed now (url config) 5 (marks p1) = Some true).
Proof.
  intros p1 Hcount Hdomain Hle p2.
  destruct (published_trigger now0 updated0 job0 config0 p) as (_ & _ & _ & Hmark & _).
  { fold p1. lia. }
  fold p1 in Hmark.
  pose proof (RateLimiter.default_throttle bracketed_netloc_ok now0 now (url config0)
                (url config) (marks p) (marks p1) (eq_sym Hdomain) Hmark Hle) as Hallowed.
  split.
  - intros Hlt. subst p2. unfold _trigger_scan. rewrite Hallowed.
    rewrite (proj2 (Z.ltb_lt _ _)) by lia. done.
  - intros Hge. rewrite Hallowed. by rewrite (proj2 (Z.ltb_ge _ _)) by lia.
Qed.

(** X20.  A trigger whose event is not delivered (the producer is not started,
    or the request fails) leaves the marks of the rate limiter, the table, the
    configs in memory and the counters of the pipeline as they were; on a
    started producer the failure is counted in [production_errors]. *)
Theorem failed_publish_leaves_no_trace now updated_at job config p :
  is_allowed now (url config) 5 (marks p) = Some true →
  Kafka.producer_started (kafka p) = false
  ∨ send_and_wait (length (Kafka.requests (kafka p))) ≠ Kafka.Delivered →
  let p' := trigger_scan now updated_at job config p in
  marks p' = marks p ∧ monitoring_configs p' = monitoring_configs p
  ∧ active_configs p' = active_configs p
  ∧ scans_scheduled p' = scans_scheduled p
  ∧ scans_rate_limited p' = scans_rate_limited p
  ∧ last_error p' = last_error p
  ∧ (Kafka.producer_started (kafka p) = true →
     (Kafka.production_errors (kafka p) < Kafka.production_errors (kafka p'))%nat).
Proof.
  intros Hallowed Hfail. cbn zeta. unfold _trigger_scan. rewrite Hallowed.
  unfold Kafka.produce_message, Kafka.produce_unrouted.
  destruct (Kafka.producer_started (kafka p)) eqn:Hstarted; cbn [negb]; [|done].
  destruct Hfail as [?|Hfail]; [done|].
  destruct (send_and_wait (length (Kafka.requests (kafka p)))) eqn:Hout; [done| |].
  - case_bool_decide; cbn [with_kafka marks monitoring_configs active_configs
      scans_scheduled scans_rate_limited last_error kafka]; (split_and!; try done);
      intros _.
    unfold Kafka._send_to_dlq, Kafka.produce_unrouted.
    cbn [Kafka.producer_started Kafka.count_production_error]. rewrite Hstarted.
    cbn [negb].
    match goal with |- context [send_and_wait ?n] => destruct (send_and_wait n) end;
      cbn; lia.
  - cbn. split_and!; try done. intros _. lia.
Qed.

End Facts.

(** *** Two triggers of one config, a minute apart *)

(** The trigger of [c] at instant [now], every request being accepted. *)
Definition trigger_at (now : Z) (c : MonitoringConfig) (p : State) : State :=
  _trigger_scan (Kafka.fixed_text "2024-01-01T14:00:00+00:00")
    (Kafka.fixed_text "1704117600.0") (Kafka.fixed_text "1704117600")
    (λ _, Kafka.Delivered) (λ _, true) (daily_next 0) now now
    "5a7c9e1b-3d5f-4a6c-8e0a-2c4e6a8c0e30" c p.

Lemma second_trigger_within_window_witness :
  let p := pipeline_with every_half_hour in
  let p1 := trigger_at trigger_instant every_half_hour p in
  let p2 := trigger_at (trigger_instant + 60) every_half_hour p1 in
  scans_scheduled p1 = scans_scheduled p + 1
  ∧ kafka p2 = kafka p1 ∧ monitoring_configs p2 = monitoring_configs p1
  ∧ marks p2 = marks p1 ∧ scans_scheduled p2 = scans_scheduled p1
  ∧ scans_rate_limited p2 = scans_rate_limited p1 + 1.
Proof.
  cbv zeta.
  assert (scans_scheduled (trigger_at trigger_instant every_half_hour
                                      (pipeline_with every_half_hour))
          = scans_scheduled (pipeline_with every_half_hour) + 1) as Hcount
    by (vm_compute; reflexivity).
  split; [exact Hcount|].
  apply (second_trigger_within_window
           (Kafka.fixed_text "2024-01-01T14:00:00+00:00")
           (Kafka.fixed_text "1704117600.0") (Kafka.fixed_text "1704117600")
           (λ _, Kafka.Delivered) (λ _, true) (daily_next 0)
           trigger_instant trigger_instant "5a7c9e1b-3d5f-4a6c-8e0a-2c4e6a8c0e30"
           every_half_hour (trigger_instant + 60) (trigger_instant + 60)
           "5a7c9e1b-3d5f-4a6c-8e0a-2c4e6a8c0e30" every_half_hour
           (pipeline_with every_half_hour) Hcount eq_refl); unfold trigger_instant; lia.
Defined.

(** *** A trigger while the cluster refuses the event *)

Lemma failed_publish_leaves_no_trace_witness :
  let p := pipeline_with every_half_hour in
  let refused : nat → Kafka.SendOutcome := λ _, Kafka.Kafka_error "broker down" in
  let p' :=
    _trigger_scan (Kafka.fixed_text "2024-01-01T14:00:00+00:00")
      (Kafka.fixed_text "1704117600.0") (Kafka.fixed_text "1704117600")
      refused (λ _, true) (daily_next 0) trigger_instant trigger_instant
      "5a7c9e1b-3d5f-4a6c-8e0a-2c4e6a8c0e30" every_half_hour p in
  RateLimiter.is_allowed (λ _, true) trigger_instant (url every_half_hour) 5 (marks p)
  = Some true
  ∧ refused (length (Kafka.requests (kafka p))) ≠ Kafka.Delivered
  ∧ marks p' = marks p ∧ monitoring_configs p' = monitoring_configs p
  ∧ scans_scheduled p' = scans_scheduled p
  ∧ Kafka.production_errors (kafka p') = 2.
Proof.
  cbv zeta.
  assert (RateLimiter.is_allowed (λ _, true) trigger_instant (url every_half_hour) 5
                                 (marks (pipeline_with every_half_hour)) = Some true)
    as Hallowed by (vm_compute; reflexivity).
  assert ((λ _ : nat, Kafka.Kafka_error "broker down")
            (length (Kafka.requests (kafka (pipeline_with every_half_hour))))
          ≠ Kafka.Delivered) as Hrefused by discriminate.
  split; [exact Hallowed|]. split; [exact Hrefused|].
  destruct (failed_publish_leaves_no_trace
              (Kafka.fixed_text "2024-01-01T14:00:00+00:00")
              (Kafka.fixed_text "1704117600.0") (Kafka.fixed_text "1704117600")
              (λ _, Kafka.Kafka_error "broker down") (λ _, true) (daily_next 0)
              trigger_instant trigger_instant "5a7c9e1b-3d5f-4a6c-8e0a-2c4e6a8c0e30"
              every_half_hour (pipeline_with every_half_hour) Hallowed
              (or_intror Hrefused)) as (Hm & Ht & _ & Hs & _).
  split; [exact Hm|]. split; [exact Ht|]. split; [exact Hs|].
  vm_compute. reflexivity.
Defined.

End PipelineFacts.


(** ** Loading and managing the monitoring configurations
    ([pipeline/monitoring_pipeline.py]) *)

Module Scheduling.

Import Pipeline.

(** The trigger of a job of the scheduler: [CronTrigger.from_crontab] with
    its time zone, or [IntervalTrigger]. *)
Inductive Trigger :=
| Cron_trigger (expression timezone : string)
| Interval_trigger (minutes : Z).

(** A job that runs [_trigger_scan]: its trigger and the config it was
    added with ([args=[config]]). *)
Record Job := {
  job_trigger : Trigger;
  job_config : MonitoringConfig }.

(** The pipeline with its scheduler: the jobs by id, and the counters the
    functions below keep. *)
Record Service := {
  core : Pipeline.State;
  jobs : gmap string Job;
  configs_loaded : nat;
  scans_completed : nat;
  scans_failed : nat }.

Definition with_core (p : Pipeline.State) (s : Service) : Service :=
  {| core := p; jobs := jobs s; configs_loaded := configs_loaded s;
     scans_completed := scans_completed s; scans_failed := scans_failed s |}.

Definition with_jobs (j : gmap string Job) (s : Service) : Service :=
  {| core := core s; jobs := j; configs_loaded := configs_loaded s;
     scans_completed := scans_completed s; scans_failed := scans_failed s |}.

Definition with_active_configs (a : gmap string MonitoringConfig) (p : Pipeline.State)
    : Pipeline.State :=
  {| active_configs := a; monitoring_configs := monitoring_configs p;
     marks := marks p; kafka := kafka p; scans_scheduled := scans_scheduled p;
     scans_rate_limited := scans_rate_limited p; last_error := last_error p |}.

Definition with_monitoring_configs (t : gmap Z MonitoringConfig) (p : Pipeline.State)
    : Pipeline.State :=
  {| active_configs := active_configs p; monitoring_configs := t;
     marks := marks p; kafka := kafka p; scans_scheduled := scans_scheduled p;
     scans_rate_limited := scans_rate_limited p; last_error := last_error p |}.

Section Configs.

(** Whether [CronTrigger.from_crontab(expression, timezone)] returns a
    trigger; it raises [ValueError] on an expression or a time zone it does
    not know. *)
Variable from_crontab_ok : string → string → bool.

Definition scan_job_id (config_id : string) : string := "scan_" +:+ config_id.

(** [_schedule_config]: the job of the config is removed and, when a
    trigger can be built from its schedule, added again. *)
Definition _schedule_config (config : MonitoringConfig) (jobs : gmap string Job)
    : gmap string Job :=
  let job_id := scan_job_id (id config) in
  let jobs := delete job_id jobs in
  let schedule := schedule config in
  if String.eqb (schedule_type schedule) "cron" then
    match expression schedule with
    | Some e =>
        let tz := default "UTC" (timezone schedule) in
        if from_crontab_ok e tz
        then <[job_id := {| job_trigger := Cron_trigger e tz; job_config := config |}]> jobs
        else jobs
    | None => jobs
    end
  else if String.eqb (schedule_type schedule) "interval" then
    <[job_id := {| job_trigger := Interval_trigger (default 60%Z (minutes schedule));
                   job_config := config |}]> jobs
  else jobs.

(** [str(row['organization_id'])]: the column holds the UUID of the text
    the row was inserted with. *)
Definition uuid_text (text : string) : string :=
  default text (Uuid.str <$> Uuid.UUID text).

(** The [MonitoringConfig] built from a row. *)
Definition config_of_row (key : Z) (row : MonitoringConfig) : MonitoringConfig :=
  {| id := Uuid.str key;
     organization_id := uuid_text (organization_id row);
     name := name row; url := url row; schedule := schedule row;
     scan_config := scan_config row; enabled := enabled row;
     last_scan_at := last_scan_at row; next_scan_at := next_scan_at row |}.

(** The rows of [SELECT ... WHERE enabled = true], as configs. *)
Definition enabled_configs (table : gmap Z MonitoringConfig) : list MonitoringConfig :=
  (λ kr, config_of_row kr.1 kr.2)
    <$> filter (λ kr, enabled kr.2 = true) (map_to_list table).

(** [_load_monitoring_configs] *)
Definition _load_monitoring_configs (s : Service) : Service :=
  let configs := enabled_configs (monitoring_configs (core s)) in
  let active := foldl (λ a config, <[id config := config]> a) ∅ configs in
  {| core := with_active_configs active (core s);
     jobs := foldl (λ j config, _schedule_config config j) (jobs s) configs;
     configs_loaded := size active;
     scans_completed := scans_completed s;
     scans_failed := scans_failed s |}.

(** [config_data], the argument of [add_monitoring_config]. *)
Record ConfigData := {
  data_organization_id : string;
  data_name : string;
  data_url : string;
  data_schedule : Schedule;
  data_scan_config : ScanOptions;
  data_enabled : option bool }.

(** [add_monitoring_config] with [fresh], the [uuid4] drawn for the
    config; [None] is the exception raised again (an organization id that
    is not the text of a UUID). *)
Definition add_monitoring_config (fresh : Z) (config_data : ConfigData) (s : Service)
    : option (string * Service) :=
  let config_id := Uuid.str fresh in
  key ← Uuid.UUID config_id;
  _ ← Uuid.UUID (data_organization_id config_data);
  let row :=
    {| id := config_id;
       organization_id := data_organization_id config_data;
       name := data_name config_data; url := data_url config_data;
       schedule := data_schedule config_data;
       scan_config := data_scan_config config_data;
       enabled := default true (data_enabled config_data);
       last_scan_at := None; next_scan_at := None |} in
  let table := <[key := row]> (monitoring_configs (core s)) in
  Some (config_id,
        _load_monitoring_configs (with_core (with_monitoring_configs table (core s)) s)).

(** The [updates] of [update_monitoring_config], for the columns the
    pipeline reads. *)
Record Updates := {
  upd_name : option string;
  upd_url : option string;
  upd_schedule : option Schedule;
  upd_scan_config : option ScanOptions;
  upd_enabled : option bool }.

Definition updated (updates : Updates) (row : MonitoringConfig) : MonitoringConfig :=
  {| id := id row; organization_id := organization_id row;
     name := default (name row) (upd_name updates);
     url := default (url row) (upd_url updates);
     schedule := default (schedule row) (upd_schedule updates);
     scan_config := default (scan_config row) (upd_scan_config updates);
     enabled := default (enabled row) (upd_enabled updates);
     last_scan_at := last_scan_at row; next_scan_at := next_scan_at row |}.

(** [update_monitoring_config]; [None] is the exception raised again (an
    id that is not the text of a UUID). *)
Definition update_monitoring_config (config_id : string) (updates : Updates) (s : Service)
    : option (bool * Service) :=
  key ← Uuid.UUID config_id;
  match monitoring_configs (core s) !! key with
  | Some row =>
      let table := <[key := updated updates row]> (monitoring_configs (core s)) in
      Some (true,
            _load_monitoring_configs (with_core (with_monitoring_configs table (core s)) s))
  | None => Some (false, s)
  end.

(** [delete_monitoring_config]: the job is removed first; an id that is
    not the text of a UUID then raises ([None] in the first component),
    the job staying removed. *)
Definition delete_monitoring_config (config_id : string) (s : Service)
    : option bool * Service :=
  let s1 := with_jobs (delete (scan_job_id config_id) (jobs s)) s in
  match Uuid.UUID config_id with
  | Some key =>
      match monitoring_configs (core s1) !! key with
      | Some _ =>
          let p :=
            with_active_configs (delete config_id (active_configs (core s1)))
              (with_monitoring_configs (delete key (monitoring_configs (core s1)))
                                       (core s1)) in
          (Some true, with_core p s1)
      | None => (Some false, s1)
      end
  | None => (None, s1)
  end.

Definition with_last_scan_at (t : Z) (c : MonitoringConfig) : MonitoringConfig :=
  {| id := id c; organization_id := organization_id c; name := name c; url := url c;
     schedule := schedule c; scan_config := scan_config c; enabled := enabled c;
     last_scan_at := Some t; next_scan_at := next_scan_at c |}.

(** [_handle_scan_completed] of the pipeline, for the [config_id] and the
    [scan_id] of a [scan.completed] event received at instant [now]. *)
Definition _handle_scan_completed (now : Z) (config_id scan_id : option string)
    (s : Service) : Service :=
  if negb (Py.truthy_opt config_id) || negb (Py.truthy_opt scan_id) then s
  else
    let s1 :=
      {| core := core s; jobs := jobs s; configs_loaded := configs_loaded s;
         scans_completed := scans_completed s + 1; scans_failed := scans_failed s |} in
    match Uuid.UUID_opt config_id with
    | Some key =>
        with_core (with_monitoring_configs
                     (alter (with_last_scan_at now) key (monitoring_configs (core s1)))
                     (core s1)) s1
    | None =>
        {| core := core s1; jobs := jobs s1; configs_loaded := configs_loaded s1;
           scans_completed := scans_completed s1; scans_failed := scans_failed s1 + 1 |}
    end.


(** *** What a load leaves in memory *)

(** The keys of a table are UUIDs. *)
Definition valid_keys (table : gmap Z MonitoringConfig) : Prop :=
  ∀ key, is_Some (table !! key) → (0 ≤ key < 2 ^ 128)%Z.

Lemma str_inj u v :
  (0 ≤ u < 2 ^ 128)%Z → (0 ≤ v < 2 ^ 128)%Z → Uuid.str u = Uuid.str v → u = v.
Proof.
  intros Hu%Uuid.UUID_str Hv%Uuid.UUID_str Heq. rewrite Heq in Hu. congruence.
Qed.

Lemma scan_job_id_inj a b : scan_job_id a = scan_job_id b → a = b.
Proof. unfold scan_job_id. cbv [String.append]. by intros [= ->]. Qed.

Lemma enabled_configs_elem table c :
  c ∈ enabled_configs table ↔
  ∃ key row, table !! key = Some row ∧ enabled row = true ∧ c = config_of_row key row.
Proof.
  unfold enabled_configs. rewrite list_elem_of_fmap. split.
  - intros ([key row] & -> & [Hen Hin%elem_of_map_to_list]%list_elem_of_filter).
    by exists key, row.
  - intros (key & row & Hrow & Hen & ->). exists (key, row). split; [done|].
    apply list_elem_of_filter. split; [done|]. by apply elem_of_map_to_list.
Qed.

Lemma enabled_configs_NoDup table :
  valid_keys table → NoDup (id <$> enabled_configs table).
Proof.
  intros Hvalid. unfold enabled_configs. rewrite <- list_fmap_compose.
  apply NoDup_fmap_2_strong; [|apply NoDup_filter, NoDup_map_to_list].
  intros [k1 r1] [k2 r2] [_ H1%elem_of_map_to_list]%list_elem_of_filter
    [_ H2%elem_of_map_to_list]%list_elem_of_filter Heq.
  cbn in Heq. apply str_inj in Heq; [|apply Hvalid; by eexists..].
  subst. by simplify_eq.
Qed.

Lemma foldl_insert_lookup (configs : list MonitoringConfig)
    (a : gmap string MonitoringConfig) text :
  NoDup (id <$> configs) →
  foldl (λ a config, <[id config := config]> a) a configs !! text
  = match List.find (λ c, String.eqb (id c) text) configs with
    | Some c => Some c
    | None => a !! text
    end.
Proof.
  revert a. induction configs as [|c configs IH]; intros a Hnd; [done|].
  apply NoDup_cons in Hnd as [Hc Hnd]. cbn [foldl List.find]. rewrite IH by done.
  destruct (String.eqb (id c) text) eqn:Heq.
  - apply String.eqb_eq in Heq. subst text.
    destruct (List.find _ configs) as [c'|] eqn:Hfind.
    + apply find_some in Hfind as [Hin Heq%String.eqb_eq]. destruct Hc.
      apply list_elem_of_fmap. exists c'. split; [done|]. by apply list_elem_of_In.
    + by rewrite lookup_insert_eq.
  - apply String.eqb_neq in Heq. destruct (List.find _ configs); [done|].
    by rewrite lookup_insert_ne.
Qed.

Lemma foldl_insert_size (configs : list MonitoringConfig) :
  NoDup (id <$> configs) →
  size (foldl (λ a config, <[id config := config]> a)
              (∅ : gmap string MonitoringConfig) configs) = length configs.
Proof.
  intros Hnd.
  assert (∀ a : gmap string MonitoringConfig,
            (∀ c, c ∈ configs → a !! id c = None) →
            size (foldl (λ a config, <[id config := config]> a) a configs)
            = size a + length configs) as H.
  { induction configs as [|c configs IH]; intros a Ha; [cbn; lia|].
    apply NoDup_cons in Hnd as [Hc Hnd]. cbn [foldl length]. rewrite IH; [|done|].
    - rewrite map_size_insert_None by (apply Ha; left). lia.
    - intros c' Hin. rewrite lookup_insert_ne; [apply Ha; by right|].
      intros Heq. apply Hc. apply list_elem_of_fmap. by exists c'. }
  rewrite H; [by rewrite map_size_empty|]. intros. apply lookup_empty.
Qed.

Lemma active_after_load s text c :
  valid_keys (monitoring_configs (core s)) →
  active_configs (core (_load_monitoring_configs s)) !! text = Some c
  ↔ ∃ key row, monitoring_configs (core s) !! key = Some row ∧ enabled row = true
               ∧ text = Uuid.str key ∧ c = config_of_row key row.
Proof.
  intros Hvalid. cbn [_load_monitoring_configs core with_active_configs active_configs].
  rewrite foldl_insert_lookup by by apply enabled_configs_NoDup.
  rewrite lookup_empty. split.
  - destruct (List.find _ _) as [c'|] eqn:Hfind; [|done]. intros [= ->].
    apply find_some in Hfind as [Hin%list_elem_of_In Heq%String.eqb_eq].
    apply enabled_configs_elem in Hin as (key & row & ? & ? & ->).
    by exists key, row.
  - intros (key & row & Hrow & Hen & -> & ->).
    destruct (List.find _ _) as [c'|] eqn:Hfind.
    + apply find_some in Hfind as [Hin%list_elem_of_In Heq%String.eqb_eq].
      apply enabled_configs_elem in Hin as (key' & row' & Hrow' & ? & ->).
      change (id (config_of_row key' row')) with (Uuid.str key') in Heq.
      apply str_inj in Heq; [|apply Hvalid; by eexists..].
      subst. by simplify_eq.
    + eapply find_none in Hfind; [|apply list_elem_of_In, enabled_configs_elem; eauto].
      cbn beta in Hfind. change (id (config_of_row key row)) with (Uuid.str key) in Hfind.
      by rewrite String.eqb_refl in Hfind.
Qed.

(** X21.  After [_load_monitoring_configs] the configs in memory are exactly the
    enabled rows of the table, each under the canonical text of its key;
    [configs_loaded] is their number and the table is as it was. *)
Theorem load_holds_the_enabled_rows s :
  valid_keys (monitoring_configs (core s)) →
  let table := monitoring_configs (core s) in
  let s' := _load_monitoring_configs s in
  (∀ text c,
     active_configs (core s') !! text = Some c
     ↔ ∃ key row, table !! key = Some row ∧ enabled row = true
                  ∧ text = Uuid.str key ∧ c = config_of_row key row)
  ∧ configs_loaded s' = size (filter (λ kr, enabled kr.2 = true) table)
  ∧ monitoring_configs (core s') = table.
Proof.
  intros Hvalid table s'. split_and!; [|  |done].
  - intros text c. by apply active_after_load.
  - subst s' table. cbn [_load_monitoring_configs configs_loaded].
    rewrite foldl_insert_size by by apply enabled_configs_NoDup.
    unfold enabled_configs. rewrite length_fmap.
    rewrite map_filter_alt, map_size_list_to_map; [done|].
    apply NoDup_fmap_fst; [|apply NoDup_filter, NoDup_map_to_list].
    intros k r1 r2 [_ H1%elem_of_map_to_list]%list_elem_of_filter
      [_ H2%elem_of_map_to_list]%list_elem_of_filter. congruence.
Qed.


(** *** The jobs a load leaves *)

Lemma schedule_config_other config jobs j :
  j ≠ scan_job_id (id config) → _schedule_config config jobs !! j = jobs !! j.
Proof.
  intros Hne. unfold _schedule_config.
  repeat case_match; rewrite ?lookup_insert_ne by done; by rewrite lookup_delete_ne.
Qed.

Lemma schedule_configs_other configs jobs j :
  (∀ c, c ∈ configs → j ≠ scan_job_id (id c)) →
  foldl (λ j config, _schedule_config config j) jobs configs !! j = jobs !! j.
Proof.
  revert jobs. induction configs as [|c configs IH]; intros jobs Hne; [done|].
  cbn [foldl]. rewrite IH by (intros; apply Hne; by right).
  apply schedule_config_other, Hne. left.
Qed.

Lemma load_keeps_other_jobs s j :
  (∀ key row, monitoring_configs (core s) !! key = Some row → enabled row = true →
              j ≠ scan_job_id (Uuid.str key)) →
  jobs (_load_monitoring_configs s) !! j = jobs s !! j.
Proof.
  intros Hne. cbn [_load_monitoring_configs jobs]. apply schedule_configs_other.
  intros c (key & row & Hrow & Hen & ->)%enabled_configs_elem. by eapply Hne.
Qed.

(** The updates that only disable a config. *)
Definition disable : Updates :=
  {| upd_name := None; upd_url := None; upd_schedule := None; upd_scan_config := None;
     upd_enabled := Some false |}.

(** X22.  Disabling a config with [update_monitoring_config] takes it out of the
    configs in memory but leaves its job in the scheduler as it was. *)
Theorem disabled_config_keeps_its_job key row s :
  valid_keys (monitoring_configs (core s)) →
  monitoring_configs (core s) !! key = Some row →
  ∃ s', update_monitoring_config (Uuid.str key) disable s = Some (true, s')
        ∧ (enabled <$> monitoring_configs (core s') !! key) = Some false
        ∧ active_configs (core s') !! Uuid.str key = None
        ∧ jobs s' !! scan_job_id (Uuid.str key) = jobs s !! scan_job_id (Uuid.str key).
Proof.
  intros Hvalid Hrow.
  assert (0 ≤ key < 2 ^ 128)%Z as Hkey by (apply Hvalid; by eexists).
  unfold update_monitoring_config. rewrite (Uuid.UUID_str key Hkey).
  cbn [mbind option_bind]. rewrite Hrow. eexists. split; [done|].
  set (table := <[key := updated disable row]> (monitoring_configs (core s))).
  assert (valid_keys table) as Hvalid'.
  { intros k [r Hr]. subst table. destruct (decide (k = key)) as [->|Hne]; [done|].
    rewrite lookup_insert_ne in Hr by done. apply Hvalid. by eexists. }
  split_and!.
  - cbn. subst table. by rewrite lookup_insert_eq.
  - destruct (active_configs _ !! Uuid.str key) as [c|] eqn:Hc; [|done].
    apply active_after_load in Hc as (key' & row' & Hrow' & Hen & Heq & _); [|done].
    cbn in Hrow'. apply str_inj in Heq; [|done|apply Hvalid'; by eexists]. subst key'.
    subst table. rewrite lookup_insert_eq in Hrow'. by simplify_eq.
  - rewrite load_keeps_other_jobs; [done|].
    intros key' row' Hrow' Hen Heq%scan_job_id_inj. cbn in Hrow'.
    apply str_inj in Heq; [|done|apply Hvalid'; by eexists]. subst key'.
    subst table. rewrite lookup_insert_eq in Hrow'. by simplify_eq.
Qed.

(** X23.  [add_monitoring_config] with an organization id that is the text of a
    UUID returns the text of the fresh id, stores the row with the given data
    and, when the config is enabled (the default), holds it in memory under that
    text. *)
Theorem added_config_is_loaded fresh config_data org s :
  (0 ≤ fresh < 2 ^ 128)%Z →
  valid_keys (monitoring_configs (core s)) →
  Uuid.UUID (data_organization_id config_data) = Some org →
  ∃ s', add_monitoring_config fresh config_data s = Some (Uuid.str fresh, s')
    ∧ (∃ row, monitoring_configs (core s') !! fresh = Some row
              ∧ name row = data_name config_data ∧ url row = data_url config_data
              ∧ schedule row = data_schedule config_data
              ∧ scan_config row = data_scan_config config_data
              ∧ enabled row = default true (data_enabled config_data))
    ∧ active_configs (core s') !! Uuid.str fresh
      = (if default true (data_enabled config_data)
         then Some {| id := Uuid.str fresh; organization_id := Uuid.str org;
                      name := data_name config_data; url := data_url config_data;
                      schedule := data_schedule config_data;
                      scan_config := data_scan_config config_data;
                      enabled := true; last_scan_at := None; next_scan_at := None |}
         else None).
Proof.
  intros Hfresh Hvalid Horg. unfold add_monitoring_config.
  rewrite (Uuid.UUID_str fresh Hfresh), Horg. cbn [mbind option_bind].
  eexists. split; [done|].
  match goal with
  | |- context [<[fresh := ?r]> (monitoring_configs (core s))] =>
      set (row := r); set (table := <[fresh := r]> (monitoring_configs (core s)))
  end.
  assert (valid_keys table) as Hvalid'.
  { intros k [r Hr]. subst table. destruct (decide (k = fresh)) as [->|Hne]; [done|].
    rewrite lookup_insert_ne in Hr by done. apply Hvalid. by eexists. }
  assert (table !! fresh = Some row) as Hrow by (subst table; by rewrite lookup_insert_eq).
  split.
  - exists row. by split_and!.
  - destruct (default true (data_enabled config_data)) eqn:Hen.
    + apply active_after_load; [done|]. exists fresh, row. split_and!; [done..|].
      unfold config_of_row, uuid_text. subst row.
      cbn [organization_id name url schedule scan_config enabled last_scan_at next_scan_at].
      rewrite Horg. done.
    + destruct (active_configs _ !! Uuid.str fresh) as [c|] eqn:Hc; [|done].
      apply active_after_load in Hc as (key' & row' & Hrow' & Hen' & Heq & _); [|done].
      cbn in Hrow'. apply str_inj in Heq; [|done|apply Hvalid'; by eexists]. subst key'.
      rewrite lookup_insert_eq in Hrow'. by simplify_eq.
Qed.

(** X24.  [delete_monitoring_config] with any spelling of the id of a stored
    config deletes its row and returns true; with the canonical spelling the
    config in memory and its job are removed, with another spelling (capital
    letters, braces) both stay as they were. *)
Theorem delete_by_spelling text key row s :
  Uuid.UUID text = Some key →
  monitoring_configs (core s) !! key = Some row →
  let '(result, s') := delete_monitoring_config text s in
  result = Some true
  ∧ monitoring_configs (core s') = delete key (monitoring_configs (core s))
  ∧ (text = Uuid.str key →
     active_configs (core s') !! Uuid.str key = None
     ∧ jobs s' !! scan_job_id (Uuid.str key) = None)
  ∧ (text ≠ Uuid.str key →
     active_configs (core s') !! Uuid.str key = active_configs (core s) !! Uuid.str key
     ∧ jobs s' !! scan_job_id (Uuid.str key) = jobs s !! scan_job_id (Uuid.str key)).
Proof.
  intros Hid Hrow. unfold delete_monitoring_config. rewrite Hid.
  cbn [with_jobs core]. rewrite Hrow.
  cbn [with_core with_jobs core jobs with_active_configs with_monitoring_configs
       active_configs monitoring_configs].
  split_and!; [done..| |].
  - intros ->. by rewrite !lookup_delete_eq.
  - intros Hne. rewrite !lookup_delete_ne; [done| |done].
    by intros ?%scan_job_id_inj.
Qed.

(** X25.  A [scan.completed] event for a stored, enabled config counts in
    [scans_completed] and sets [last_scan_at] in the table; the configs in
    memory are left as they were, and hold the new [last_scan_at] after the next
    load. *)
Theorem completed_scan_reaches_memory_at_the_next_load now key row scan_id s :
  valid_keys (monitoring_configs (core s)) →
  monitoring_configs (core s) !! key = Some row → enabled row = true →
  Py.truthy scan_id = true →
  let s1 := _handle_scan_completed now (Some (Uuid.str key)) (Some scan_id) s in
  scans_completed s1 = scans_completed s + 1 ∧ scans_failed s1 = scans_failed s
  ∧ (last_scan_at <$> monitoring_configs (core s1) !! key) = Some (Some now)
  ∧ active_configs (core s1) = active_configs (core s)
  ∧ (last_scan_at <$> active_configs (core (_load_monitoring_configs s1)) !! Uuid.str key)
    = Some (Some now).
Proof.
  intros Hvalid Hrow Hen Hscan.
  assert (0 ≤ key < 2 ^ 128)%Z as Hkey by (apply Hvalid; by eexists).
  cbn zeta. unfold _handle_scan_completed.
  assert (Py.truthy (Uuid.str key) = true) as Htext.
  { pose proof (Uuid.UUID_str key Hkey) as H. by destruct (Uuid.str key). }
  cbn [Py.truthy_opt]. rewrite Htext, Hscan. cbn [negb orb Uuid.UUID_opt mbind option_bind].
  rewrite (Uuid.UUID_str key Hkey).
  cbn [with_core core scans_completed scans_failed with_monitoring_configs
       monitoring_configs active_configs].
  split_and!; [done..| |done|].
  - by rewrite lookup_alter_eq, Hrow.
  - match goal with
    | |- context [_load_monitoring_configs ?s0] =>
        pose proof (active_after_load s0 (Uuid.str key)) as Hload
    end.
    cbn [with_core core with_monitoring_configs monitoring_configs] in Hload.
    match type of Hload with
    | ∀ c, valid_keys ?t → _ => assert (valid_keys t) as Hvalid'
    end.
    { intros k [r Hr]. apply Hvalid. destruct (decide (k = key)) as [->|Hne]; [by eexists|].
      rewrite lookup_alter_ne in Hr by done. by eexists. }
    rewrite (proj2 (Hload (config_of_row key (with_last_scan_at now row)) Hvalid'));
      [done|].
    exists key, (with_last_scan_at now row). by rewrite lookup_alter_eq, Hrow.
Qed.

End Configs.

(** *** One config in the table *)

(** The key of the row of [every_half_hour]. *)
Definition half_hour_key : Z := 0x91e3c5a72b4d4f6a8c0e3a5b7c9d1e20.

(** A service whose table holds [c] under [key], with nothing loaded and
    no job. *)
Definition one_config (key : Z) (c : MonitoringConfig) : Service :=
  {| core := with_monitoring_configs {[key := c]} (with_active_configs ∅ (pipeline_with c));
     jobs := ∅; configs_loaded := 0; scans_completed := 0; scans_failed := 0 |}.

(** That service once started: its configs are loaded and scheduled,
    every crontab expression being accepted. *)
Definition started (key : Z) (c : MonitoringConfig) : Service :=
  _load_monitoring_configs (λ _ _, true) (one_config key c).

Lemma half_hour_key_range : (0 ≤ half_hour_key < 2 ^ 128)%Z.
Proof. by vm_compute. Qed.

Lemma valid_keys_singleton key c :
  (0 ≤ key < 2 ^ 128)%Z → valid_keys ({[key := c]} : gmap Z MonitoringConfig).
Proof. by intros Hkey k [r [<- _]%lookup_singleton_Some]. Qed.

Lemma load_holds_the_enabled_rows_witness :
  let s := one_config half_hour_key every_half_hour in
  let s' := _load_monitoring_configs (λ _ _, true) s in
  valid_keys (monitoring_configs (core s))
  ∧ (∀ text c,
       active_configs (core s') !! text = Some c
       ↔ ∃ key row, monitoring_configs (core s) !! key = Some row ∧ enabled row = true
                    ∧ text = Uuid.str key ∧ c = config_of_row key row)
  ∧ configs_loaded s' = size (filter (λ kr, enabled kr.2 = true) (monitoring_configs (core s)))
  ∧ monitoring_configs (core s') = monitoring_configs (core s).
Proof.
  cbv zeta.
  assert (valid_keys (monitoring_configs (core (one_config half_hour_key every_half_hour))))
    as Hvalid by apply valid_keys_singleton, half_hour_key_range.
  split; [exact Hvalid|].
  exact (load_holds_the_enabled_rows (λ _ _, true) _ Hvalid).
Defined.

Lemma disabled_config_keeps_its_job_witness :
  let s := started half_hour_key every_half_hour in
  valid_keys (monitoring_configs (core s))
  ∧ monitoring_configs (core s) !! half_hour_key = Some every_half_hour
  ∧ (job_trigger <$> jobs s !! scan_job_id (Uuid.str half_hour_key))
    = Some (Interval_trigger 30)
  ∧ ∃ s', update_monitoring_config (λ _ _, true) (Uuid.str half_hour_key) disable s
          = Some (true, s')
          ∧ (enabled <$> monitoring_configs (core s') !! half_hour_key) = Some false
          ∧ active_configs (core s') !! Uuid.str half_hour_key = None
          ∧ jobs s' !! scan_job_id (Uuid.str half_hour_key)
            = jobs s !! scan_job_id (Uuid.str half_hour_key).
Proof.
  cbv zeta.
  assert (valid_keys (monitoring_configs (core (started half_hour_key every_half_hour))))
    as Hvalid by apply valid_keys_singleton, half_hour_key_range.
  assert (monitoring_configs (core (started half_hour_key every_half_hour)) !! half_hour_key
          = Some every_half_hour) as Hrow by apply lookup_singleton_eq.
  split; [exact Hvalid|]. split; [exact Hrow|]. split; [vm_compute; reflexivity|].
  exact (disabled_config_keeps_its_job (λ _ _, true) _ _ _ Hvalid Hrow).
Defined.

(** *** A config added beside it *)

Definition nightly : ConfigData :=
  {| data_organization_id := "2d4f6a8c-0e1b-4c3d-9a5f-7b9d1e3f5a70";
     data_name := "nightly"; data_url := "https://example.net/";
     data_schedule := {| schedule_type := "cron"; expression := Some "0 3 * * *";
                         timezone := None; minutes := None |};
     data_scan_config := {| priority := None |};
     data_enabled := None |}.

Definition nightly_key : Z := 0x5a7c9e1b3d5f4a6c8e0a2c4e6a8c0e30.

Definition organization_key : Z := 0x2d4f6a8c0e1b4c3d9a5f7b9d1e3f5a70.

Lemma added_config_is_loaded_witness :
  let s := started half_hour_key every_half_hour in
  (0 ≤ nightly_key < 2 ^ 128)%Z
  ∧ valid_keys (monitoring_configs (core s))
  ∧ Uuid.UUID (data_organization_id nightly) = Some organization_key
  ∧ ∃ s', add_monitoring_config (λ _ _, true) nightly_key nightly s
          = Some (Uuid.str nightly_key, s')
          ∧ (∃ row, monitoring_configs (core s') !! nightly_key = Some row
                    ∧ name row = "nightly" ∧ url row = "https://example.net/"
                    ∧ schedule row = data_schedule nightly
                    ∧ scan_config row = data_scan_config nightly
                    ∧ enabled row = true)
          ∧ active_configs (core s') !! Uuid.str nightly_key
            = Some {| id := Uuid.str nightly_key;
                      organization_id := Uuid.str organization_key;
                      name := "nightly"; url := "https://example.net/";
                      schedule := data_schedule nightly;
                      scan_config := data_scan_config nightly;
                      enabled := true; last_scan_at := None; next_scan_at := None |}.
Proof.
  cbv zeta.
  assert (0 ≤ nightly_key < 2 ^ 128)%Z as Hfresh by by vm_compute.
  assert (valid_keys (monitoring_configs (core (started half_hour_key every_half_hour))))
    as Hvalid by apply valid_keys_singleton, half_hour_key_range.
  assert (Uuid.UUID (data_organization_id nightly) = Some organization_key) as Horg
    by (vm_compute; reflexivity).
  split; [exact Hfresh|]. split; [exact Hvalid|]. split; [exact Horg|].
  exact (added_config_is_loaded (λ _ _, true) _ _ _ _ Hfresh Hvalid Horg).
Defined.

(** *** The same id in capital letters *)

Lemma delete_by_spelling_witness :
  let s := started half_hour_key every_half_hour in
  let text := "91E3C5A7-2B4D-4F6A-8C0E-3A5B7C9D1E20" in
  let '(result, s') := delete_monitoring_config text s in
  Uuid.UUID text = Some half_hour_key
  ∧ monitoring_configs (core s) !! half_hour_key = Some every_half_hour
  ∧ result = Some true
  ∧ monitoring_configs (core s') = delete half_hour_key (monitoring_configs (core s))
  ∧ (text = Uuid.str half_hour_key →
     active_configs (core s') !! Uuid.str half_hour_key = None
     ∧ jobs s' !! scan_job_id (Uuid.str half_hour_key) = None)
  ∧ (text ≠ Uuid.str half_hour_key →
     active_configs (core s') !! Uuid.str half_hour_key
     = active_configs (core s) !! Uuid.str half_hour_key
     ∧ jobs s' !! scan_job_id (Uuid.str half_hour_key)
       = jobs s !! scan_job_id (Uuid.str half_hour_key)).
Proof.
  cbv zeta.
  assert (Uuid.UUID "91E3C5A7-2B4D-4F6A-8C0E-3A5B7C9D1E20" = Some half_hour_key) as Hid
    by (vm_compute; reflexivity).
  assert (monitoring_configs (core (started half_hour_key every_half_hour)) !! half_hour_key
          = Some every_half_hour) as Hrow by apply lookup_singleton_eq.
  pose proof (delete_by_spelling _ _ _ _ Hid Hrow) as H.
  destruct (delete_monitoring_config _ _) as [result s'].
  split; [exact Hid|]. split; [exact Hrow|]. exact H.
Defined.

(** *** A scan of it completes *)

Lemma completed_scan_reaches_memory_at_the_next_load_witness :
  let s := started half_hour_key every_half_hour in
  let s1 :=
    _handle_scan_completed trigger_instant (Some (Uuid.str half_hour_key))
                           (Some "0b7e41d2-93c8-4f5a-8a6e-5d1c2f3a4b01") s in
  valid_keys (monitoring_configs (core s))
  ∧ monitoring_configs (core s) !! half_hour_key = Some every_half_hour
  ∧ scans_completed s1 = scans_completed s + 1 ∧ scans_failed s1 = scans_failed s
  ∧ (last_scan_at <$> monitoring_configs (core s1) !! half_hour_key)
    = Some (Some trigger_instant)
  ∧ active_configs (core s1) = active_configs (core s)
  ∧ (last_scan_at
       <$> active_configs (core (_load_monitoring_configs (λ _ _, true) s1))
           !! Uuid.str half_hour_key)
    = Some (Some trigger_instant).
Proof.
  cbv zeta.
  assert (valid_keys (monitoring_configs (core (started half_hour_key every_half_hour))))
    as Hvalid by apply valid_keys_singleton, half_hour_key_range.
  assert (monitoring_configs (core (started half_hour_key every_half_hour)) !! half_hour_key
          = Some every_half_hour) as Hrow by apply lookup_singleton_eq.
  split; [exact Hvalid|]. split; [exact Hrow|].
  exact (completed_scan_reaches_memory_at_the_next_load (λ _ _, true) trigger_instant _ _
           "0b7e41d2-93c8-4f5a-8a6e-5d1c2f3a4b01" _ Hvalid Hrow eq_refl eq_refl).
Defined.

End Scheduling.


(** ** Alert rules ([alerting/alert_engine.py]) *)

Module AlertRules.

Import ChangeDetector.

(** The [conditions] of a rule: the keys the matchers below read.  A field
    of type [option] is a key that may be absent; [degradation_only] is the
    truth value of its key. *)
Record Conditions := {
  cond_type : option string;
  cond_technologies : option (list string);
  cond_change_types : option (list string);
  cond_min_impact : option string;
  cond_metrics : option (list string);
  cond_min_change_percent : option Q;
  cond_degradation_only : bool;
  cond_min_severity : option string;
  cond_vulnerability_types : option (list string) }.

(** The keys of a change the matchers read, with their defaults. *)
Definition get_metric_name (c : Change) : option string :=
  match c with Performance_change p => Some (pc_metric_name p) | _ => None end.

Definition get_is_degradation (c : Change) : bool :=
  match c with Performance_change p => pc_is_degradation p | _ => false end.

Definition get_impact_assessment (c : Change) : string :=
  match c with Technology_change t => tc_impact_assessment t | _ => "low" end.

Definition get_vulnerability_type (c : Change) : option string :=
  match c with Security_change s => sc_vulnerability_type s | _ => None end.

(** The levels of an impact or of a severity, and [levels.index(x)];
    [None] stands for [ValueError]. *)
Definition levels : list string := ["low"; "medium"; "high"; "critical"].

Definition index (x : string) : option nat := fst <$> list_find (λ l, l = x) levels.

(** [_match_technology_condition]; [None] is an exception. *)
Definition _match_technology_condition (conditions : Conditions) (change_details : Change)
    : option bool :=
  if negb (String.eqb (get_type change_details) "technology_change") then Some false
  else
    let tech_name := Py.lower (get_technology_name change_details) in
    if match cond_technologies conditions with
       | Some technologies =>
           negb (existsb (λ tech, Py.contains (Py.lower tech) tech_name) technologies)
       | None => false
       end then Some false
    else if match cond_change_types conditions with
            | Some change_types =>
                negb (bool_decide (get_change_type change_details ∈ Some <$> change_types))
            | None => false
            end then Some false
    else
      match cond_min_impact conditions with
      | Some min_impact =>
          min_impact_idx ← index min_impact;
          actual_impact_idx ← index (get_impact_assessment change_details);
          Some (negb (actual_impact_idx <? min_impact_idx)%nat)
      | None => Some true
      end.

(** [_match_performance_condition] *)
Definition _match_performance_condition (conditions : Conditions) (change_details : Change)
    : bool :=
  if negb (String.eqb (get_type change_details) "performance_change") then false
  else if match cond_metrics conditions with
          | Some metrics =>
              negb (bool_decide (get_metric_name change_details ∈ Some <$> metrics))
          | None => false
          end then false
  else if match cond_min_change_percent conditions with
          | Some min_change_percent =>
              Qltb (Qabs (default 0%Q (get_change_percent change_details)))
                   min_change_percent
          | None => false
          end then false
  else if cond_degradation_only conditions && negb (get_is_degradation change_details)
  then false
  else true.

(** [_match_security_condition]; [None] is an exception. *)
Definition _match_security_condition (conditions : Conditions) (change_details : Change)
    : option bool :=
  if negb (String.eqb (get_type change_details) "security_change") then Some false
  else
    below ← match cond_min_severity conditions with
            | Some min_severity =>
                min_severity_idx ← index min_severity;
                actual_severity_idx ← index (default "low" (get_severity change_details));
                Some (actual_severity_idx <? min_severity_idx)%nat
            | None => Some false
            end;
    if below : bool then Some false
    else if match cond_vulnerability_types conditions with
            | Some vulnerability_types =>
                negb (bool_decide (get_vulnerability_type change_details
                                   ∈ Some <$> vulnerability_types))
            | None => false
            end then Some false
    else Some true.

Section Rules.

Context {Settings : Type}.

(** What the declaration of [monitoring_alerts] gives the columns the
    [INSERT] of an alert does not name. *)
Context {column_defaults : AlertEngine.ColumnDefaults}.

Abbreviation AlertRule := (@AlertEngine.AlertRule Conditions Settings).

(** [_match_simple_condition], which compares any keys of the change, and
    [_evaluate_expression], which evaluates Python source: what they answer
    for given conditions and a given change. *)
Variable _match_simple_condition : Conditions → Change → bool.
Variable _evaluate_expression : Conditions → Change → bool.

(** [_evaluate_rule], with the counter [rules_evaluated]: an exception in
    a matcher is the answer [False]. *)
Definition _evaluate_rule (rule : AlertRule) (change_details : Change)
    (rules_evaluated : nat) : bool * nat :=
  if negb (AlertEngine.rule_enabled rule) then (false, rules_evaluated)
  else
    (match AlertEngine.conditions rule with
     | Some conditions =>
         match cond_type conditions with
         | Some ty =>
             if String.eqb ty "simple" then _match_simple_condition conditions change_details
             else if String.eqb ty "expression"
             then _evaluate_expression conditions change_details
             else if String.eqb ty "technology"
             then default false (_match_technology_condition conditions change_details)
             else if String.eqb ty "performance"
             then _match_performance_condition conditions change_details
             else if String.eqb ty "security"
             then default false (_match_security_condition conditions change_details)
             else false
         | None => false
         end
     | None => false
     end,
     rules_evaluated + 1).


(** *** The handler of [change.detected] *)

(** The [data] of an [alert.triggered] event. *)
Record AlertTriggered := {
  at_alert_id : string;
  at_config_id : string;
  at_alert_type : string;
  at_severity : string;
  at_details : Change;
  at_triggered_at : string }.

(** The engine, with what the handler uses besides the state of
    [AlertEngine]: the bus client, the [alert_rules] column of
    [monitoring_configs] and two counters. *)
Record Engine := {
  state : @AlertEngine.State Settings;
  kafka : @Kafka.Client AlertTriggered;
  alert_rules : gmap Z (list (@AlertEngine.RuleData Conditions Settings));
  rules_evaluated : nat;
  alerts_triggered : nat }.

Variable _generate_alert_title : AlertRule → Change → string.
Variable _generate_alert_description : AlertRule → Change → string.
Variable isoformat : Z → string.
Variable str_time : Z → string.
Variable send_and_wait : nat → Kafka.SendOutcome.

(** [create_alert_triggered_message] *)
Definition create_alert_triggered_message (now : Z) (alert : AlertEngine.Alert)
    : @Kafka.KafkaMessage AlertTriggered :=
  {| Kafka.id := AlertEngine.alert_id alert;
     Kafka.timestamp := isoformat now;
     Kafka.type := "alert_triggered";
     Kafka.source := "alert_engine";
     Kafka.data :=
       Some (Kafka.Application
               {| at_alert_id := AlertEngine.alert_id alert;
                  at_config_id := AlertEngine.alert_config_id alert;
                  at_alert_type := AlertEngine.alert_type alert;
                  at_severity := AlertEngine.alert_severity alert;
                  at_details := AlertEngine.details alert;
                  at_triggered_at := isoformat now |});
     Kafka.metadata := None |}.

(** [_trigger_alert]: what [produce_message] answers is not read. *)
Definition _trigger_alert (now : Z) (alert : AlertEngine.Alert) (e : Engine) : Engine :=
  let message := create_alert_triggered_message now alert in
  let '(_, k) :=
    Kafka.produce_message isoformat str_time send_and_wait now "alert.triggered" message
                          (Some (AlertEngine.alert_config_id alert)) [] (kafka e) in
  {| state := state e; kafka := k; alert_rules := alert_rules e;
     rules_evaluated := rules_evaluated e; alerts_triggered := alerts_triggered e + 1 |}.

(** The body of the loop of [_handle_change_detected] for one rule, with
    [fresh_id], the text of the [uuid4] drawn for its alert. *)
Definition evaluate_and_alert (now : Z) (fresh_id config_id : string)
    (change_details : Change) (rule : AlertRule) (e : Engine) : Engine :=
  let '(matched, n) := _evaluate_rule rule change_details (rules_evaluated e) in
  let e1 :=
    {| state := state e; kafka := kafka e; alert_rules := alert_rules e;
       rules_evaluated := n; alerts_triggered := alerts_triggered e |} in
  if matched then
    match AlertEngine._create_alert _generate_alert_title _generate_alert_description
                                    now fresh_id config_id rule change_details (state e1) with
    | (Some alert, st) =>
        _trigger_alert now alert
          {| state := st; kafka := kafka e1; alert_rules := alert_rules e1;
             rules_evaluated := rules_evaluated e1;
             alerts_triggered := alerts_triggered e1 |}
    | (None, st) =>
        {| state := st; kafka := kafka e1; alert_rules := alert_rules e1;
           rules_evaluated := rules_evaluated e1; alerts_triggered := alerts_triggered e1 |}
    end
  else e1.

(** The payload of a [change.detected] event, as the detector publishes
    it: [change_details] is the change. *)
Record ChangeDetected := {
  cd_config_id : option string;
  cd_change_type : option string;
  cd_change_details : Change }.

(** [_handle_change_detected] at instant [now]; [fresh_rule_id i] is the
    [uuid4] drawn for the rule at position [i] should it have no id, and
    [fresh_alert_id i] the one drawn for its alert. *)
Definition _handle_change_detected (now : Z) (fresh_rule_id fresh_alert_id : nat → string)
    (data : ChangeDetected) (e : Engine) : Engine :=
  if negb (Py.truthy_opt (cd_config_id data)) || negb (Py.truthy_opt (cd_change_type data))
  then e
  else
    let config_id := default "" (cd_config_id data) in
    let alert_rules := AlertEngine._get_alert_rules fresh_rule_id config_id (alert_rules e) in
    foldl (λ e '(i, rule),
             evaluate_and_alert now (fresh_alert_id i) config_id (cd_change_details data)
                                rule e)
          e (imap (λ i rule, (i, rule)) alert_rules).


(** *** Levels a rule can ask for *)

Lemma index_Some x i : index x = Some i → x ∈ levels.
Proof.
  unfold index. intros ([i' y] & (Hy & -> & _)%list_find_Some & _)%fmap_Some.
  by eapply list_elem_of_lookup_2.
Qed.

Lemma index_None x : x ∉ levels → index x = None.
Proof.
  intros Hx. destruct (index x) as [i|] eqn:Hi; [|done]. by apply index_Some in Hi.
Qed.

Lemma match_security_undefined_level conditions min_severity change :
  cond_min_severity conditions = Some min_severity →
  min_severity ∉ levels ∨ default "low" (get_severity change) ∉ levels →
  default false (_match_security_condition conditions change) = false.
Proof.
  intros Hmin Hbad. unfold _match_security_condition. rewrite Hmin.
  destruct (negb _); [done|].
  destruct Hbad as [Hbad|Hbad]; rewrite (index_None _ Hbad); [done|].
  by destruct (index min_severity).
Qed.

(** X26.  A security rule with [min_severity] matches no change whose severity
    (low when absent) is not one of low, medium, high and critical, hence no
    [vulnerability_fixed] change, whose severity is [info]; and when
    [min_severity] itself is not one of the four levels the rule matches
    nothing. *)
Theorem min_severity_needs_a_known_level (rule : AlertRule) conditions min_severity :
  AlertEngine.conditions rule = Some conditions →
  cond_type conditions = Some "security" →
  cond_min_severity conditions = Some min_severity →
  (∀ change n,
     default "low" (get_severity change) ∉ levels →
     (_evaluate_rule rule change n).1 = false)
  ∧ (∀ key vuln n, (_evaluate_rule rule (vulnerability_fixed key vuln) n).1 = false)
  ∧ (min_severity ∉ levels → ∀ change n, (_evaluate_rule rule change n).1 = false).
Proof.
  intros Hcond Hty Hmin.
  assert (∀ change n,
            min_severity ∉ levels ∨ default "low" (get_severity change) ∉ levels →
            (_evaluate_rule rule change n).1 = false) as Hall.
  { intros change n Hbad. unfold _evaluate_rule.
    destruct (negb _); [done|]. rewrite Hcond, Hty. cbn [fst String.eqb Ascii.eqb Bool.eqb].
    by apply match_security_undefined_level with min_severity. }
  split_and!.
  - intros change n Hbad. apply Hall. by right.
  - intros key vuln n. apply Hall. right. cbn. unfold levels.
    rewrite !not_elem_of_cons. split_and!; [done..|apply not_elem_of_nil].
  - intros Hbad change n. apply Hall. by left.
Qed.

(** *** Lowering the bar of a rule *)

Definition with_min_impact (m : option string) (c : Conditions) : Conditions :=
  {| cond_type := cond_type c; cond_technologies := cond_technologies c;
     cond_change_types := cond_change_types c; cond_min_impact := m;
     cond_metrics := cond_metrics c; cond_min_change_percent := cond_min_change_percent c;
     cond_degradation_only := cond_degradation_only c;
     cond_min_severity := cond_min_severity c;
     cond_vulnerability_types := cond_vulnerability_types c |}.

Definition with_min_severity (m : option string) (c : Conditions) : Conditions :=
  {| cond_type := cond_type c; cond_technologies := cond_technologies c;
     cond_change_types := cond_change_types c; cond_min_impact := cond_min_impact c;
     cond_metrics := cond_metrics c; cond_min_change_percent := cond_min_change_percent c;
     cond_degradation_only := cond_degradation_only c;
     cond_min_severity := m;
     cond_vulnerability_types := cond_vulnerability_types c |}.

Definition with_conditions (c : Conditions) (rule : AlertRule) : AlertRule :=
  {| AlertEngine.rule_id := AlertEngine.rule_id rule;
     AlertEngine.rule_name := AlertEngine.rule_name rule;
     AlertEngine.conditions := Some c;
     AlertEngine.rule_severity := AlertEngine.rule_severity rule;
     AlertEngine.notification_channels := AlertEngine.notification_channels rule;
     AlertEngine.rule_enabled := AlertEngine.rule_enabled rule;
     AlertEngine.throttle_minutes := AlertEngine.throttle_minutes rule |}.

(** X27.  A technology (security) rule that matches a change still matches it
    when its [min_impact] ([min_severity]) is lowered to another of the levels
    low, medium, high and critical, or removed. *)
Theorem lower_level_matches_more (rule : AlertRule) conditions level level' i i' change n :
  AlertEngine.conditions rule = Some conditions →
  index level = Some i → index level' = Some i' → (i' ≤ i)%nat →
  (_evaluate_rule rule change n).1 = true →
  (cond_type conditions = Some "technology" → cond_min_impact conditions = Some level →
   (_evaluate_rule (with_conditions (with_min_impact (Some level') conditions) rule)
                   change n).1 = true
   ∧ (_evaluate_rule (with_conditions (with_min_impact None conditions) rule)
                     change n).1 = true)
  ∧ (cond_type conditions = Some "security" → cond_min_severity conditions = Some level →
     (_evaluate_rule (with_conditions (with_min_severity (Some level') conditions) rule)
                     change n).1 = true
     ∧ (_evaluate_rule (with_conditions (with_min_severity None conditions) rule)
                       change n).1 = true).
Proof.
  intros Hcond Hi Hi' Hle. unfold _evaluate_rule.
  cbn [with_conditions AlertEngine.rule_enabled AlertEngine.conditions].
  destruct (negb (AlertEngine.rule_enabled rule)); [done|]. rewrite Hcond. cbn [fst].
  destruct conditions as [ty techs ctys mi mets mcp deg ms vts].
  cbn [with_min_impact with_min_severity cond_type cond_technologies cond_change_types
       cond_min_impact cond_metrics cond_min_change_percent cond_degradation_only
       cond_min_severity cond_vulnerability_types].
  intros Hmatch. split.
  - intros -> ->. cbn [String.eqb Ascii.eqb Bool.eqb] in *.
    unfold _match_technology_condition in *.
    cbn [with_min_impact cond_technologies cond_change_types cond_min_impact] in *.
    destruct (negb (String.eqb (get_type change) "technology_change")); [done|].
    destruct (match techs with Some _ => _ | None => _ end); [done|].
    destruct (match ctys with Some _ => _ | None => _ end); [done|].
    rewrite Hi in Hmatch. rewrite Hi'. cbn [mbind option_bind] in *.
    destruct (index (get_impact_assessment change)) as [a|]; [|done].
    cbn in *. split; [|done]. apply negb_true_iff, Nat.ltb_ge.
    apply negb_true_iff, Nat.ltb_ge in Hmatch. lia.
  - intros -> ->. cbn [String.eqb Ascii.eqb Bool.eqb] in *.
    unfold _match_security_condition in *.
    cbn [with_min_severity cond_vulnerability_types cond_min_severity] in *.
    destruct (negb (String.eqb (get_type change) "security_change")); [done|].
    rewrite Hi in Hmatch. rewrite Hi'. cbn [mbind option_bind] in *.
    destruct (index (default "low" (get_severity change))) as [a|]; [|done].
    cbn [mbind option_bind] in *.
    destruct (a <? i)%nat eqn:Hlt; [done|]. apply Nat.ltb_ge in Hlt.
    rewrite (proj2 (Nat.ltb_ge a i')) by lia. done.
Qed.

(** *** One rule, one alert *)

Lemma trigger_alert_state now alert e :
  state (_trigger_alert now alert e) = state e
  ∧ alert_rules (_trigger_alert now alert e) = alert_rules e
  ∧ rules_evaluated (_trigger_alert now alert e) = rules_evaluated e
  ∧ alerts_triggered (_trigger_alert now alert e) = alerts_triggered e + 1.
Proof. unfold _trigger_alert. by destruct (Kafka.produce_message _ _ _ _ _ _ _ _ _). Qed.

Lemma trigger_alert_requests now alert e :
  (Kafka.producer_started (kafka e) = false →
   kafka (_trigger_alert now alert e) = kafka e)
  ∧ (Kafka.producer_started (kafka e) = true →
     ∃ first rest,
       Kafka.requests (kafka (_trigger_alert now alert e))
       = Kafka.requests (kafka e) ++ first :: rest
       ∧ Kafka.req_topic first = "alert.triggered"
       ∧ Kafka.req_key first = Some (AlertEngine.alert_config_id alert)
       ∧ Kafka.req_value first = Kafka.asdict (create_alert_triggered_message now alert)).
Proof.
  unfold _trigger_alert, Kafka.produce_message, Kafka.produce_unrouted.
  destruct (Kafka.producer_started (kafka e)) eqn:Hstarted; cbn [negb]; [|by split].
  split; [done|]. intros _.
  destruct (send_and_wait (length (Kafka.requests (kafka e)))) as [|err|err].
  - cbn. by eexists _, [].
  - case_bool_decide; [|done].
    cbn [kafka].
    match goal with
    | |- context [Kafka._send_to_dlq ?a ?b ?c ?n ?v ?t ?e0 ?c1] =>
        destruct (Kafka.send_to_dlq_started a b c n v t e0 c1 Hstarted) as [_ ->]
    end.
    cbn [Kafka.requests Kafka.count_production_error]. rewrite <- app_assoc.
    by eexists _, [_].
  - cbn. by eexists _, [].
Qed.

(** X28.  A rule that matches and is not throttled, with ids that are texts of
    UUIDs: the alert is stored in a new row, with the change as its details
    and the channels of the rule, both counters grow by one, the pair is
    throttled for [throttle_minutes] minutes, and when the producer is started
    the first request made is the [alert.triggered] event, keyed by the config
    id. *)
Theorem matched_rule_stores_and_counts_an_alert
    now fresh_id config_id change (rule : AlertRule) e :
  (_evaluate_rule rule change (rules_evaluated e)).1 = true →
  AlertEngine._is_throttled now config_id (AlertEngine.rule_id rule) (state e) = false →
  is_Some (Uuid.UUID fresh_id) → is_Some (Uuid.UUID config_id) →
  let e' := evaluate_and_alert now fresh_id config_id change rule e in
  (∃ row, AlertEngine.monitoring_alerts (state e')
          = AlertEngine.monitoring_alerts (state e) ++ [row]
          ∧ AlertEngine.alert_id (AlertEngine.stored_alert row) = fresh_id
          ∧ AlertEngine.alert_config_id (AlertEngine.stored_alert row) = config_id
          ∧ AlertEngine.details (AlertEngine.stored_alert row) = change
          ∧ AlertEngine.stored_channels row = AlertEngine.notification_channels rule)
  ∧ alerts_triggered e' = alerts_triggered e + 1
  ∧ rules_evaluated e' = rules_evaluated e + 1
  ∧ (∀ t, (now ≤ t)%Z →
       AlertEngine._is_throttled t config_id (AlertEngine.rule_id rule) (state e') = true
       ↔ (t < now + AlertEngine.throttle_minutes rule * 60)%Z)
  ∧ (Kafka.producer_started (kafka e) = false → kafka e' = kafka e)
  ∧ (Kafka.producer_started (kafka e) = true →
     ∃ first rest,
       Kafka.requests (kafka e') = Kafka.requests (kafka e) ++ first :: rest
       ∧ Kafka.req_topic first = "alert.triggered"
       ∧ Kafka.req_key first = Some config_id).
Proof.
  intros Hmatch Hfree Hid Hcfg e'. subst e'. unfold evaluate_and_alert.
  assert ((_evaluate_rule rule change (rules_evaluated e)).2 = rules_evaluated e + 1) as Hn.
  { unfold _evaluate_rule in *. by destruct (negb _). }
  destruct (_evaluate_rule rule change (rules_evaluated e)) as [matched n].
  cbn [fst snd] in *. subst matched n. cbn [state].
  destruct (AlertEngine.create_alert_is_Some _generate_alert_title
              _generate_alert_description now fresh_id config_id rule change (state e)
              Hfree Hid Hcfg) as [alert Halert].
  destruct (AlertEngine._create_alert _ _ now fresh_id config_id rule change (state e))
    as [created st] eqn:Hcreate.
  cbn [fst] in Halert. subst created.
  pose proof (AlertEngine.create_alert_mark _ _ _ _ _ _ _ _ _ _ Hcreate) as Hmark.
  match goal with
  | |- context [_trigger_alert now alert ?e0] =>
      pose proof (trigger_alert_state now alert e0) as (-> & _ & -> & ->);
      pose proof (trigger_alert_requests now alert e0) as [Hoff Hon]
  end.
  cbn [state kafka rules_evaluated alerts_triggered] in *.
  assert (AlertEngine.alert_config_id alert = config_id
          ∧ ∃ row, AlertEngine.monitoring_alerts st
                   = AlertEngine.monitoring_alerts (state e) ++ [row]
                   ∧ AlertEngine.alert_id (AlertEngine.stored_alert row) = fresh_id
                   ∧ AlertEngine.alert_config_id (AlertEngine.stored_alert row) = config_id
                   ∧ AlertEngine.details (AlertEngine.stored_alert row) = change
                   ∧ AlertEngine.stored_channels row
                     = AlertEngine.notification_channels rule) as [Hcfg' Hrow].
  { unfold AlertEngine._create_alert in Hcreate. rewrite Hfree in Hcreate.
    unfold AlertEngine._store_alert in Hcreate.
    destruct Hid as [i Hi], Hcfg as [c Hc].
    cbn [AlertEngine.alert_id AlertEngine.alert_config_id AlertEngine.change_reference_id
         AlertEngine.reference_uuid] in Hcreate.
    rewrite Hi, Hc in Hcreate. cbn [mbind option_bind] in Hcreate.
    injection Hcreate as <- <-. split; [done|].
    unfold AlertEngine._set_throttle. destruct (Redis.setex _ _ _ _ _); by eexists. }
  split_and!; [done..| |].
  - done.
  - intros Hstarted. destruct (Hon Hstarted) as (first & rest & ? & ? & ? & _).
    exists first, rest. by rewrite <- Hcfg'.
Qed.

(** *** The handler of [change.detected], rule after rule *)

Lemma create_alert_rows now fresh_id config_id (rule : AlertRule) change st :
  match AlertEngine._create_alert _generate_alert_title _generate_alert_description
          now fresh_id config_id rule change st with
  | (Some _, st') =>
      length (AlertEngine.monitoring_alerts st')
      = length (AlertEngine.monitoring_alerts st) + 1
  | (None, st') => st' = st
  end.
Proof.
  unfold AlertEngine._create_alert.
  destruct (AlertEngine._is_throttled _ _ _ _); [done|].
  destruct (AlertEngine._store_alert _ _ st) as [st1|] eqn:Hstore; [|done].
  unfold AlertEngine._store_alert in Hstore.
  apply bind_Some in Hstore as (i & _ & Hstore).
  apply bind_Some in Hstore as (c & _ & Hstore).
  apply bind_Some in Hstore as (r & _ & [= <-]).
  unfold AlertEngine._set_throttle. destruct (Redis.setex _ _ _ _ _); cbn;
    by rewrite length_app.
Qed.

Lemma trigger_alert_started now alert e :
  Kafka.producer_started (kafka (_trigger_alert now alert e))
  = Kafka.producer_started (kafka e)
  ∧ (length (Kafka.requests (kafka e))
     ≤ length (Kafka.requests (kafka (_trigger_alert now alert e))))%nat.
Proof.
  destruct (trigger_alert_requests now alert e) as [Hoff Hon].
  destruct (Kafka.producer_started (kafka e)) eqn:Hstarted.
  - destruct (Hon eq_refl) as (first & rest & Hreq & _). rewrite Hreq, length_app.
    split; [|lia]. unfold _trigger_alert, Kafka.produce_message, Kafka.produce_unrouted.
    rewrite Hstarted. cbn [negb].
    destruct (send_and_wait (length (Kafka.requests (kafka e)))); [done| |done].
    case_bool_decide; [|done]. cbn [kafka].
    match goal with
    | |- context [Kafka._send_to_dlq ?a ?b ?c ?n ?v ?t ?e0 ?c1] =>
        by destruct (Kafka.send_to_dlq_started a b c n v t e0 c1 Hstarted) as [-> _]
    end.
  - by rewrite (Hoff eq_refl), Hstarted.
Qed.

(** What one turn of the loop does to the counters, the stored alerts and
    the requests made to the bus. *)
Record turn (enabled : nat) (e e' : Engine) : Prop := {
  turn_rules : alert_rules e' = alert_rules e;
  turn_evaluated : rules_evaluated e' = rules_evaluated e + enabled;
  turn_stored :
    alerts_triggered e' + length (AlertEngine.monitoring_alerts (state e))
    = alerts_triggered e + length (AlertEngine.monitoring_alerts (state e'));
  turn_triggered :
    (alerts_triggered e ≤ alerts_triggered e' ≤ alerts_triggered e + enabled)%nat;
  turn_started : Kafka.producer_started (kafka e') = Kafka.producer_started (kafka e);
  turn_requests :
    (length (Kafka.requests (kafka e))
     + (if Kafka.producer_started (kafka e)
        then alerts_triggered e' - alerts_triggered e else 0)
     ≤ length (Kafka.requests (kafka e')))%nat }.

Lemma turn_refl e : turn 0 e e.
Proof. split; try done; try lia. destruct (Kafka.producer_started _); lia. Qed.

Lemma turn_trans m n e1 e2 e3 : turn m e1 e2 → turn n e2 e3 → turn (m + n) e1 e3.
Proof.
  intros [H1 H2 H3 H4 H5 H6] [G1 G2 G3 G4 G5 G6]. rewrite H5 in G6.
  split; [congruence|lia|lia|lia|congruence|].
  destruct (Kafka.producer_started (kafka e1)); lia.
Qed.

Lemma evaluate_and_alert_turn now fresh_id config_id change (rule : AlertRule) e :
  turn (if AlertEngine.rule_enabled rule then 1 else 0) e
       (evaluate_and_alert now fresh_id config_id change rule e).
Proof.
  unfold evaluate_and_alert, _evaluate_rule.
  destruct (AlertEngine.rule_enabled rule); cbn [negb];
    [|split; cbn; try done; try lia; destruct (Kafka.producer_started _); lia].
  match goal with |- context [if ?b then _ else _] => destruct b end.
  - cbn [state kafka alert_rules rules_evaluated alerts_triggered].
    pose proof (create_alert_rows now fresh_id config_id rule change (state e)) as Hrows.
    destruct (AlertEngine._create_alert _ _ now fresh_id config_id rule change (state e))
      as [[alert|] st].
    + match goal with
      | |- context [_trigger_alert now alert ?e0] =>
          pose proof (trigger_alert_state now alert e0) as (Hs & Hr & Hn & Ha);
          pose proof (trigger_alert_started now alert e0) as [Hon Hlen];
          pose proof (trigger_alert_requests now alert e0) as [_ Hreq]
      end.
      cbn [state kafka alert_rules rules_evaluated alerts_triggered] in *.
      split; [done|done|rewrite Hs, Ha; lia|lia|done|].
      destruct (Kafka.producer_started (kafka e)); [|lia].
      destruct (Hreq eq_refl) as (first & rest & -> & _). rewrite length_app. cbn. lia.
    + subst st. split; cbn; try done; try lia. destruct (Kafka.producer_started _); lia.
  - split; cbn; try done; try lia. destruct (Kafka.producer_started _); lia.
Qed.

Lemma evaluate_and_alert_turns now fresh_alert_id config_id change
    (rules : list (nat * AlertRule)) e :
  turn (length (filter (λ r, AlertEngine.rule_enabled r = true) rules.*2)) e
       (foldl (λ e '(i, rule),
                 evaluate_and_alert now (fresh_alert_id i) config_id change rule e)
              e rules).
Proof.
  revert e. induction rules as [|[i rule] rules IH]; intros e; [apply turn_refl|].
  cbn [foldl fmap list_fmap snd]. rewrite filter_cons.
  pose proof (evaluate_and_alert_turn now (fresh_alert_id i) config_id change rule e) as H.
  specialize (IH (evaluate_and_alert now (fresh_alert_id i) config_id change rule e)).
  destruct (AlertEngine.rule_enabled rule); cbn [decide_rel]; case_decide; try done.
  - cbn [length]. by apply (turn_trans 1 _ _ _ _ H).
  - by apply (turn_trans 0 _ _ _ _ H).
Qed.

(** X29.  The handler of [change.detected] does nothing without a config id or a
    change type; otherwise it evaluates every enabled rule of the config once.
    [alerts_triggered] grows by the number of alerts stored, at most one per
    enabled rule, and a started producer is asked at least once per alert. *)
Theorem change_detected_handler_counters now fresh_rule_id fresh_alert_id data e :
  let e' := _handle_change_detected now fresh_rule_id fresh_alert_id data e in
  let rules :=
    AlertEngine._get_alert_rules fresh_rule_id (default "" (cd_config_id data))
                                 (alert_rules e) in
  let enabled := length (filter (λ r, AlertEngine.rule_enabled r = true) rules) in
  let triggered := alerts_triggered e' - alerts_triggered e in
  (if Py.truthy_opt (cd_config_id data) && Py.truthy_opt (cd_change_type data)
   then rules_evaluated e' = rules_evaluated e + enabled
   else e' = e)
  ∧ (triggered ≤ enabled)%nat
  ∧ alerts_triggered e' = alerts_triggered e + triggered
  ∧ length (AlertEngine.monitoring_alerts (state e'))
    = length (AlertEngine.monitoring_alerts (state e)) + triggered
  ∧ (length (Kafka.requests (kafka e))
     + (if Kafka.producer_started (kafka e) then triggered else 0)
     ≤ length (Kafka.requests (kafka e')))%nat
  ∧ alert_rules e' = alert_rules e.
Proof.
  cbv zeta. unfold _handle_change_detected.
  destruct (Py.truthy_opt (cd_config_id data)); cbn [negb orb andb];
    [|split_and!; try done; try lia; destruct (Kafka.producer_started _); lia].
  destruct (Py.truthy_opt (cd_change_type data)); cbn [negb orb andb];
    [|split_and!; try done; try lia; destruct (Kafka.producer_started _); lia].
  match goal with
  | |- context [foldl ?f e (imap ?g ?rules)] =>
      pose proof (evaluate_and_alert_turns now fresh_alert_id
                    (default "" (cd_config_id data)) (cd_change_details data)
                    (imap g rules) e) as [H1 H2 H3 H4 H5 H6];
      assert ((imap g rules).*2 = rules) as Hrules
  end.
  { rewrite fmap_imap. apply list_eq. intros i. rewrite list_lookup_imap.
    by destruct (_ !! i). }
  rewrite Hrules in *. split_and!; [done|lia|lia|lia| |done].
  destruct (Kafka.producer_started (kafka e)); lia.
Qed.

End Rules.

(** *** A security rule and a technology rule *)

Definition no_conditions : Conditions :=
  {| cond_type := None; cond_technologies := None; cond_change_types := None;
     cond_min_impact := None; cond_metrics := None; cond_min_change_percent := None;
     cond_degradation_only := false; cond_min_severity := None;
     cond_vulnerability_types := None |}.

Definition rule_of (conditions : Conditions) : @AlertEngine.AlertRule Conditions unit :=
  {| AlertEngine.rule_id := "rule-2"; AlertEngine.rule_name := "watch";
     AlertEngine.conditions := Some conditions; AlertEngine.rule_severity := "high";
     AlertEngine.notification_channels := []; AlertEngine.rule_enabled := true;
     AlertEngine.throttle_minutes := 60 |}.

Definition security_conditions (min_severity : string) : Conditions :=
  with_min_severity (Some min_severity)
    {| cond_type := Some "security"; cond_technologies := None; cond_change_types := None;
       cond_min_impact := None; cond_metrics := None; cond_min_change_percent := None;
       cond_degradation_only := false; cond_min_severity := None;
       cond_vulnerability_types := None |}.

Definition technology_conditions (min_impact : string) : Conditions :=
  with_min_impact (Some min_impact)
    {| cond_type := Some "technology"; cond_technologies := Some ["react"];
       cond_change_types := None; cond_min_impact := None; cond_metrics := None;
       cond_min_change_percent := None; cond_degradation_only := false;
       cond_min_severity := None; cond_vulnerability_types := None |}.

Definition never (_ : Conditions) (_ : Change) : bool := false.

Definition react_major : Change :=
  Technology_change
    {| tc_change_type := "version_changed"; tc_technology_name := "react";
       tc_technology_category := "unknown"; tc_old_version := Some "17";
       tc_new_version := Some "18"; tc_confidence := 1;
       tc_impact_assessment := "critical";
       tc_evidence := EvVersionComparison "17" "18" true |}.

Lemma min_severity_needs_a_known_level_witness :
  let rule := rule_of (security_conditions "urgent") in
  ("urgent" ∉ levels)
  ∧ ∀ change n, (_evaluate_rule never never rule change n).1 = false.
Proof.
  cbv zeta.
  assert ("urgent" ∉ levels) as Hunknown.
  { unfold levels. rewrite !not_elem_of_cons. split_and!; [done..|apply not_elem_of_nil]. }
  split; [exact Hunknown|].
  exact (proj2 (proj2 (min_severity_needs_a_known_level never never
                         (rule_of (security_conditions "urgent"))
                         (security_conditions "urgent") "urgent" eq_refl eq_refl eq_refl))
           Hunknown).
Defined.

Lemma lower_level_matches_more_witness :
  let rule := rule_of (technology_conditions "high") in
  (_evaluate_rule never never rule react_major 0).1 = true
  ∧ (_evaluate_rule never never
       (with_conditions (with_min_impact (Some "medium") (technology_conditions "high")) rule)
       react_major 0).1 = true
  ∧ (_evaluate_rule never never
       (with_conditions (with_min_impact None (technology_conditions "high")) rule)
       react_major 0).1 = true.
Proof.
  cbv zeta.
  assert ((_evaluate_rule never never (rule_of (technology_conditions "high"))
             react_major 0).1 = true) as Hmatch by (vm_compute; reflexivity).
  split; [exact Hmatch|].
  apply (proj1 (lower_level_matches_more never never
                  (rule_of (technology_conditions "high")) (technology_conditions "high")
                  "high" "medium" 2 1 react_major 0 eq_refl eq_refl eq_refl
                  (le_S 1 1 (le_n 1)) Hmatch)); reflexivity.
Defined.

(** *** The first alert of a rule *)

(** The table is declared as in the examples of [AlertEngine]. *)
#[local] Existing Instance AlertEngine.declared_defaults.

Definition idle : @Engine unit :=
  {| state := AlertEngine.idle_engine;
     kafka := {| Kafka.producer_started := true; Kafka.messages_produced := 0;
                 Kafka.messages_consumed := 0; Kafka.production_errors := 0;
                 Kafka.consumption_errors := 0; Kafka.last_error := None;
                 Kafka.requests := [] |};
     alert_rules := ∅; rules_evaluated := 0; alerts_triggered := 0 |}.

Definition title (_ : @AlertEngine.AlertRule Conditions unit) (c : Change) : string :=
  get_type c.

Lemma matched_rule_stores_and_counts_an_alert_witness :
  let rule := rule_of (technology_conditions "high") in
  let e' :=
    evaluate_and_alert never never title title
      (Kafka.fixed_text "2024-01-01T00:16:40+00:00") (Kafka.fixed_text "1704068200.0")
      (λ _, Kafka.Delivered) 1000 AlertEngine.alert_text config_text react_major rule idle in
  (∃ row, AlertEngine.monitoring_alerts (state e')
          = AlertEngine.monitoring_alerts (state idle) ++ [row]
          ∧ AlertEngine.alert_id (AlertEngine.stored_alert row) = AlertEngine.alert_text
          ∧ AlertEngine.alert_config_id (AlertEngine.stored_alert row) = config_text
          ∧ AlertEngine.details (AlertEngine.stored_alert row) = react_major
          ∧ AlertEngine.stored_channels row = AlertEngine.notification_channels rule)
  ∧ alerts_triggered e' = 1
  ∧ rules_evaluated e' = 1
  ∧ (∀ t, (1000 ≤ t)%Z →
       AlertEngine._is_throttled t config_text (AlertEngine.rule_id rule) (state e') = true
       ↔ (t < 1000 + 60 * 60)%Z)
  ∧ ∃ first rest,
      Kafka.requests (kafka e') = first :: rest
      ∧ Kafka.req_topic first = "alert.triggered"
      ∧ Kafka.req_key first = Some config_text.
Proof.
  cbv zeta.
  destruct (matched_rule_stores_and_counts_an_alert never never title title
              (Kafka.fixed_text "2024-01-01T00:16:40+00:00")
              (Kafka.fixed_text "1704068200.0") (λ _, Kafka.Delivered) 1000
              AlertEngine.alert_text config_text react_major
              (rule_of (technology_conditions "high")) idle)
    as (Hrow & Hcount & Hrules & Hthrottle & _ & Hrequest).
  - vm_compute. reflexivity.
  - vm_compute. reflexivity.
  - vm_compute. by eexists.
  - vm_compute. by eexists.
  - split; [exact Hrow|]. split; [exact Hcount|]. split; [exact Hrules|].
    split; [exact Hthrottle|]. exact (Hrequest eq_refl).
Defined.

End AlertRules.


(** ** The SMS channel ([alerting/alert_engine.py]) *)

Module SMSChannel.

(** The configuration of the channel; [to_numbers] is the list of the
    recipients (the empty list when the key is absent). *)
Record Config := {
  account_sid : option string;
  auth_token : option string;
  from_number : option string;
  to_numbers : list string }.

(** One call of [client.messages.create]. *)
Record Request := {
  req_body : string;
  req_from : option string;
  req_to : string }.

(** What the call does: it returns a message with its [sid], or raises. *)
Inductive Created :=
| Message (sid : string)
| Create_error (text : string).

(** An entry of [results]. *)
Inductive Delivery :=
| Delivered_to (to message_sid : string)
| Failed_to (to error : string).

(** The dict [send_notification] returns. *)
Record Result := {
  status : string;
  error : option string;
  results : option (list Delivery) }.

Definition newline : string := String (ascii_of_nat 10) EmptyString.

Section Channel.

(** [str.upper()] *)
Variable upper : string → string.

(** The answer of Twilio to a request, the n-th this channel makes. *)
Variable create : nat → Request → Created.

(** [self.client], as a truth value: a client is built when the account
    and the token are both given and not empty. *)
Definition client (config : Config) : bool :=
  Py.truthy_opt (account_sid config) && Py.truthy_opt (auth_token config).

(** The text of the message, cut to 160 characters. *)
Definition message_text (alert : AlertEngine.Alert) : string :=
  let message_text :=
    "[" +:+ upper (AlertEngine.alert_severity alert) +:+ "] "
    +:+ AlertEngine.alert_title alert +:+ newline
    +:+ AlertEngine.alert_description alert in
  if (160 <? String.length message_text)%nat
  then String.substring 0 157 message_text +:+ "..."
  else message_text.

(** The loop over [to_numbers]; [made] are the requests made so far. *)
Fixpoint send_each (body : string) (from : option string) (to_numbers : list string)
    (made : list Request) : list Delivery * list Request :=
  match to_numbers with
  | [] => ([], made)
  | to_number :: rest =>
      let request := {| req_body := body; req_from := from; req_to := to_number |} in
      let entry :=
        match create (length made) request with
        | Message sid => Delivered_to to_number sid
        | Create_error e => Failed_to to_number e
        end in
      let '(results, made') := send_each body from rest (made ++ [request]) in
      (entry :: results, made')
  end.

Definition is_sent (r : Delivery) : bool :=
  match r with Delivered_to _ _ => true | Failed_to _ _ => false end.

(** [send_notification], with the requests the channel has made before
    and those it has made after. *)
Definition send_notification (config : Config) (alert : AlertEngine.Alert)
    (made : list Request) : Result * list Request :=
  if negb (client config)
  then ({| status := "failed"; error := Some "Twilio client not configured";
           results := None |}, made)
  else
    let '(results, made') :=
      send_each (message_text alert) (from_number config) (to_numbers config) made in
    ({| status := if existsb is_sent results then "sent" else "failed";
        error := None; results := Some results |}, made').

(** *** The length of the text *)

Lemma length_append (s t : string) :
  String.length (s +:+ t) = String.length s + String.length t.
Proof.
  induction s as [|a s IH]; [done|].
  change (String a s +:+ t) with (String a (s +:+ t)). cbn [String.length]. by rewrite IH.
Qed.

Lemma length_substring (n : nat) (s : string) :
  String.length (String.substring 0 n s) = n `min` String.length s.
Proof.
  revert n. induction s as [|a s IH]; intros [|n]; cbn [String.substring String.length];
    try done.
  by rewrite IH.
Qed.

Lemma message_text_length alert :
  let full :=
    "[" +:+ upper (AlertEngine.alert_severity alert) +:+ "] "
    +:+ AlertEngine.alert_title alert +:+ newline
    +:+ AlertEngine.alert_description alert in
  String.length (message_text alert) = 160 `min` String.length full
  ∧ ((String.length full ≤ 160)%nat → message_text alert = full)
  ∧ ((160 < String.length full)%nat →
     message_text alert = String.substring 0 157 full +:+ "...").
Proof.
  cbv zeta. unfold message_text.
  destruct (160 <? String.length _)%nat eqn:Hlong.
  - apply Nat.ltb_lt in Hlong. rewrite length_append, length_substring.
    change (String.length "...") with 3. split_and!; [lia|lia|done].
  - apply Nat.ltb_ge in Hlong. split_and!; [lia|done|lia].
Qed.

(** *** The requests and the status *)

Definition request_to (config : Config) (alert : AlertEngine.Alert) (to_number : string)
    : Request :=
  {| req_body := message_text alert; req_from := from_number config; req_to := to_number |}.

Lemma send_each_requests body from to_numbers made :
  let request := λ to_number,
    {| req_body := body; req_from := from; req_to := to_number |} in
  let '(results, made') := send_each body from to_numbers made in
  made' = made ++ (request <$> to_numbers)
  ∧ length results = length to_numbers
  ∧ (existsb is_sent results = true
     ↔ ∃ i to_number sid,
         to_numbers !! i = Some to_number
         ∧ create (length made + i) (request to_number) = Message sid)
  ∧ ∀ i to_number, to_numbers !! i = Some to_number →
      results !! i
      = Some match create (length made + i) (request to_number) with
             | Message sid => Delivered_to to_number sid
             | Create_error e => Failed_to to_number e
             end.
Proof.
  cbv zeta. revert made. induction to_numbers as [|to_number rest IH]; intros made.
  { cbn. rewrite app_nil_r. split_and!; [done..| |done].
    split; [done|]. by intros (i & ? & ? & ? & _). }
  cbn [send_each]. specialize (IH (made ++ [{| req_body := body; req_from := from;
                                               req_to := to_number |}])).
  destruct (send_each body from rest _) as [results made'].
  destruct IH as (-> & Hlen & Hsent & Hentry). rewrite length_app in Hsent, Hentry.
  cbn [length] in Hsent, Hentry. split_and!.
  - by rewrite <- app_assoc.
  - cbn. by rewrite Hlen.
  - cbn [existsb]. rewrite orb_true_iff, Hsent. split.
    + intros [Hfirst|(i & t & sid & Hi & Hc)].
      * exists 0, to_number. rewrite Nat.add_0_r.
        destruct (create (length made) _) as [sid|]; [by exists sid|done].
      * exists (S i), t, sid. split; [done|].
        by replace (length made + S i) with (length made + 1 + i) by lia.
    + intros ([|i] & t & sid & Hi & Hc).
      * left. injection Hi as <-. rewrite Nat.add_0_r in Hc. by rewrite Hc.
      * right. exists i, t, sid. split; [done|].
        by replace (length made + 1 + i) with (length made + S i) by lia.
  - intros [|i] t Hi.
    + injection Hi as <-. by rewrite Nat.add_0_r.
    + specialize (Hentry i t Hi).
      replace (length made + 1 + i) with (length made + S i) in Hentry by lia.
      exact Hentry.
Qed.

(** X30.  A configured SMS channel makes one request per recipient, in order,
    all with the same text of at most 160 characters, and answers [sent] exactly
    when one of them is accepted; a channel without account or token makes no
    request and answers [failed]. *)
Theorem sms_text_requests_and_status config alert made :
  let '(result, made') := send_notification config alert made in
  if client config then
    made' = made ++ (request_to config alert <$> to_numbers config)
    ∧ (String.length (message_text alert) ≤ 160)%nat
    ∧ (status result = "sent"
       ↔ ∃ i to_number sid,
           to_numbers config !! i = Some to_number
           ∧ create (length made + i) (request_to config alert to_number) = Message sid)
    ∧ (status result = "sent" ∨ status result = "failed")
    ∧ (length <$> results result) = Some (length (to_numbers config))
    ∧ error result = None
  else
    made' = made ∧ status result = "failed"
    ∧ error result = Some "Twilio client not configured" ∧ results result = None.
Proof.
  unfold send_notification. destruct (client config); cbn [negb]; [|done].
  pose proof (send_each_requests (message_text alert) (from_number config)
                (to_numbers config) made) as H. cbv zeta in H.
  destruct (send_each _ _ _ made) as [entries made'].
  destruct H as (-> & Hlen & Hsent & _). cbn [status results error].
  destruct (message_text_length alert) as [Hbound _].
  split_and!; [done|lia| |by destruct (existsb _ _); [left|right]|cbn; by rewrite Hlen|done].
  rewrite <- Hsent. by destruct (existsb is_sent entries).
Qed.

End Channel.

End SMSChannel.
